(** * IdMark: the watermarking page of LocalFiligraneFacile

    A shallow embedding of the React component [IdMarkPage]
    (src/app/page.tsx, the revision without the hidden image element)
    and the properties of its file validation, watermark compositing and
    download naming.

    Conventions of the embedding.
    - React state is one record; a handler is a function on that record.
      The [setX] calls of a handler are applied in program order, so the
      last write to a field wins, as it does when React flushes a batch.
    - Values the closure of a callback captured at render time (the
      watermark text, the preview source) are passed to the callback's
      model as arguments; writes go to the current state.
    - What the browser decides (whether a 2D context is obtained, how wide
      a text measures) is read from a [runtime] record.
    - A JavaScript [Number] is an extended real: finite values are exact
      reals and the IEEE special values [Infinity], [-Infinity] and [NaN]
      arise and propagate where JavaScript produces them (division by
      zero, [Math.max] with [NaN], ...).  Rounding of finite results is
      not modelled: the counts and positions that the lemmas on the
      tiling compute are those of exact arithmetic, and the theorems
      state of them what rounding keeps.
    - A data URL that [toDataURL] made is kept as the calls that painted
      its canvas, not as pixels; two of them that differ as values can be
      one picture, which [samePixels] says.
    - A [for] loop whose counter is a [Number] takes a fuel argument: one
      unit per iteration, [None] when the fuel is spent before the loop
      condition fails. *)

From Stdlib Require Import ZArith List String Ascii Bool Lia.
From Stdlib Require Import Reals Lra.
Import ListNotations.

Open Scope string_scope.
Open Scope Z_scope.

(** ** JavaScript strings and arrays *)

Module JS.

(** [a || b] on strings: the empty string is the only falsy string. *)
Definition or_else (a b : string) : string :=
  match a with
  | EmptyString => b
  | _ => a
  end.

(** [a || b] where [a] may be [undefined]. *)
Definition or_else_undef (a : option string) (b : string) : string :=
  match a with
  | None => b
  | Some s => or_else s b
  end.

(** [s.split(sep)] for a one-character separator, as the first piece and
    the remaining pieces: the result of [split] is never empty. *)
Fixpoint split_pieces (sep : ascii) (s : string) : string * list string :=
  match s with
  | EmptyString => (EmptyString, [])
  | String c rest =>
      let (piece, pieces) := split_pieces sep rest in
      if Ascii.eqb c sep then (EmptyString, piece :: pieces)
      else (String c piece, pieces)
  end.

Definition split (sep : ascii) (s : string) : list string :=
  let (piece, pieces) := split_pieces sep s in piece :: pieces.

(** [arr.pop()]: the last element ([undefined] on an empty array) and the
    array that is left. *)
Fixpoint pop (arr : list string) : option string * list string :=
  match arr with
  | [] => (None, [])
  | [x] => (Some x, [])
  | x :: rest => let (last, rest') := pop rest in (last, x :: rest')
  end.

(** [arr.join(sep)]. *)
Definition join (sep : string) (arr : list string) : string :=
  String.concat sep arr.

(** [s.includes(c)] for a character [c]. *)
Fixpoint includes (s : string) (c : ascii) : bool :=
  match s with
  | EmptyString => false
  | String c' rest => Ascii.eqb c' c || includes rest c
  end.

(** [s.startsWith(p)]. *)
Definition startsWith (s p : string) : bool := String.prefix p s.

(** White space of [String.prototype.trim] within ASCII: TAB, LF, VT, FF,
    CR and SPACE. *)
Definition is_space (c : ascii) : bool :=
  let n := nat_of_ascii c in
  ((9 <=? n)%nat && (n <=? 13)%nat) || (n =? 32)%nat.

Fixpoint trimStart (s : string) : string :=
  match s with
  | EmptyString => EmptyString
  | String c rest => if is_space c then trimStart rest else s
  end.

(** The string without its trailing white space. *)
Fixpoint trimEnd (s : string) : string :=
  match s with
  | EmptyString => EmptyString
  | String c rest =>
      match trimEnd rest with
      | EmptyString => if is_space c then EmptyString else String c EmptyString
      | kept => String c kept
      end
  end.

(** [s.trim()]. *)
Definition trim (s : string) : string := trimEnd (trimStart s).

End JS.

(** ** Files, toasts and the component state *)

(** The fields of a DOM [File] that the page reads. *)
Record File : Type := mkFile {
  name : string;
  type : string;
  size : Z
}.

Record Toast : Type := mkToast {
  title : string;
  description : string;
  variant : option string
}.

(** ** JavaScript numbers *)

Inductive num : Type :=
| Fin (r : R)
| PInf
| NInf
| NaN.

Definition num_of_Z (z : Z) : num := Fin (IZR z).

(** Unary minus. *)
Definition num_neg (a : num) : num :=
  match a with
  | Fin r => Fin (- r)
  | PInf => NInf
  | NInf => PInf
  | NaN => NaN
  end.

Definition num_add (a b : num) : num :=
  match a, b with
  | NaN, _ | _, NaN => NaN
  | Fin x, Fin y => Fin (x + y)
  | PInf, NInf | NInf, PInf => NaN
  | PInf, _ | _, PInf => PInf
  | NInf, _ | _, NInf => NInf
  end.

(** An infinity times the finite factor [r]: [positive] tells the sign of
    the infinity. *)
Definition scale_inf (positive : bool) (r : R) : num :=
  if Req_dec_T r 0 then NaN
  else if Rlt_dec 0 r then (if positive then PInf else NInf)
  else (if positive then NInf else PInf).

Definition num_mul (a b : num) : num :=
  match a, b with
  | NaN, _ | _, NaN => NaN
  | Fin x, Fin y => Fin (x * y)
  | PInf, Fin y => scale_inf true y
  | NInf, Fin y => scale_inf false y
  | Fin x, PInf => scale_inf true x
  | Fin x, NInf => scale_inf false x
  | PInf, PInf | NInf, NInf => PInf
  | PInf, NInf | NInf, PInf => NInf
  end.

(** Division.  A finite zero divisor is the positive zero: every divisor
    of the page is a product or a maximum of values that are not
    negative. *)
Definition num_div (a b : num) : num :=
  match a, b with
  | NaN, _ | _, NaN => NaN
  | Fin x, Fin y =>
      if Req_dec_T y 0 then
        (if Req_dec_T x 0 then NaN
         else if Rlt_dec 0 x then PInf else NInf)
      else Fin (x / y)
  | Fin _, PInf | Fin _, NInf => Fin 0
  | PInf, Fin y => if Rlt_dec y 0 then NInf else PInf
  | NInf, Fin y => if Rlt_dec y 0 then PInf else NInf
  | PInf, PInf | PInf, NInf | NInf, PInf | NInf, NInf => NaN
  end.

(** [a < b]; every comparison with [NaN] is false. *)
Definition num_lt (a b : num) : bool :=
  match a, b with
  | NaN, _ | _, NaN => false
  | Fin x, Fin y => if Rlt_dec x y then true else false
  | _, NInf => false
  | PInf, _ => false
  | NInf, _ => true
  | Fin _, PInf => true
  end.

(** [Math.max(a, b)] and [Math.min(a, b)]. *)
Definition Math_max (a b : num) : num :=
  match a, b with
  | NaN, _ | _, NaN => NaN
  | PInf, _ | _, PInf => PInf
  | NInf, c | c, NInf => c
  | Fin x, Fin y => Fin (Rmax x y)
  end.

Definition Math_min (a b : num) : num :=
  match a, b with
  | NaN, _ | _, NaN => NaN
  | NInf, _ | _, NInf => NInf
  | PInf, c | c, PInf => c
  | Fin x, Fin y => Fin (Rmin x y)
  end.

(** The least integer that is not below [r]. *)
Definition ceilZ (r : R) : Z := (1 - up (- r))%Z.

(** [Math.ceil(a)]. *)
Definition Math_ceil (a : num) : num :=
  match a with
  | Fin r => Fin (IZR (ceilZ r))
  | other => other
  end.

(** [Math.sqrt(a)]. *)
Definition Math_sqrt (a : num) : num :=
  match a with
  | Fin r => if Rlt_dec r 0 then NaN else Fin (R_sqrt.sqrt r)
  | PInf => PInf
  | NInf | NaN => NaN
  end.

(** [Math.PI]. *)
Definition Math_PI : num := Fin Rtrigo1.PI.

Declare Scope num_scope.
Delimit Scope num_scope with num.
Bind Scope num_scope with num.
Notation "- a" := (num_neg a) : num_scope.
Infix "+" := num_add : num_scope.
Infix "*" := num_mul : num_scope.
Infix "/" := num_div : num_scope.
Infix "<?" := num_lt : num_scope.


(** ** Canvas *)

(** [ctx.font] as the template [`${weight} ${size}px ${family}`] builds
    it. *)
Record Font : Type := mkFont {
  fontWeight : string;
  fontSizePx : num;
  fontFamily : string
}.

(** The context properties that decide how [fillText] paints. *)
Record TextStyle : Type := mkTextStyle {
  font : Font;
  fillStyle : string;
  textAlign : string;
  textBaseline : string
}.

(** A data URL of an image is either given by its bytes, as [FileReader]
    read them from an image file or as the rendering of a PDF page left
    them, and decodes to a bitmap of some natural size, or it is what
    [toDataURL] made of a canvas of the page.  The content of a canvas is
    its size and the painting and transformation calls made on its
    context, oldest first. *)
Inductive dataURL : Type :=
| FileData (naturalW naturalH : Z) (bytes : string)
| CanvasData (w h : Z) (painted : list call)
with call : Type :=
| DrawImage (img : dataURL) (dx dy dw dh : num)
| Translate (x y : num)
| Rotate (angle : num)
| FillText (text : string) (x y : num) (style : TextStyle).

(** [img.naturalWidth] and [img.naturalHeight] of the image decoded from
    a data URL. *)
Definition naturalWidth (img : dataURL) : Z :=
  match img with
  | FileData w _ _ => w
  | CanvasData w _ _ => w
  end.

Definition naturalHeight (img : dataURL) : Z :=
  match img with
  | FileData _ h _ => h
  | CanvasData _ h _ => h
  end.

(** A canvas element together with its 2D context. *)
Record Canvas : Type := mkCanvas {
  width : Z;
  height : Z;
  style : TextStyle;
  calls : list call
}.

(** [document.createElement('canvas')]: the default size of a canvas is
    300 x 150, its context starts with the default text properties and
    nothing is painted. *)
Definition createCanvas : Canvas :=
  mkCanvas 300 150
    (mkTextStyle (mkFont "normal" (Fin 10) "sans-serif") "#000000" "start" "alphabetic")
    [].

Definition set_width (c : Canvas) (w : Z) : Canvas :=
  mkCanvas w (height c) (style c) (calls c).

Definition set_height (c : Canvas) (h : Z) : Canvas :=
  mkCanvas (width c) h (style c) (calls c).

Definition set_font (c : Canvas) (f : Font) : Canvas :=
  mkCanvas (width c) (height c)
    (mkTextStyle f (fillStyle (style c)) (textAlign (style c)) (textBaseline (style c)))
    (calls c).

Definition set_fillStyle (c : Canvas) (s : string) : Canvas :=
  mkCanvas (width c) (height c)
    (mkTextStyle (font (style c)) s (textAlign (style c)) (textBaseline (style c)))
    (calls c).

Definition set_textAlign (c : Canvas) (s : string) : Canvas :=
  mkCanvas (width c) (height c)
    (mkTextStyle (font (style c)) (fillStyle (style c)) s (textBaseline (style c)))
    (calls c).

Definition set_textBaseline (c : Canvas) (s : string) : Canvas :=
  mkCanvas (width c) (height c)
    (mkTextStyle (font (style c)) (fillStyle (style c)) (textAlign (style c)) s)
    (calls c).

Definition log_call (c : Canvas) (k : call) : Canvas :=
  mkCanvas (width c) (height c) (style c) (calls c ++ [k]).

Definition drawImage (c : Canvas) (img : dataURL) (dx dy dw dh : num) : Canvas :=
  log_call c (DrawImage img dx dy dw dh).

Definition translate (c : Canvas) (x y : num) : Canvas :=
  log_call c (Translate x y).

Definition rotate (c : Canvas) (angle : num) : Canvas :=
  log_call c (Rotate angle).

Definition fillText (c : Canvas) (text : string) (x y : num) : Canvas :=
  log_call c (FillText text x y (style c)).

(** [canvas.toDataURL('image/png')]: the PNG of the canvas, kept as the
    size of the canvas and the calls that painted it. *)
Definition toDataURL (c : Canvas) : dataURL :=
  CanvasData (width c) (height c) (calls c).

(** What the browser decides: whether [getContext('2d')] yields a context
    for a canvas of a given size, and the width [measureText] reports for
    a text in a font. *)
Record Runtime : Type := mkRuntime {
  context2d : Z -> Z -> bool;
  measureTextWidth : Font -> string -> R
}.

Definition getContext (rt : Runtime) (c : Canvas) : option Canvas :=
  if context2d rt (width c) (height c) then Some c else None.

(** ** The state of [IdMarkPage] *)

Record State : Type := mkState {
  originalFile : option File;
  originalImagePreviewSrc : option dataURL;
  watermarkText : string;
  watermarkedImageSrc : option dataURL;
  isLoading : bool;
  progress : Z;
  error : option string;
  fileInputValue : string;
  toasts : list Toast
}.

(** The initial state: every [useState] default, an untouched file input
    and no toast shown. *)
Definition initialState : State :=
  mkState None None "CONFIDENTIAL" None false 0 None "" [].

Definition setOriginalFile (v : option File) (s : State) : State :=
  mkState v (originalImagePreviewSrc s) (watermarkText s) (watermarkedImageSrc s)
    (isLoading s) (progress s) (error s) (fileInputValue s) (toasts s).

Definition setOriginalImagePreviewSrc (v : option dataURL) (s : State) : State :=
  mkState (originalFile s) v (watermarkText s) (watermarkedImageSrc s)
    (isLoading s) (progress s) (error s) (fileInputValue s) (toasts s).

Definition setWatermarkText (v : string) (s : State) : State :=
  mkState (originalFile s) (originalImagePreviewSrc s) v (watermarkedImageSrc s)
    (isLoading s) (progress s) (error s) (fileInputValue s) (toasts s).

Definition setWatermarkedImageSrc (v : option dataURL) (s : State) : State :=
  mkState (originalFile s) (originalImagePreviewSrc s) (watermarkText s) v
    (isLoading s) (progress s) (error s) (fileInputValue s) (toasts s).

Definition setIsLoading (v : bool) (s : State) : State :=
  mkState (originalFile s) (originalImagePreviewSrc s) (watermarkText s)
    (watermarkedImageSrc s) v (progress s) (error s) (fileInputValue s) (toasts s).

Definition setProgress (v : Z) (s : State) : State :=
  mkState (originalFile s) (originalImagePreviewSrc s) (watermarkText s)
    (watermarkedImageSrc s) (isLoading s) v (error s) (fileInputValue s) (toasts s).

Definition setError (v : option string) (s : State) : State :=
  mkState (originalFile s) (originalImagePreviewSrc s) (watermarkText s)
    (watermarkedImageSrc s) (isLoading s) (progress s) v (fileInputValue s) (toasts s).

(** [fileInput.value = v] on the element with id [file-upload]. *)
Definition setFileInputValue (v : string) (s : State) : State :=
  mkState (originalFile s) (originalImagePreviewSrc s) (watermarkText s)
    (watermarkedImageSrc s) (isLoading s) (progress s) (error s) v (toasts s).

(** [toast({ title, description, variant })]. *)
Definition toast (t : Toast) (s : State) : State :=
  mkState (originalFile s) (originalImagePreviewSrc s) (watermarkText s)
    (watermarkedImageSrc s) (isLoading s) (progress s) (error s) (fileInputValue s)
    (toasts s ++ [t]).

(** ** Handlers that may throw or run a loop *)

(** How a block of statements ends: normally, or by [throw new Error(m)],
    of which the handlers only read [err.message]. *)
Inductive outcome (A : Type) : Type :=
| Normal (a : A)
| Thrown (message : string).

Arguments Normal {A} a.
Arguments Thrown {A} message.

(** A block: from the state to its outcome and the state it leaves;
    [None] when a loop of the block has not finished within the fuel. *)
Definition Exec (A : Type) : Type := State -> option (outcome A * State).

Definition ret {A : Type} (a : A) : Exec A :=
  fun s => Some (Normal a, s).

Definition bind {A B : Type} (m : Exec A) (k : A -> Exec B) : Exec B :=
  fun s =>
    match m s with
    | None => None
    | Some (Normal a, s') => k a s'
    | Some (Thrown msg, s') => Some (Thrown msg, s')
    end.

Definition throw {A : Type} (message : string) : Exec A :=
  fun s => Some (Thrown message, s).

(** A state setter as a statement. *)
Definition update (f : State -> State) : Exec unit :=
  fun s => Some (Normal tt, f s).

(** The result of a loop as a statement. *)
Definition from_loop {A : Type} (r : option A) : Exec A :=
  fun s =>
    match r with
    | None => None
    | Some a => Some (Normal a, s)
    end.

(** [try { body } catch (err) { handler(err.message) } finally { final }]
    with handlers that only set state. *)
Definition try_catch_finally (body : Exec unit)
    (handler : string -> State -> State) (final : State -> State)
    : State -> option State :=
  fun s =>
    match body s with
    | None => None
    | Some (Normal _, s') => Some (final s')
    | Some (Thrown msg, s') => Some (final (handler msg s'))
    end.

Declare Scope exec_scope.
Delimit Scope exec_scope with exec.
Notation "x <- m ;; k" := (bind m (fun x => k))
  (at level 61, m at next level, right associativity) : exec_scope.
Notation "m ;; k" := (bind m (fun _ => k))
  (at level 61, right associativity) : exec_scope.

(** ** [resetState] and [handleFileChange] *)

(** The file input with id [file-upload] is part of the page whenever a
    handler runs, so its value is always reset. *)
Definition resetState (s : State) : State :=
  let s := setOriginalFile None s in
  let s := setOriginalImagePreviewSrc None s in
  let s := setWatermarkedImageSrc None s in
  let s := setIsLoading false s in
  let s := setProgress 0 s in
  let s := setError None s in
  setFileInputValue "" s.

Definition unsupportedTypeText : string :=
  "Unsupported file type. Please upload an image (PNG, JPG) or PDF.".

Definition tooLargeText : string :=
  "File is too large. Maximum size is 20MB.".

(** [file] is [event.target.files?.[0]], read before [resetState] empties
    the input. *)
Definition handleFileChange (file : option File) (s : State) : State :=
  let s := resetState s in
  match file with
  | Some file =>
      if negb (String.eqb (type file) "application/pdf")
         && negb (JS.startsWith (type file) "image/")
      then
        let errText := unsupportedTypeText in
        let s := setError (Some errText) s in
        toast (mkToast "Unsupported File" errText (Some "destructive")) s
      else if size file >? 20 * 1024 * 1024 then
        let errText := tooLargeText in
        let s := setError (Some errText) s in
        toast (mkToast "Error" errText (Some "destructive")) s
      else
        setOriginalFile (Some file) s
  | None => s
  end.

(** The synchronous part of the effect that depends on [originalFile]:
    the state it sets and the file it hands to
    [reader.readAsDataURL], if any. *)
Definition fileEffect (s : State) : State * option File :=
  match originalFile s with
  | None => (setOriginalImagePreviewSrc None s, None)
  | Some file =>
      let s := setIsLoading true s in
      let s := setProgress 10 s in
      let s := setError None s in
      (s, Some file)
  end.

(** ** [applyWatermark] *)

(** The tiling loops.  [row] is the inner [for] over [x] at a fixed [y],
    [rows] the outer [for] over [y]. *)
Fixpoint row (fuel : nat) (ctx : Canvas) (text : string)
    (diagonalLength step y x : num) : option Canvas :=
  match fuel with
  | O => None
  | S fuel' =>
      if (x <? diagonalLength / Fin 2)%num then
        let ctx := fillText ctx text x y in
        row fuel' ctx text diagonalLength step y (x + step * Fin 2.5)%num
      else Some ctx
  end.

Fixpoint rows (fuel : nat) (ctx : Canvas) (text : string)
    (diagonalLength step y : num) : option Canvas :=
  match fuel with
  | O => None
  | S fuel' =>
      if (y <? diagonalLength / Fin 2)%num then
        match row fuel ctx text diagonalLength step y
                (- diagonalLength / Fin 2)%num with
        | None => None
        | Some ctx => rows fuel' ctx text diagonalLength step (y + step)%num
        end
      else Some ctx
  end.

Definition noPreviewText : string :=
  "Original image not loaded or no preview available for watermarking.".

Definition imageLoadFailedText : string :=
  "Failed to load image for watermarking. The image data might be corrupted or the format is unsupported by the browser for canvas operations.".

(** [applyWatermark] up to [img.src = originalImagePreviewSrc]: the state
    it sets and the source whose load it triggers, if any.  The browser
    answers a load with [img.onload] or with [img.onerror]. *)
Definition applyWatermark (s : State) : State * option dataURL :=
  match originalImagePreviewSrc s with
  | None =>
      let s' := setError (Some noPreviewText) s in
      let s' := toast (mkToast "Watermark Error"
                         "No image preview. Please re-upload."
                         (Some "destructive")) s' in
      (s', None)
  | Some src =>
      let s' := setIsLoading true s in
      let s' := setError None s' in
      let s' := setProgress 0 s' in
      (s', Some src)
  end.

(** [const text = watermarkText || "CONFIDENTIAL"]. *)
Definition effectiveText (watermarkText : string) : string :=
  JS.or_else watermarkText "CONFIDENTIAL".

(** [Math.max(12, Math.min(canvas.width, canvas.height) / 25)]. *)
Definition fontSizeFor (w h : Z) : num :=
  Math_max (Fin 12) (Math_min (num_of_Z w) (num_of_Z h) / Fin 25)%num.

(** [Math.sqrt(canvas.width * canvas.width + canvas.height * canvas.height)]. *)
Definition diagonalFor (w h : Z) : num :=
  Math_sqrt (num_of_Z w * num_of_Z w + num_of_Z h * num_of_Z h)%num.

(** [Math.ceil(diagonalLength / (textWidth * 0.7))]. *)
Definition repetitionsFor (diagonalLength textWidth : num) : num :=
  Math_ceil (diagonalLength / (textWidth * Fin 0.7))%num.

(** [diagonalLength / Math.max(5, repetitions)]. *)
Definition stepFor (diagonalLength repetitions : num) : num :=
  (diagonalLength / Math_max (Fin 5) repetitions)%num.

(** The [catch] block of [img.onload]; [message] is [err.message]. *)
Definition onload_catch (message : string) (s : State) : State :=
  let errorMessage := JS.or_else message "Failed to apply watermark." in
  let s := setError (Some errorMessage) s in
  let s := toast (mkToast "Watermark Error" errorMessage (Some "destructive")) s in
  setWatermarkedImageSrc None s.

(** [img.onload]: [watermarkText] is the text the callback captured and
    [img] the image decoded from the source. *)
Definition img_onload (fuel : nat) (rt : Runtime) (watermarkText : string)
    (img : dataURL) : State -> option State :=
  try_catch_finally
    (let canvas := createCanvas in
     let canvas := set_width canvas (naturalWidth img) in
     let canvas := set_height canvas (naturalHeight img) in
     ctx <- match getContext rt canvas with
            | None => throw "Could not get canvas context."
            | Some ctx => ret ctx
            end ;;
     update (setProgress 20) ;;
     let ctx := drawImage ctx img (Fin 0) (Fin 0)
                  (num_of_Z (width canvas)) (num_of_Z (height canvas)) in
     update (setProgress 40) ;;
     let text := effectiveText watermarkText in
     let fontSize := fontSizeFor (width canvas) (height canvas) in
     let ctx := set_font ctx (mkFont "bold" fontSize "sans-serif") in
     let ctx := set_fillStyle ctx "rgba(128, 128, 128, 0.35)" in
     let ctx := set_textAlign ctx "center" in
     let ctx := set_textBaseline ctx "middle" in
     update (setProgress 60) ;;
     let angle := (- Math_PI / Fin 4)%num in
     let textWidth := Fin (measureTextWidth rt (font (style ctx)) text) in
     let diagonalLength := diagonalFor (width canvas) (height canvas) in
     let repetitions := repetitionsFor diagonalLength textWidth in
     let step := stepFor diagonalLength repetitions in
     let ctx := translate ctx (num_of_Z (width canvas) / Fin 2)%num
                  (num_of_Z (height canvas) / Fin 2)%num in
     let ctx := rotate ctx angle in
     ctx <- from_loop (rows fuel ctx text diagonalLength step
                         (- diagonalLength / Fin 2)%num) ;;
     let ctx := rotate ctx (- angle)%num in
     let ctx := translate ctx (- num_of_Z (width canvas) / Fin 2)%num
                  (- num_of_Z (height canvas) / Fin 2)%num in
     update (setProgress 80) ;;
     update (setWatermarkedImageSrc (Some (toDataURL ctx))) ;;
     update (setProgress 100) ;;
     update (toast (mkToast "Success" "Watermark applied successfully!" None)))%exec
    onload_catch
    (setIsLoading false).

(** [img.onerror]. *)
Definition img_onerror (s : State) : State :=
  let s := setError (Some imageLoadFailedText) s in
  let s := toast (mkToast "Watermark Error"
                    "Failed to load image for watermarking. Please try again or use a different file."
                    (Some "destructive")) s in
  let s := setIsLoading false s in
  let s := setProgress 0 s in
  setWatermarkedImageSrc None s.

(** ** [handleDownload] *)

(** [link.download] for the original file. *)
Definition downloadName (originalFile : File) : string :=
  let fileNameParts := JS.split "." (name originalFile) in
  let (popped, fileNameParts) := JS.pop fileNameParts in
  let extension := JS.or_else_undef popped "png" in
  let nameWithoutExtension := JS.or_else (JS.join "." fileNameParts) "document" in
  nameWithoutExtension ++ "_watermarked."
    ++ (if String.eqb (type originalFile) "application/pdf" then "png" else extension).

(** The state after a click on the download button and the link that was
    clicked, as its [href] and [download], if any. *)
Definition handleDownload (s : State) : State * option (dataURL * string) :=
  match watermarkedImageSrc s, originalFile s with
  | Some href, Some file =>
      let download := downloadName file in
      (toast (mkToast "Download Started" ("Downloading " ++ download) None) s,
       Some (href, download))
  | _, _ => (s, None)
  end.

(** ** Notions used in the statements *)

(** The test of [handleFileChange] on [file.type], and its size limit. *)
Definition supportedType (file : File) : bool :=
  String.eqb (type file) "application/pdf" || JS.startsWith (type file) "image/".

Definition maxFileSize : Z := 20 * 1024 * 1024.

(** One click on "Apply Watermark" and the load event that answers it:
    [img.onload] when [loads], [img.onerror] otherwise.  The callback
    holds the text of the state the click happened in. *)
Definition clickApply (fuel : nat) (rt : Runtime) (loads : bool) (s : State)
    : option State :=
  let (s', pending) := applyWatermark s in
  match pending with
  | None => Some s'
  | Some src =>
      if loads then img_onload fuel rt (watermarkText s) src s'
      else Some (img_onerror s')
  end.

(** The compositor of the specification, read off [img.onload]: the
    bitmap it stores as watermarked image, or the message it reports. *)
Inductive CompositeResult : Type :=
| Bitmap (out : dataURL)
| RenderError (message : option string).

Definition composite (fuel : nat) (rt : Runtime) (text : string) (source : dataURL)
    : option CompositeResult :=
  match img_onload fuel rt text source initialState with
  | None => None
  | Some s =>
      Some (match watermarkedImageSrc s with
            | Some out => Bitmap out
            | None => RenderError (error s)
            end)
  end.

(** The text the specification asks for: [spec.text.trim() || "CONFIDENTIAL"]. *)
Definition specText (text : string) : string :=
  JS.or_else (JS.trim text) "CONFIDENTIAL".

(** A text without any character that is not white space. *)
Fixpoint blank (s : string) : bool :=
  match s with
  | EmptyString => true
  | String c rest => JS.is_space c && blank rest
  end.

(** The font [img.onload] sets on a canvas of size [w] x [h], and the
    text style its [fillText] calls paint with. *)
Definition watermarkFont (w h : Z) : Font :=
  mkFont "bold" (fontSizeFor w h) "sans-serif".

Definition watermarkStyle (w h : Z) : TextStyle :=
  mkTextStyle (watermarkFont w h) "rgba(128, 128, 128, 0.35)" "center" "middle".

(** The tiles of a finished tiling in closed form: row [k], column [j] is
    painted at [(x0 + j * sx, y0 + k * sy)], row after row. *)
Definition tileRow (text : string) (st : TextStyle) (x0 sx : R) (y : num)
    (ncols : nat) : list call :=
  map (fun j => FillText text (Fin (x0 + INR j * sx)) y st) (seq 0 ncols).

Definition tileGrid (text : string) (st : TextStyle) (x0 y0 sx sy : R)
    (nrows ncols : nat) : list call :=
  flat_map (fun k => tileRow text st x0 sx (Fin (y0 + INR k * sy)) ncols)
    (seq 0 nrows).

(** A canvas with further calls recorded. *)
Definition painted_more (c : Canvas) (more : list call) : Canvas :=
  mkCanvas (width c) (height c) (style c) (calls c ++ more).

(** Every [fillText] an image carries, in painting order, those of the
    images drawn into it included. *)
Fixpoint fillTexts (img : dataURL) : list call :=
  match img with
  | FileData _ _ _ => []
  | CanvasData _ _ painted =>
      (fix collect (l : list call) : list call :=
         match l with
         | [] => []
         | c :: l' =>
             (match c with
              | DrawImage inner _ _ _ _ => fillTexts inner
              | FillText _ _ _ _ => [c]
              | Translate _ _ | Rotate _ => []
              end ++ collect l')%list
         end) painted
  end.

(** A call that is a [fillText] of [text] in the style [st]. *)
Definition paintsText (text : string) (st : TextStyle) (c : call) : Prop :=
  exists x y, c = FillText text x y st.

(** The length of the diagonal of a [w] x [h] canvas as a real. *)
Definition diagonalR (w h : Z) : R :=
  R_sqrt.sqrt (IZR w * IZR w + IZR h * IZR h).

(** The width [img.onload] measures for its text on a canvas of size
    [w] x [h], and the step it derives from it. *)
Definition measuredWidth (rt : Runtime) (watermarkText : string) (w h : Z) : R :=
  measureTextWidth rt (watermarkFont w h) (effectiveText watermarkText).

Definition tilingStep (rt : Runtime) (watermarkText : string) (w h : Z) : num :=
  stepFor (diagonalFor w h)
    (repetitionsFor (diagonalFor w h) (Fin (measuredWidth rt watermarkText w h))).

(** The canvas of [img.onload] when the tiling starts: the source drawn
    at its natural size, the watermark style set, the frame moved to the
    centre and rotated. *)
Definition tilingCanvas (img : dataURL) : Canvas :=
  let w := naturalWidth img in
  let h := naturalHeight img in
  mkCanvas w h (watermarkStyle w h)
    [DrawImage img (Fin 0) (Fin 0) (num_of_Z w) (num_of_Z h);
     Translate (num_of_Z w / Fin 2)%num (num_of_Z h / Fin 2)%num;
     Rotate (- Math_PI / Fin 4)%num].

(** The data URL [img.onload] stores when its tiling painted [tiles]:
    the source drawn at its natural size, the rotated frame, the tiles,
    the frame restored. *)
Definition watermarked (img : dataURL) (tiles : list call) : dataURL :=
  let w := naturalWidth img in
  let h := naturalHeight img in
  CanvasData w h
    ([DrawImage img (Fin 0) (Fin 0) (num_of_Z w) (num_of_Z h);
      Translate (num_of_Z w / Fin 2)%num (num_of_Z h / Fin 2)%num;
      Rotate (- Math_PI / Fin 4)%num]
     ++ tiles
     ++ [Rotate (- (- Math_PI / Fin 4))%num;
         Translate (- num_of_Z w / Fin 2)%num (- num_of_Z h / Fin 2)%num])%list.

(** The state [img.onload] leaves when it stored [out], and the state it
    leaves when its [try] block threw an error with [message]. *)
Definition storedState (out : dataURL) (s : State) : State :=
  let s := setProgress 20 s in
  let s := setProgress 40 s in
  let s := setProgress 60 s in
  let s := setProgress 80 s in
  let s := setWatermarkedImageSrc (Some out) s in
  let s := setProgress 100 s in
  let s := toast (mkToast "Success" "Watermark applied successfully!" None) s in
  setIsLoading false s.

Definition caughtState (message : string) (s : State) : State :=
  setIsLoading false (onload_catch message s).

(** ** Sample inputs *)

(** A browser that always yields a context and measures every text at
    the width [tw]. *)
Definition plainRuntime (tw : R) : Runtime :=
  mkRuntime (fun _ _ => true) (fun _ _ => tw).

(** A browser that yields no context. *)
Definition noContextRuntime : Runtime :=
  mkRuntime (fun _ _ => false) (fun _ _ => 50%R).

(** A 3 x 4 image, whose diagonal is 5, and an image without area. *)
Definition photo3x4 : dataURL := FileData 3 4 "data:image/png;base64,AAAA".

Definition emptyImage : dataURL := FileData 0 0 "data:image/png;base64,".

(** ZERO WIDTH SPACE (U+200B) in UTF-8: a text that is not empty and
    measures nothing. *)
Definition zeroWidthSpace : string :=
  String (ascii_of_nat 226) (String (ascii_of_nat 128) (String (ascii_of_nat 139) EmptyString)).

Definition passportPdf : File := mkFile "passport.pdf" "application/pdf" 4096.

Definition scanPng : File := mkFile "scan" "image/png" 4096.

(** Two images that differ only in their size: one byte over the limit
    and exactly at the limit. *)
Definition oversizedPng : File := mkFile "id.png" "image/png" (20 * 1024 * 1024 + 1).

Definition largestPng : File := mkFile "id.png" "image/png" (20 * 1024 * 1024).

Definition notesTxt : File := mkFile "notes.txt" "text/plain" 12.

(** The 3 x 4 image watermarked with ["DRAFT"] by a browser that measures
    the text at 10: five rows of two tiles. *)
Definition draftOn3x4 : dataURL :=
  watermarked photo3x4
    (tileGrid "DRAFT" (watermarkStyle 3 4) (- 5 / 2) (- 5 / 2) 2.5 1 5 2).

(** A state in which the image named ["scan"] is loaded and watermarked. *)
Definition scanSession : State :=
  mkState (Some scanPng) (Some photo3x4) "DRAFT" (Some draftOn3x4)
    false 100 None "scan" [].

(** A state in which a document is loaded and watermarked. *)
Definition watermarkedSession : State :=
  mkState (Some passportPdf) (Some photo3x4) "DRAFT" (Some draftOn3x4)
    false 100 None "passport.pdf" [].

(** ** What the page shows *)

(** A string or [null] that is truthy: a string that is not empty. *)
Definition truthy (v : option string) : bool :=
  match v with
  | Some (String _ _) => true
  | _ => false
  end.

(** A data URL or [null] that is truthy; a data URL is never the empty
    string. *)
Definition present (v : option dataURL) : bool :=
  match v with
  | Some _ => true
  | None => false
  end.

(** [{originalFile && ...}]: the button "Clear Selection & Reset". *)
Definition showsResetButton (s : State) : bool :=
  match originalFile s with
  | Some _ => true
  | None => false
  end.

(** [{isLoading && progress > 0 && ...}]: the progress bar. *)
Definition showsProgress (s : State) : bool :=
  isLoading s && (progress s >? 0).

(** [{error && ...}]: the error alert. *)
Definition showsError (s : State) : bool := truthy (error s).

(** [{originalImagePreviewSrc && !isLoading && !error && ...}]: the card
    "Customize Watermark" with the text input and the button "Apply
    Watermark". *)
Definition showsCustomize (s : State) : bool :=
  present (originalImagePreviewSrc s) && negb (isLoading s) && negb (truthy (error s)).

(** [disabled={isLoading || !originalImagePreviewSrc}] of "Apply
    Watermark". *)
Definition applyDisabled (s : State) : bool :=
  isLoading s || negb (present (originalImagePreviewSrc s)).

(** [{(originalImagePreviewSrc || watermarkedImageSrc) && !isLoading &&
    !error && ...}]: the card "Preview & Download". *)
Definition showsPreviewCard (s : State) : bool :=
  (present (originalImagePreviewSrc s) || present (watermarkedImageSrc s))
  && negb (isLoading s) && negb (truthy (error s)).

(** [{watermarkedImageSrc && ...}] inside that card: the button "Download
    Watermarked Image", and its [disabled={isLoading ||
    !watermarkedImageSrc}]. *)
Definition showsDownloadButton (s : State) : bool :=
  showsPreviewCard s && present (watermarkedImageSrc s).

Definition downloadDisabled (s : State) : bool :=
  isLoading s || negb (present (watermarkedImageSrc s)).

(** ** Loading the selected file *)

(** [await p]: the value of a promise that resolves, a [throw] of its
    reason when it rejects. *)
Definition await {A : Type} (p : outcome A) : Exec A :=
  match p with
  | Normal a => ret a
  | Thrown message => throw message
  end.

(** [canvas.width = v] and [canvas.height = v] for a finite number [v]:
    the attributes are unsigned longs, so the number is truncated towards
    zero and taken modulo 2^32, and a value above 2^31 - 1 sets the
    default of the attribute, 300 for the width and 150 for the
    height. *)
Definition truncZ (r : R) : Z :=
  if Rle_dec 0 r then - ceilZ (- r) else ceilZ r.

Definition canvasLength (fallback : Z) (v : R) : Z :=
  let n := truncZ v mod 2 ^ 32 in
  if n <=? 2147483647 then n else fallback.

(** A page of a PDF document: the width and the height of
    [page.getViewport({ scale })], which are fractions of a pixel as a
    rule, and [page.render({ canvasContext, viewport }).promise], which
    resolves with the PNG that [toDataURL] then makes of the canvas. *)
Record PdfPage : Type := mkPdfPage {
  getViewport : R -> R * R;
  render : Canvas -> R * R -> outcome string
}.

(** [pdf.getPage(n)]. *)
Record PdfDocument : Type := mkPdfDocument {
  getPage : Z -> outcome PdfPage
}.

(** What the browser and pdf.js decide while a file loads: the natural
    size of the image a data URL encodes, [atob] of a piece of the data
    URL, which can be [undefined], and
    [pdfjsLib.getDocument({ data }).promise]. *)
Record Loader : Type := mkLoader {
  imageSize : string -> Z * Z;
  atob : option string -> outcome string;
  getDocument : string -> outcome PdfDocument
}.

Definition processingFailedText : string := "Failed to load or process the file.".

Definition readFailedText : string := "Failed to read the file.".

(** The [catch] block of [reader.onload]. *)
Definition reader_catch (message : string) (s : State) : State :=
  let errorMessage := JS.or_else message processingFailedText in
  let s := setError (Some errorMessage) s in
  let s := toast (mkToast "Processing Error" errorMessage (Some "destructive")) s in
  setOriginalImagePreviewSrc None s.

(** [reader.onload] of the effect, run to its end: [originalFile] is the
    file the effect captured and [fileSrc] is [e.target.result]. *)
Definition reader_onload (rt : Runtime) (ld : Loader) (originalFile : File)
    (fileSrc : string) (s : State) : option State :=
  let s := setProgress 30 s in
  try_catch_finally
    ((if String.eqb (type originalFile) "application/pdf" then
        data <- await (atob ld (nth_error (JS.split "," fileSrc) 1)) ;;
        pdf <- await (getDocument ld data) ;;
        update (setProgress 50) ;;
        page <- await (getPage pdf 1) ;;
        let viewport := getViewport page 2.0 in
        let canvas := createCanvas in
        let canvas := set_width canvas (canvasLength 300 (fst viewport)) in
        let canvas := set_height canvas (canvasLength 150 (snd viewport)) in
        context <- match getContext rt canvas with
                   | None => throw "Failed to get canvas context for PDF page."
                   | Some context => ret context
                   end ;;
        png <- await (render page context viewport) ;;
        update (setProgress 70) ;;
        let imageSrc := FileData (width context) (height context) png in
        update (setOriginalImagePreviewSrc (Some imageSrc))
      else if JS.startsWith (type originalFile) "image/" then
        update (setOriginalImagePreviewSrc
                  (Some (FileData (fst (imageSize ld fileSrc))
                           (snd (imageSize ld fileSrc)) fileSrc)))
      else ret tt) ;;
     update (setProgress 100) ;;
     update (toast (mkToast "File Loaded"
                      (name originalFile ++ " ready for watermarking.") None)))%exec
    reader_catch
    (setIsLoading false)
    s.

(** The canvas [reader.onload] makes for a page: its sides are those of
    the viewport at scale 2.0 as a canvas takes them. *)
Definition pdfCanvas (page : PdfPage) : Canvas :=
  let viewport := getViewport page 2.0 in
  set_height (set_width createCanvas (canvasLength 300 (fst viewport)))
    (canvasLength 150 (snd viewport)).

(** [reader.onerror]. *)
Definition reader_onerror (s : State) : State :=
  let errorMessage := readFailedText in
  let s := setError (Some errorMessage) s in
  let s := toast (mkToast "File Read Error" errorMessage (Some "destructive")) s in
  let s := setIsLoading false s in
  let s := setProgress 0 s in
  setOriginalImagePreviewSrc None s.

(** A selection in the file dialog, the effect that follows it and the
    end of the read it starts: [reader.onload] with [fileSrc] when the
    read succeeds ([Some fileSrc]), [reader.onerror] otherwise. *)
Definition selectFile (rt : Runtime) (ld : Loader) (file : option File)
    (read : option string) (s : State) : option State :=
  let (s', reading) := fileEffect (handleFileChange file s) in
  match reading with
  | None => Some s'
  | Some originalFile =>
      match read with
      | Some fileSrc => reader_onload rt ld originalFile fileSrc s'
      | None => Some (reader_onerror s')
      end
  end.

(** ** Sample loaders *)

(** A first page of the size A4, 595.28 x 841.89 points, which renders:
    its viewport at scale 2.0 is 1190.56 x 1683.78. *)
Definition samplePage : PdfPage :=
  mkPdfPage (fun scale => (595.28 * scale, 841.89 * scale)%R)
    (fun _ _ => Normal "data:image/png;base64,PAGE").

(** A browser and a pdf.js that decode every image to 3 x 4, decode every
    piece that is there and open every document, of one page. *)
Definition sampleLoader : Loader :=
  mkLoader (fun _ => (3, 4))
    (fun piece => match piece with
                  | Some p => Normal p
                  | None => Thrown "The string to be decoded is not correctly encoded."
                  end)
    (fun _ => Normal (mkPdfDocument
                        (fun n => if n =? 1 then Normal samplePage
                                  else Thrown "Invalid page request."))).

(** A pdf.js that rejects every document, and one whose documents
    reject every page, without a message. *)
Definition rejectingLoader : Loader :=
  mkLoader (imageSize sampleLoader) (atob sampleLoader)
    (fun _ => Thrown "Invalid PDF structure.").

Definition pagelessLoader : Loader :=
  mkLoader (imageSize sampleLoader) (atob sampleLoader)
    (fun _ => Normal (mkPdfDocument (fun _ => Thrown ""))).

(** A page like the sample whose rendering is rejected, and the pdf.js
    that opens it. *)
Definition brokenPage : PdfPage :=
  mkPdfPage (getViewport samplePage) (fun _ _ => Thrown "Rendering cancelled.").

Definition brokenPageLoader : Loader :=
  mkLoader (imageSize sampleLoader) (atob sampleLoader)
    (fun _ => Normal (mkPdfDocument (fun _ => Normal brokenPage))).

(** ** What a data URL shows *)

(** A call that moves the frame and paints nothing, and a [fillText] of
    a text without ink. *)
Definition movesFrame (c : call) : bool :=
  match c with
  | Translate _ _ | Rotate _ => true
  | DrawImage _ _ _ _ _ | FillText _ _ _ _ => false
  end.

Definition paintsNothing (c : call) : bool :=
  match c with
  | FillText text _ _ _ => blank text
  | DrawImage _ _ _ _ _ | Translate _ _ | Rotate _ => false
  end.

(** Data URLs that decode to the same pixels.  A data URL that
    [toDataURL] made is kept as the calls that painted its canvas, so two
    of them can differ as values and still be one picture.  They are
    when the calls differ in what leaves no pixel:
    - a [fillText] of a text that is only white space,
    - moves of the frame after which nothing is painted,
    - the copy of an image of positive size onto a canvas of its size,
      which PNG keeps as it is,
    - the drawing of another image of the same pixels at the same
      place. *)
Inductive samePixels : dataURL -> dataURL -> Prop :=
| same_refl (img : dataURL) : samePixels img img
| same_sym (a b : dataURL) : samePixels a b -> samePixels b a
| same_trans (a b c : dataURL) : samePixels a b -> samePixels b c -> samePixels a c
| same_without_blank_text (w h : Z) (before after : list call) (c : call) :
    paintsNothing c = true ->
    samePixels (CanvasData w h (before ++ c :: after))
      (CanvasData w h (before ++ after))
| same_without_last_moves (w h : Z) (before moves : list call) :
    forallb movesFrame moves = true ->
    samePixels (CanvasData w h (before ++ moves)) (CanvasData w h before)
| same_copy (img : dataURL) :
    0 < naturalWidth img -> 0 < naturalHeight img ->
    samePixels
      (CanvasData (naturalWidth img) (naturalHeight img)
         [DrawImage img (Fin 0) (Fin 0)
            (num_of_Z (naturalWidth img)) (num_of_Z (naturalHeight img))])
      img
| same_drawn (w h : Z) (before after : list call) (a b : dataURL)
    (dx dy dw dh : num) :
    samePixels a b ->
    samePixels (CanvasData w h (before ++ DrawImage a dx dy dw dh :: after))
      (CanvasData w h (before ++ DrawImage b dx dy dw dh :: after)).

(** ** The transformation of a context *)

(** A transformation matrix over the real numbers: the point [(x, y)]
    of the calls is painted at [(a x + c y + e, b x + d y + f)] of the
    bitmap.  It is the matrix the calls denote; the matrix a canvas
    holds is this one rounded, call after call. *)
Record Transform : Type := mkTransform {
  ta : R; tb : R; tc : R; td : R; te : R; tf : R
}.

Definition identityTransform : Transform := mkTransform 1 0 0 1 0 0.

(** The matrix of [n] applied first and [m] after it. *)
Definition composeTransform (m n : Transform) : Transform :=
  mkTransform
    (ta m * ta n + tc m * tb n) (tb m * ta n + td m * tb n)
    (ta m * tc n + tc m * td n) (tb m * tc n + td m * td n)
    (ta m * te n + tc m * tf n + te m) (tb m * te n + td m * tf n + tf m).

Definition transformed (m : Transform) (x y : R) : R * R :=
  ((ta m * x + tc m * y + te m)%R, (tb m * x + td m * y + tf m)%R).

(** The matrix after one more call: [translate] and [rotate] multiply it
    from the right, and do nothing when an argument is not finite; the
    painting calls leave it alone. *)
Definition transformAfter (m : Transform) (c : call) : Transform :=
  match c with
  | Translate (Fin x) (Fin y) => composeTransform m (mkTransform 1 0 0 1 x y)
  | Rotate (Fin angle) =>
      composeTransform m (mkTransform (cos angle) (sin angle) (- sin angle) (cos angle) 0 0)
  | _ => m
  end.

(** The matrix a list of calls denotes on a fresh context. *)
Definition idealTransform (l : list call) : Transform :=
  fold_left transformAfter l identityTransform.

(** The call that takes a move of the frame back: the same call with its
    arguments negated. *)
Definition undoes (back c : call) : Prop :=
  match c, back with
  | Translate x y, Translate x' y' => x' = (- x)%num /\ y' = (- y)%num
  | Rotate angle, Rotate angle' => angle' = (- angle)%num
  | _, _ => False
  end.

(** The calls a data URL of a canvas holds. *)
Definition paintedCalls (img : dataURL) : list call :=
  match img with
  | CanvasData _ _ painted => painted
  | FileData _ _ _ => []
  end.

(** The numbers of rows and of columns of the tiling for a diagonal [d]
    and a measured width [tw]: [max(5, ceil(d / (0.7 tw)))] rows and two
    columns for every five rows, rounded up. *)
Definition rowCount (d tw : R) : Z := Z.max 5 (ceilZ (d / (tw * 0.7))).

Definition columnCount (d tw : R) : Z := (2 * rowCount d tw + 4) / 5.

(** The tiles at the crossings of the columns [xs] and the rows [ys], row
    after row. *)
Definition crossings (text : string) (st : TextStyle) (xs ys : list num)
    : list call :=
  flat_map (fun y => map (fun x => FillText text x y st) xs) ys.

(** Where the [fillText] calls of a list anchor their text on the bitmap:
    the point of each call under the matrix that is current at the call,
    starting from the matrix [m].  A [fillText] with an argument that is
    not finite paints nothing. *)
Fixpoint anchorsFrom (m : Transform) (l : list call) : list (R * R) :=
  match l with
  | [] => []
  | c :: rest =>
      match c with
      | FillText _ (Fin x) (Fin y) _ => transformed m x y :: anchorsFrom m rest
      | _ => anchorsFrom (transformAfter m c) rest
      end
  end.

(** The anchors of the texts painted on the canvas of a data URL. *)
Definition textAnchors (img : dataURL) : list (R * R) :=
  anchorsFrom identityTransform (paintedCalls img).

(** ** The download name of the second revision *)

(** [link.download] in the second revision of the page kept in
    src/app/page.tsx: the extension decides, not the type of the file,
    and nothing falls back. *)
Definition downloadName_rev2 (originalFile : File) : string :=
  let fileNameParts := JS.split "." (name originalFile) in
  let (popped, fileNameParts) := JS.pop fileNameParts in
  let extension := match popped with
                   | Some e => e
                   | None => "undefined"
                   end in
  let nameWithoutExtension := JS.join "." fileNameParts in
  nameWithoutExtension ++ "_watermarked."
    ++ (if String.eqb extension "pdf" then "png" else extension).

(** A browser whose context is there and which measures no width at
    all. *)
Definition widthlessRuntime : Runtime := plainRuntime 0.

(** * Properties *)

(** ** Numbers *)

Lemma ceilZ_spec (r : R) : (IZR (ceilZ r) - 1 < r <= IZR (ceilZ r))%R.
Proof.
  unfold ceilZ. rewrite minus_IZR.
  destruct (archimed (- r)) as [H1 H2]. lra.
Qed.

Lemma ceilZ_unique (r : R) (z : Z) :
  (IZR z - 1 < r <= IZR z)%R -> ceilZ r = z.
Proof.
  intros [H1 H2]. destruct (ceilZ_spec r) as [H3 H4].
  assert (IZR z < IZR (ceilZ r) + 1)%R as Ha by lra.
  assert (IZR (ceilZ r) < IZR z + 1)%R as Hb by lra.
  rewrite <- plus_IZR in Ha, Hb.
  apply lt_IZR in Ha. apply lt_IZR in Hb. lia.
Qed.

Lemma num_div_fin (a b : R) : b <> 0%R -> (Fin a / Fin b)%num = Fin (a / b).
Proof.
  intros Hb. unfold num_div. destruct (Req_dec_T b 0); [contradiction | reflexivity].
Qed.

Lemma num_div_zero (a : R) : (0 < a)%R -> (Fin a / Fin 0)%num = PInf.
Proof.
  intros Ha. unfold num_div.
  destruct (Req_dec_T 0 0) as [_ | Hn]; [| now destruct Hn].
  destruct (Req_dec_T a 0); [lra |].
  destruct (Rlt_dec 0 a); [reflexivity | contradiction].
Qed.

Lemma num_lt_fin_true (a b : R) : (a < b)%R -> (Fin a <? Fin b)%num = true.
Proof.
  intros H. unfold num_lt. destruct (Rlt_dec a b); [reflexivity | contradiction].
Qed.

Lemma num_lt_fin_false (a b : R) : (b <= a)%R -> (Fin a <? Fin b)%num = false.
Proof.
  intros H. unfold num_lt. destruct (Rlt_dec a b); [lra | reflexivity].
Qed.

Lemma half_fin (a : R) : (Fin a / Fin 2)%num = Fin (a / 2).
Proof. apply num_div_fin. lra. Qed.

(** ** The tiling loops *)

Lemma painted_more_nil (c : Canvas) : painted_more c [] = c.
Proof. destruct c. unfold painted_more. simpl. now rewrite app_nil_r. Qed.

Lemma painted_more_more (c : Canvas) (l1 l2 : list call) :
  painted_more (painted_more c l1) l2 = painted_more c (l1 ++ l2).
Proof. unfold painted_more. simpl. now rewrite app_assoc. Qed.

Lemma tileRow_succ (text : string) (st : TextStyle) (x sx : R) (y : num) (n : nat) :
  tileRow text st x sx y (S n)
  = FillText text (Fin x) y st :: tileRow text st (x + sx) sx y n.
Proof.
  unfold tileRow. cbn [seq map]. rewrite <- seq_shift, map_map.
  f_equal.
  - do 2 f_equal. simpl. lra.
  - apply map_ext. intros j. do 2 f_equal. rewrite S_INR. lra.
Qed.

Lemma tileGrid_succ (text : string) (st : TextStyle) (x0 y sx sy : R)
    (nrows ncols : nat) :
  tileGrid text st x0 y sx sy (S nrows) ncols
  = (tileRow text st x0 sx (Fin y) ncols
     ++ tileGrid text st x0 (y + sy) sx sy nrows ncols)%list.
Proof.
  unfold tileGrid. cbn [seq flat_map]. rewrite <- seq_shift.
  f_equal.
  - do 2 f_equal. simpl. lra.
  - rewrite flat_map_concat_map, map_map, <- flat_map_concat_map.
    apply flat_map_ext. intros k. do 2 f_equal. rewrite S_INR. lra.
Qed.

(** The inner loop that starts at a finite [x] with a finite step: after
    [n] iterations, where [n] is the first index at which [x] has reached
    [diagonalLength / 2], it ends and has painted [n] tiles. *)
Lemma row_finished (text : string) (d s : R) (y : num) :
  forall (n fuel : nat) (ctx : Canvas) (x : R),
    (n < fuel)%nat ->
    (d / 2 <= x + INR n * (s * 2.5))%R ->
    (forall j, (j < n)%nat -> (x + INR j * (s * 2.5) < d / 2)%R) ->
    row fuel ctx text (Fin d) (Fin s) y (Fin x)
    = Some (painted_more ctx (tileRow text (style ctx) x (s * 2.5) y n)).
Proof.
  induction n as [| n IH]; intros fuel ctx x Hfuel Hend Hbefore.
  - destruct fuel as [| fuel]; [lia |].
    cbn [row]. rewrite half_fin, num_lt_fin_false by (simpl in Hend; lra).
    unfold tileRow. simpl. now rewrite painted_more_nil.
  - destruct fuel as [| fuel]; [lia |].
    cbn [row]. rewrite half_fin, num_lt_fin_true.
    2:{ specialize (Hbefore 0%nat ltac:(lia)). simpl in Hbefore. lra. }
    cbn [num_add num_mul].
    rewrite (IH fuel (fillText ctx text (Fin x) y) (x + s * 2.5)%R).
    + rewrite tileRow_succ. unfold fillText, log_call.
      f_equal. unfold painted_more. simpl. now rewrite <- app_assoc.
    + lia.
    + rewrite S_INR in Hend. lra.
    + intros j Hj. specialize (Hbefore (S j) ltac:(lia)).
      rewrite S_INR in Hbefore. lra.
Qed.

(** The outer loop in the same situation: [nrows] rows of [ncols] tiles. *)
Lemma rows_finished (text : string) (d s : R) (ncols : nat) :
  (d / 2 <= - d / 2 + INR ncols * (s * 2.5))%R ->
  (forall j, (j < ncols)%nat -> (- d / 2 + INR j * (s * 2.5) < d / 2)%R) ->
  forall (nrows fuel : nat) (ctx : Canvas) (y : R),
    (nrows + ncols < fuel)%nat ->
    (d / 2 <= y + INR nrows * s)%R ->
    (forall k, (k < nrows)%nat -> (y + INR k * s < d / 2)%R) ->
    rows fuel ctx text (Fin d) (Fin s) (Fin y)
    = Some (painted_more ctx
              (tileGrid text (style ctx) (- d / 2) y (s * 2.5) s nrows ncols)).
Proof.
  intros Hcols_end Hcols_before.
  induction nrows as [| nrows IH]; intros fuel ctx y Hfuel Hend Hbefore.
  - destruct fuel as [| fuel]; [lia |].
    cbn [rows]. rewrite half_fin, num_lt_fin_false by (simpl in Hend; lra).
    unfold tileGrid. simpl. now rewrite painted_more_nil.
  - destruct fuel as [| fuel]; [lia |].
    cbn [rows]. rewrite half_fin, num_lt_fin_true.
    2:{ specialize (Hbefore 0%nat ltac:(lia)). simpl in Hbefore. lra. }
    cbn [num_neg]. rewrite half_fin.
    rewrite (row_finished text d s (Fin y) ncols) by (lia || assumption).
    cbn [num_add].
    rewrite (IH fuel _ (y + s)%R).
    + rewrite painted_more_more, tileGrid_succ. reflexivity.
    + lia.
    + rewrite S_INR in Hend. lra.
    + intros k Hk. specialize (Hbefore (S k) ltac:(lia)).
      rewrite S_INR in Hbefore. lra.
Qed.

(** What a loop that ended has done, whatever the numbers were: it kept
    the canvas and only added [fillText] calls of its text. *)
Lemma row_appends (text : string) (D stp y : num) :
  forall (fuel : nat) (ctx ctx' : Canvas) (x : num),
    row fuel ctx text D stp y x = Some ctx' ->
    exists tiles,
      ctx' = painted_more ctx tiles
      /\ Forall (paintsText text (style ctx)) tiles
      /\ ((x <? D / Fin 2)%num = true -> tiles <> []).
Proof.
  induction fuel as [| fuel IH]; intros ctx ctx' x Hrun; [discriminate |].
  cbn [row] in Hrun.
  destruct (x <? D / Fin 2)%num.
  - apply IH in Hrun. destruct Hrun as (tiles & -> & Hall & _).
    exists (FillText text x y (style ctx) :: tiles). split; [| split].
    + unfold fillText, log_call, painted_more. simpl.
      now rewrite <- app_assoc.
    + constructor; [now exists x, y | exact Hall].
    + discriminate.
  - injection Hrun as <-. exists []. split; [| split].
    + now rewrite painted_more_nil.
    + constructor.
    + discriminate.
Qed.

Lemma rows_appends (text : string) (D stp : num) :
  forall (fuel : nat) (ctx ctx' : Canvas) (y : num),
    rows fuel ctx text D stp y = Some ctx' ->
    exists tiles,
      ctx' = painted_more ctx tiles
      /\ Forall (paintsText text (style ctx)) tiles
      /\ ((y <? D / Fin 2)%num = true ->
          (- D / Fin 2 <? D / Fin 2)%num = true -> tiles <> []).
Proof.
  induction fuel as [| fuel IH]; intros ctx ctx' y Hrun; [discriminate |].
  cbn [rows] in Hrun.
  destruct (y <? D / Fin 2)%num.
  - destruct (row (S fuel) ctx text D stp y (- D / Fin 2)%num) as [ctx1 |] eqn:Hrow;
      [| discriminate].
    apply row_appends in Hrow. destruct Hrow as (t1 & -> & Hall1 & Hne1).
    apply IH in Hrun. destruct Hrun as (t2 & -> & Hall2 & _).
    exists (t1 ++ t2)%list. split; [| split].
    + apply painted_more_more.
    + apply Forall_app. split; assumption.
    + intros _ Hx Happ. apply app_eq_nil in Happ. destruct Happ as [Ht1 _].
      now apply Hne1.
  - injection Hrun as <-. exists []. split; [| split].
    + now rewrite painted_more_nil.
    + constructor.
    + discriminate.
Qed.

(** The tiles of a loop that ended depend neither on the fuel nor on what
    the canvas held before. *)
Lemma row_deterministic (text : string) (D stp y : num) :
  forall (fuel1 fuel2 : nat) (ctx1 ctx2 ctx1' ctx2' : Canvas) (x : num),
    style ctx1 = style ctx2 ->
    row fuel1 ctx1 text D stp y x = Some ctx1' ->
    row fuel2 ctx2 text D stp y x = Some ctx2' ->
    exists tiles,
      ctx1' = painted_more ctx1 tiles /\ ctx2' = painted_more ctx2 tiles.
Proof.
  induction fuel1 as [| fuel1 IH]; intros fuel2 ctx1 ctx2 ctx1' ctx2' x Hst H1 H2;
    [discriminate |].
  destruct fuel2 as [| fuel2]; [discriminate |].
  cbn [row] in H1, H2.
  destruct (x <? D / Fin 2)%num.
  - assert (style (fillText ctx1 text x y) = style (fillText ctx2 text x y)) as Hst'
      by exact Hst.
    destruct (IH fuel2 _ _ _ _ _ Hst' H1 H2) as (tiles & -> & ->).
    exists (FillText text x y (style ctx1) :: tiles).
    unfold fillText, log_call, painted_more. cbn [width height style calls].
    rewrite <- Hst, <- !app_assoc. split; reflexivity.
  - injection H1 as <-. injection H2 as <-. exists [].
    now rewrite !painted_more_nil.
Qed.

Lemma rows_deterministic (text : string) (D stp : num) :
  forall (fuel1 fuel2 : nat) (ctx1 ctx2 ctx1' ctx2' : Canvas) (y : num),
    style ctx1 = style ctx2 ->
    rows fuel1 ctx1 text D stp y = Some ctx1' ->
    rows fuel2 ctx2 text D stp y = Some ctx2' ->
    exists tiles,
      ctx1' = painted_more ctx1 tiles /\ ctx2' = painted_more ctx2 tiles.
Proof.
  induction fuel1 as [| fuel1 IH]; intros fuel2 ctx1 ctx2 ctx1' ctx2' y Hst H1 H2;
    [discriminate |].
  destruct fuel2 as [| fuel2]; [discriminate |].
  cbn [rows] in H1, H2.
  destruct (y <? D / Fin 2)%num.
  - destruct (row (S fuel1) ctx1 text D stp y (- D / Fin 2)%num) as [mid1 |] eqn:Hrow1;
      [| discriminate].
    destruct (row (S fuel2) ctx2 text D stp y (- D / Fin 2)%num) as [mid2 |] eqn:Hrow2;
      [| discriminate].
    destruct (row_deterministic _ _ _ _ _ _ _ _ _ _ _ Hst Hrow1 Hrow2)
      as (t1 & -> & ->).
    assert (style (painted_more ctx1 t1) = style (painted_more ctx2 t1)) as Hst'
      by exact Hst.
    destruct (IH fuel2 _ _ _ _ _ Hst' H1 H2) as (t2 & -> & ->).
    exists (t1 ++ t2)%list. now rewrite !painted_more_more.
  - injection H1 as <-. injection H2 as <-. exists [].
    now rewrite !painted_more_nil.
Qed.

(** A loop with a positive finite step ends. *)
Lemma iteration_count (x sx lim : R) :
  (0 < sx)%R ->
  exists n : nat,
    (lim <= x + INR n * sx)%R
    /\ forall j, (j < n)%nat -> (x + INR j * sx < lim)%R.
Proof.
  intros Hsx.
  set (q := ((lim - x) / sx)%R).
  assert (q * sx = lim - x)%R as Hq by (unfold q; field; lra).
  destruct (ceilZ_spec q) as [Hlo Hhi].
  exists (Z.to_nat (ceilZ q)).
  destruct (Z_lt_le_dec 0 (ceilZ q)) as [Hpos | Hnonpos].
  - assert (INR (Z.to_nat (ceilZ q)) = IZR (ceilZ q)) as Hn.
    { rewrite INR_IZR_INZ, Z2Nat.id by lia. reflexivity. }
    split.
    + rewrite Hn. nra.
    + intros j Hj.
      assert (INR j <= IZR (ceilZ q) - 1)%R as Hj'.
      { rewrite <- Hn.
        assert (INR j + 1 <= INR (Z.to_nat (ceilZ q)))%R; [| lra].
        rewrite <- S_INR. apply le_INR. lia. }
      nra.
  - replace (Z.to_nat (ceilZ q)) with 0%nat by lia.
    split.
    + simpl. apply IZR_le in Hnonpos. nra.
    + intros j Hj. lia.
Qed.

(** ** The geometry of [img.onload] *)

Lemma diagonalFor_fin (w h : Z) : diagonalFor w h = Fin (diagonalR w h).
Proof.
  unfold diagonalFor, diagonalR, num_of_Z. cbn [num_mul num_add Math_sqrt].
  destruct (Rlt_dec (IZR w * IZR w + IZR h * IZR h) 0) as [Hneg |]; [| reflexivity].
  exfalso. nra.
Qed.

Lemma diagonalR_pos (w h : Z) : 0 < w -> 0 < h -> (0 < diagonalR w h)%R.
Proof.
  intros Hw Hh. apply sqrt_lt_R0.
  apply IZR_lt in Hw. apply IZR_lt in Hh. nra.
Qed.

Lemma repetitionsFor_fin (dl tw : R) :
  (0 < tw)%R ->
  repetitionsFor (Fin dl) (Fin tw) = Fin (IZR (ceilZ (dl / (tw * 0.7)))).
Proof.
  intros Htw. unfold repetitionsFor. cbn [num_mul].
  rewrite num_div_fin by lra. reflexivity.
Qed.

Lemma Rmax_IZR (a b : Z) : Rmax (IZR a) (IZR b) = IZR (Z.max a b).
Proof.
  destruct (Z.max_spec a b) as [[Hlt ->] | [Hle ->]].
  - apply Rmax_right. apply IZR_le. lia.
  - apply Rmax_left. apply IZR_le. lia.
Qed.

Lemma stepFor_fin (dl : R) (r : Z) :
  stepFor (Fin dl) (Fin (IZR r)) = Fin (dl / IZR (Z.max 5 r)).
Proof.
  unfold stepFor. cbn [Math_max]. rewrite Rmax_IZR.
  apply num_div_fin.
  assert (5 <= Z.max 5 r) as H by lia. apply IZR_le in H. lra.
Qed.

(** A measured width of zero: infinitely many repetitions and a step of
    zero. *)
Lemma repetitionsFor_zero_width (dl : R) :
  (0 < dl)%R -> repetitionsFor (Fin dl) (Fin 0) = PInf.
Proof.
  intros Hdl. unfold repetitionsFor. cbn [num_mul].
  replace (0 * 0.7)%R with 0%R by lra.
  rewrite num_div_zero by assumption. reflexivity.
Qed.

Lemma stepFor_infinite (dl : R) : stepFor (Fin dl) PInf = Fin 0.
Proof. reflexivity. Qed.

(** With a step of zero neither loop ever ends. *)
Lemma row_stalls (text : string) (d : R) (y : num) :
  forall (fuel : nat) (ctx : Canvas) (x : R),
    (x < d / 2)%R -> row fuel ctx text (Fin d) (Fin 0) y (Fin x) = None.
Proof.
  induction fuel as [| fuel IH]; intros ctx x Hx; [reflexivity |].
  cbn [row]. rewrite half_fin, num_lt_fin_true by assumption.
  cbn [num_add num_mul]. apply IH. lra.
Qed.

Lemma rows_stalls (text : string) (d : R) (fuel : nat) (ctx : Canvas) :
  (0 < d)%R ->
  rows fuel ctx text (Fin d) (Fin 0) (- Fin d / Fin 2)%num = None.
Proof.
  intros Hd. destruct fuel as [| fuel]; [reflexivity |].
  cbn [rows num_neg]. rewrite !half_fin, num_lt_fin_true by lra.
  rewrite row_stalls by lra. reflexivity.
Qed.

(** ** [img.onload] as a whole *)

(** The handler in one piece: the error branch when no context is
    obtained, the tiling and the stored data URL otherwise. *)
Lemma img_onload_unfold (fuel : nat) (rt : Runtime) (text : string)
    (img : dataURL) (s : State) :
  img_onload fuel rt text img s
  = if context2d rt (naturalWidth img) (naturalHeight img) then
      match rows fuel (tilingCanvas img) (effectiveText text)
              (diagonalFor (naturalWidth img) (naturalHeight img))
              (tilingStep rt text (naturalWidth img) (naturalHeight img))
              (- diagonalFor (naturalWidth img) (naturalHeight img) / Fin 2)%num with
      | None => None
      | Some ctx =>
          Some (storedState
                  (CanvasData (width ctx) (height ctx)
                     (calls ctx
                      ++ [Rotate (- (- Math_PI / Fin 4))%num;
                          Translate (- num_of_Z (naturalWidth img) / Fin 2)%num
                            (- num_of_Z (naturalHeight img) / Fin 2)%num])) s)
      end
    else Some (caughtState "Could not get canvas context." s).
Proof.
  unfold img_onload, try_catch_finally, bind, getContext. cbn [width height set_width set_height createCanvas].
  destruct (context2d rt (naturalWidth img) (naturalHeight img)); [| reflexivity].
  cbn [ret update from_loop].
  change (rows fuel _ (effectiveText text) _ _ _)
    with (rows fuel (tilingCanvas img) (effectiveText text)
            (diagonalFor (naturalWidth img) (naturalHeight img))
            (tilingStep rt text (naturalWidth img) (naturalHeight img))
            (- diagonalFor (naturalWidth img) (naturalHeight img) / Fin 2)%num).
  destruct (rows fuel (tilingCanvas img) _ _ _ _) as [ctx |]; [| reflexivity].
  unfold from_loop, update, toDataURL, translate, rotate, log_call.
  cbn [width height calls]. rewrite <- app_assoc. reflexivity.
Qed.

(** With a positive measured width the step is positive and at most a
    fifth of the diagonal, and the tiling ends after [max(5, repetitions)]
    rows. *)
Lemma tiling_finishes (w h : Z) (tw : R) :
  0 < w -> 0 < h -> (0 < tw)%R ->
  exists (s : R) (nrows ncols : nat),
    stepFor (diagonalFor w h) (repetitionsFor (diagonalFor w h) (Fin tw)) = Fin s
    /\ (0 < s <= diagonalR w h / 5)%R
    /\ (5 <= nrows)%nat /\ (1 <= ncols)%nat
    /\ forall (fuel : nat) (ctx : Canvas) (text : string),
         (nrows + ncols < fuel)%nat ->
         rows fuel ctx text (diagonalFor w h) (Fin s)
           (- diagonalFor w h / Fin 2)%num
         = Some (painted_more ctx
                   (tileGrid text (style ctx) (- diagonalR w h / 2)
                      (- diagonalR w h / 2) (s * 2.5) s nrows ncols)).
Proof.
  intros Hw Hh Htw.
  pose proof (diagonalR_pos w h Hw Hh) as Hdl.
  rewrite diagonalFor_fin. set (dl := diagonalR w h) in *.
  rewrite repetitionsFor_fin by assumption.
  set (r := ceilZ (dl / (tw * 0.7))).
  rewrite stepFor_fin.
  set (m := Z.max 5 r).
  assert (5 <= m) as Hm by (unfold m; lia).
  assert (5 <= IZR m)%R as HmR by (apply IZR_le in Hm; lra).
  set (s := (dl / IZR m)%R).
  assert (s * IZR m = dl)%R as Hs by (unfold s; field; lra).
  assert (0 < s)%R as Hspos by (unfold s; apply Rdiv_lt_0_compat; lra).
  assert (INR (Z.to_nat m) = IZR m) as Hn.
  { rewrite INR_IZR_INZ, Z2Nat.id by lia. reflexivity. }
  destruct (iteration_count (- dl / 2) (s * 2.5) (dl / 2)) as (ncols & Hcend & Hcbefore);
    [lra |].
  exists s, (Z.to_nat m), ncols.
  split; [reflexivity |].
  split; [split; [assumption | nra] |].
  split; [lia |].
  split.
  { destruct ncols as [| ncols]; [| lia]. simpl in Hcend. lra. }
  intros fuel ctx text Hfuel.
  cbn [num_neg]. rewrite half_fin.
  apply rows_finished; try assumption.
  - rewrite Hn. lra.
  - intros k Hk.
    assert (INR k + 1 <= IZR m)%R as Hk'.
    { rewrite <- Hn, <- S_INR. apply le_INR. lia. }
    nra.
Qed.

Lemma img_onload_caught (fuel : nat) (rt : Runtime) (text : string)
    (img : dataURL) (s : State) :
  context2d rt (naturalWidth img) (naturalHeight img) = false ->
  img_onload fuel rt text img s
  = Some (caughtState "Could not get canvas context." s).
Proof. intros Hctx. rewrite img_onload_unfold, Hctx. reflexivity. Qed.

(** Whatever [img.onload] leaves when it ends: the caught state when no
    context was obtained, and otherwise the stored state with a data URL
    that holds the source, the frame and tiles of the effective text. *)
Lemma img_onload_inv (fuel : nat) (rt : Runtime) (text : string)
    (img : dataURL) (s s' : State) :
  img_onload fuel rt text img s = Some s' ->
  (context2d rt (naturalWidth img) (naturalHeight img) = false
   /\ s' = caughtState "Could not get canvas context." s)
  \/ (context2d rt (naturalWidth img) (naturalHeight img) = true
      /\ exists tiles,
           Forall (paintsText (effectiveText text)
                     (watermarkStyle (naturalWidth img) (naturalHeight img))) tiles
           /\ (0 < naturalWidth img -> 0 < naturalHeight img -> tiles <> [])
           /\ s' = storedState (watermarked img tiles) s).
Proof.
  rewrite img_onload_unfold.
  destruct (context2d rt (naturalWidth img) (naturalHeight img)).
  - intros Hrun. right. split; [reflexivity |].
    destruct (rows fuel (tilingCanvas img) _ _ _ _) as [ctx |] eqn:Hrows;
      [| discriminate].
    injection Hrun as <-.
    apply rows_appends in Hrows. destruct Hrows as (tiles & -> & Hall & Hne).
    exists tiles. split; [exact Hall | split].
    + intros Hw Hh. apply Hne.
      * rewrite diagonalFor_fin. cbn [num_neg]. rewrite !half_fin.
        apply num_lt_fin_true. pose proof (diagonalR_pos _ _ Hw Hh). lra.
      * rewrite diagonalFor_fin. cbn [num_neg]. rewrite !half_fin.
        apply num_lt_fin_true. pose proof (diagonalR_pos _ _ Hw Hh). lra.
    + unfold watermarked, painted_more, tilingCanvas. cbn [width height calls].
      rewrite <- app_assoc. reflexivity.
  - intros Hrun. injection Hrun as <-. left. split; reflexivity.
Qed.

(** Two runs of [img.onload] that end, with the same browser and text on
    images of the same size, have painted the same tiles. *)
Lemma img_onload_same_tiles (rt : Runtime) (text : string)
    (fuel1 fuel2 : nat) (img1 img2 : dataURL) (s1 s2 s1' s2' : State) :
  naturalWidth img2 = naturalWidth img1 ->
  naturalHeight img2 = naturalHeight img1 ->
  context2d rt (naturalWidth img1) (naturalHeight img1) = true ->
  img_onload fuel1 rt text img1 s1 = Some s1' ->
  img_onload fuel2 rt text img2 s2 = Some s2' ->
  exists tiles,
    Forall (paintsText (effectiveText text)
              (watermarkStyle (naturalWidth img1) (naturalHeight img1))) tiles
    /\ (0 < naturalWidth img1 -> 0 < naturalHeight img1 -> tiles <> [])
    /\ s1' = storedState (watermarked img1 tiles) s1
    /\ s2' = storedState (watermarked img2 tiles) s2.
Proof.
  intros Hw Hh Hctx Hrun1 Hrun2.
  pose proof Hrun1 as Hinv. apply img_onload_inv in Hinv.
  destruct Hinv as [[Hno _] | (_ & tiles & Hall & Hne & ->)]; [congruence |].
  exists tiles. repeat (split; [assumption |]). split; [reflexivity |].
  rewrite img_onload_unfold in Hrun1, Hrun2. rewrite Hw, Hh in Hrun2.
  rewrite Hctx in Hrun1, Hrun2.
  destruct (rows fuel1 (tilingCanvas img1) _ _ _ _) as [c1 |] eqn:Hrows1;
    [| discriminate].
  destruct (rows fuel2 (tilingCanvas img2) _ _ _ _) as [c2 |] eqn:Hrows2;
    [| discriminate].
  assert (style (tilingCanvas img1) = style (tilingCanvas img2)) as Hst.
  { unfold tilingCanvas. cbn [style]. now rewrite Hw, Hh. }
  destruct (rows_deterministic _ _ _ _ _ _ _ _ _ _ Hst Hrows1 Hrows2)
    as (tiles' & -> & ->).
  injection Hrun1 as Hrun1. injection Hrun2 as <-.
  assert (tiles' = tiles) as ->.
  { apply app_inv_tail in Hrun1. exact Hrun1. }
  unfold watermarked, painted_more, tilingCanvas. cbn [width height calls].
  rewrite Hw, Hh. reflexivity.
Qed.

(** With a context and a positive measured width [img.onload] ends and
    stores the tiled data URL; the tiles only depend on the text, the
    browser and the size of the image. *)
Lemma img_onload_stores (rt : Runtime) (text : string) (w h : Z) :
  0 < w -> 0 < h ->
  context2d rt w h = true ->
  (0 < measuredWidth rt text w h)%R ->
  exists (sx sy : R) (nrows ncols : nat),
    (5 <= nrows)%nat /\ (1 <= ncols)%nat
    /\ forall (img : dataURL) (fuel : nat) (s : State),
         naturalWidth img = w -> naturalHeight img = h ->
         (nrows + ncols < fuel)%nat ->
         img_onload fuel rt text img s
         = Some (storedState
                   (watermarked img
                      (tileGrid (effectiveText text) (watermarkStyle w h)
                         (- diagonalR w h / 2) (- diagonalR w h / 2)
                         sx sy nrows ncols)) s).
Proof.
  intros Hw Hh Hctx Htw.
  destruct (tiling_finishes _ _ _ Hw Hh Htw)
    as (sy & nrows & ncols & Hstep & _ & Hrows5 & Hcols1 & Hrun).
  exists (sy * 2.5)%R, sy, nrows, ncols.
  split; [assumption | split; [assumption |]].
  intros img fuel s <- <- Hfuel.
  rewrite img_onload_unfold, Hctx.
  unfold tilingStep. fold (measuredWidth rt text (naturalWidth img) (naturalHeight img)).
  rewrite Hstep, Hrun by assumption.
  unfold watermarked, painted_more, tilingCanvas. cbn [width height calls style].
  rewrite <- app_assoc. reflexivity.
Qed.

(** ** Worked examples *)

(** The font sizes of the specification: 12 for a 250 x 250 image, 40
    for a 1000 x 1000 image. *)
Example fontSize_250 : fontSizeFor 250 250 = Fin 12.
Proof.
  unfold fontSizeFor, num_of_Z. cbn [Math_min].
  rewrite num_div_fin by lra. cbn [Math_max]. f_equal.
  unfold Rmin. destruct (Rle_dec 250 250); unfold Rmax;
    destruct (Rle_dec 12 (250 / 25)); lra.
Qed.

Example fontSize_1000 : fontSizeFor 1000 1000 = Fin 40.
Proof.
  unfold fontSizeFor, num_of_Z. cbn [Math_min].
  rewrite num_div_fin by lra. cbn [Math_max]. f_equal.
  unfold Rmin. destruct (Rle_dec 1000 1000); unfold Rmax;
    destruct (Rle_dec 12 (1000 / 25)); lra.
Qed.

Example diagonal_3x4 : diagonalFor 3 4 = Fin 5.
Proof.
  rewrite diagonalFor_fin. f_equal. unfold diagonalR.
  replace (3 * 3 + 4 * 4)%R with (5 * 5)%R by lra.
  apply sqrt_square. lra.
Qed.

(** A text that measures 10 on the 3 x 4 image: one repetition, so five
    rows by the floor, a step of 1. *)
Example step_3x4 : tilingStep (plainRuntime 10) "DRAFT" 3 4 = Fin 1.
Proof.
  unfold tilingStep, measuredWidth. cbn [measureTextWidth plainRuntime].
  rewrite diagonal_3x4, repetitionsFor_fin by lra.
  rewrite (ceilZ_unique _ 1) by lra.
  rewrite stepFor_fin. f_equal. cbn [Z.max Z.compare Pos.compare Pos.compare_cont].
  lra.
Qed.

(** The watermarked 3 x 4 image: five rows at the heights -2.5, -1.5,
    -0.5, 0.5 and 1.5, each with two tiles, at -2.5 and at 0. *)
Example watermark_3x4 (fuel : nat) (s : State) :
  (7 < fuel)%nat ->
  img_onload fuel (plainRuntime 10) "DRAFT" photo3x4 s
  = Some (storedState draftOn3x4 s).
Proof.
  intros Hfuel. unfold draftOn3x4. rewrite img_onload_unfold.
  cbn [naturalWidth naturalHeight photo3x4 context2d plainRuntime].
  rewrite step_3x4, diagonal_3x4. cbn [num_neg]. rewrite half_fin.
  rewrite (rows_finished "DRAFT" 5 1 2) with (nrows := 5%nat).
  - unfold watermarked, painted_more, tilingCanvas. cbn [width height calls style].
    cbn [naturalWidth naturalHeight].
    replace (1 * 2.5)%R with 2.5%R by lra.
    rewrite <- app_assoc. reflexivity.
  - simpl. lra.
  - intros j Hj. destruct j as [| [| j]]; [simpl; lra | simpl; lra | lia].
  - lia.
  - simpl. lra.
  - intros k Hk.
    assert (INR k <= INR 4)%R as Hk' by (apply le_INR; lia).
    simpl in Hk'. lra.
Qed.

(** Without a context the compositor reports the message of its
    [throw], whatever the fuel. *)
Example no_context_3x4 (fuel : nat) :
  composite fuel noContextRuntime "DRAFT" photo3x4
  = Some (RenderError (Some "Could not get canvas context.")).
Proof.
  unfold composite. rewrite img_onload_caught by reflexivity. reflexivity.
Qed.

(** ** What a data URL carries *)

Lemma fillTexts_canvas (w h : Z) (painted : list call) :
  fillTexts (CanvasData w h painted)
  = flat_map (fun c => match c with
                       | DrawImage inner _ _ _ _ => fillTexts inner
                       | FillText _ _ _ _ => [c]
                       | Translate _ _ | Rotate _ => []
                       end) painted.
Proof.
  induction painted as [| c rest IH]; [reflexivity |].
  cbn [flat_map]. rewrite <- IH. reflexivity.
Qed.

Lemma fillTexts_watermarked (img : dataURL) (tiles : list call)
    (text : string) (st : TextStyle) :
  Forall (paintsText text st) tiles ->
  fillTexts (watermarked img tiles) = (fillTexts img ++ tiles)%list.
Proof.
  intros Hall. unfold watermarked. rewrite fillTexts_canvas.
  rewrite flat_map_app. cbn [flat_map app]. rewrite app_nil_r.
  rewrite flat_map_app. cbn [flat_map app]. rewrite app_nil_r.
  f_equal.
  induction Hall as [| c rest (x & y & ->) _ IH]; [reflexivity |].
  cbn [flat_map app]. now rewrite IH.
Qed.

Lemma tileGrid_paints (text : string) (st : TextStyle) (x0 y0 sx sy : R)
    (nrows ncols : nat) :
  Forall (paintsText text st) (tileGrid text st x0 y0 sx sy nrows ncols).
Proof.
  apply Forall_forall. intros c Hin.
  unfold tileGrid in Hin. apply in_flat_map in Hin.
  destruct Hin as (k & _ & Hin). unfold tileRow in Hin.
  apply in_map_iff in Hin. destruct Hin as (j & <- & _).
  eexists. eexists. reflexivity.
Qed.

Lemma tileGrid_nonempty (text : string) (st : TextStyle) (x0 y0 sx sy : R)
    (nrows ncols : nat) :
  (1 <= nrows)%nat -> (1 <= ncols)%nat ->
  tileGrid text st x0 y0 sx sy nrows ncols <> [].
Proof.
  intros Hr Hc.
  destruct nrows as [| nrows]; [lia |]. destruct ncols as [| ncols]; [lia |].
  rewrite tileGrid_succ, tileRow_succ. discriminate.
Qed.

(** The watermarking never touches the source it read: neither the
    preview nor the file nor the text of the state changes. *)
Lemma clickApply_keeps_source (fuel : nat) (rt : Runtime) (loads : bool)
    (s s' : State) :
  clickApply fuel rt loads s = Some s' ->
  originalImagePreviewSrc s' = originalImagePreviewSrc s
  /\ originalFile s' = originalFile s
  /\ watermarkText s' = watermarkText s.
Proof.
  unfold clickApply, applyWatermark.
  destruct (originalImagePreviewSrc s) as [src |] eqn:Hsrc.
  - destruct loads.
    + intros Hrun. apply img_onload_inv in Hrun.
      destruct Hrun as [[_ ->] | (_ & tiles & _ & _ & ->)];
        cbn; rewrite Hsrc; repeat split.
    + intros Hrun. injection Hrun as <-. cbn. rewrite Hsrc. repeat split.
  - intros Hrun. injection Hrun as <-. cbn. rewrite Hsrc. repeat split.
Qed.

(** ** The effective watermark text *)

(** C1, as the claim states it, fails: a text of three spaces is blank,
    the specification's [spec.text.trim() || "CONFIDENTIAL"] resolves it
    to ["CONFIDENTIAL"], and the page keeps the three spaces. *)
Lemma blank_text_is_not_replaced :
  blank "   " = true
  /\ specText "   " = "CONFIDENTIAL"
  /\ effectiveText "   " = "   "
  /\ effectiveText "   " <> "CONFIDENTIAL".
Proof. repeat split; try reflexivity. discriminate. Qed.

(** C1 (amended): the effective text is [spec.text || "CONFIDENTIAL"]:
    the empty text resolves to ["CONFIDENTIAL"], and every text that is
    not empty is used as it is, without trimming, so also when it holds
    nothing but white space.  It is the text of every tile of a bitmap
    that [img.onload] stores. *)
Theorem effectiveText_only_replaces_empty :
  effectiveText "" = "CONFIDENTIAL"
  /\ (forall (c : ascii) (rest : string),
        effectiveText (String c rest) = String c rest)
  /\ (forall (fuel : nat) (rt : Runtime) (text : string) (img out : dataURL)
             (s s' : State),
        img_onload fuel rt text img s = Some s' ->
        watermarkedImageSrc s' = Some out ->
        exists tiles,
          out = watermarked img tiles
          /\ Forall (paintsText (effectiveText text)
                       (watermarkStyle (naturalWidth img) (naturalHeight img))) tiles).
Proof.
  split; [reflexivity | split; [reflexivity |]].
  intros fuel rt text img out s s' Hrun Hout.
  apply img_onload_inv in Hrun.
  destruct Hrun as [[_ ->] | (_ & tiles & Hall & _ & ->)]; [discriminate |].
  injection Hout as <-. exists tiles. split; [reflexivity | exact Hall].
Qed.

(** The text of the specification and the text of the page agree on every
    text that trimming leaves alone. *)
Lemma effectiveText_agrees_on_trimmed (text : string) :
  JS.trim text = text -> effectiveText text = specText text.
Proof. intros H. unfold specText. rewrite H. reflexivity. Qed.

(** ** The download name *)

Lemma split_cons (sep c : ascii) (rest : string) :
  JS.split sep (String c rest)
  = if Ascii.eqb c sep then EmptyString :: JS.split sep rest
    else match JS.split sep rest with
         | piece :: pieces => String c piece :: pieces
         | [] => [String c EmptyString]
         end.
Proof.
  unfold JS.split. cbn [JS.split_pieces].
  destruct (JS.split_pieces sep rest) as [piece pieces].
  destruct (Ascii.eqb c sep); reflexivity.
Qed.

Lemma split_not_empty (sep : ascii) (s : string) : JS.split sep s <> [].
Proof. unfold JS.split. destruct (JS.split_pieces sep s). discriminate. Qed.

(** A string without the separator is a single piece. *)
Lemma split_without_separator (sep : ascii) (s : string) :
  JS.includes s sep = false -> JS.split sep s = [s].
Proof.
  induction s as [| c rest IH]; intros Hno; [reflexivity |].
  cbn [JS.includes] in Hno. apply orb_false_elim in Hno. destruct Hno as [Hc Hrest].
  rewrite split_cons, Hc, (IH Hrest). reflexivity.
Qed.

(** The pieces of [s1 + sep + s2] are those of [s1] and then those of [s2]. *)
Lemma split_at_separator (sep : ascii) (s1 s2 : string) :
  JS.split sep (s1 ++ String sep s2) = (JS.split sep s1 ++ JS.split sep s2)%list.
Proof.
  induction s1 as [| c rest IH].
  - cbn [append]. rewrite split_cons, Ascii.eqb_refl. reflexivity.
  - cbn [append]. rewrite !split_cons, IH.
    destruct (Ascii.eqb c sep); [reflexivity |].
    destruct (JS.split sep rest) as [| piece pieces] eqn:Hsplit; [| reflexivity].
    now apply split_not_empty in Hsplit.
Qed.

Lemma pop_last (arr : list string) (x : string) :
  JS.pop (arr ++ [x]) = (Some x, arr).
Proof.
  induction arr as [| y arr IH]; [reflexivity |].
  cbn [app JS.pop]. rewrite IH.
  destruct (arr ++ [x])%list eqn:Happ; [| reflexivity].
  now apply app_eq_nil in Happ.
Qed.

(** Joining the pieces of a string with the separator gives the string
    back. *)
Lemma join_split (sep : ascii) (s : string) :
  JS.join (String sep EmptyString) (JS.split sep s) = s.
Proof.
  unfold JS.join. induction s as [| c rest IH]; [reflexivity |].
  rewrite split_cons.
  destruct (JS.split sep rest) as [| piece pieces] eqn:Hsplit;
    [now apply split_not_empty in Hsplit |].
  destruct (Ascii.eqb_spec c sep) as [-> | Hne].
  - change (concat (String sep "") ("" :: piece :: pieces))
      with ("" ++ String sep "" ++ concat (String sep "") (piece :: pieces)).
    rewrite IH. reflexivity.
  - destruct pieces as [| piece' pieces].
    + cbn [concat] in IH |- *. now rewrite IH.
    + change (concat (String sep "") (String c piece :: piece' :: pieces))
        with (String c (piece ++ String sep ""
                          ++ concat (String sep "") (piece' :: pieces))).
      change (concat (String sep "") (piece :: piece' :: pieces))
        with (piece ++ String sep "" ++ concat (String sep "") (piece' :: pieces)) in IH.
      now rewrite IH.
Qed.

(** For a name with a base and an extension the download name is the one
    the specification gives: the base, the suffix, and [png] for a PDF or
    the extension of the name otherwise. *)
Lemma downloadName_with_extension (base ext mime : string) (bytes : Z) :
  base <> "" -> ext <> "" -> JS.includes ext "." = false ->
  downloadName (mkFile (base ++ "." ++ ext) mime bytes)
  = base ++ "_watermarked."
      ++ (if String.eqb mime "application/pdf" then "png" else ext).
Proof.
  intros Hbase Hext Hdot. unfold downloadName. cbn [name type].
  change (base ++ "." ++ ext) with (base ++ String "." ext).
  rewrite split_at_separator, (split_without_separator _ _ Hdot), pop_last.
  change "."%string with (String "."%char EmptyString).
  rewrite join_split.
  destruct base; [contradiction |]. destruct ext; [contradiction |].
  reflexivity.
Qed.

(** C3: what the page does on the two names of the claim.  For
    ["passport.pdf"] the name is the claimed one; for ["scan"], a name
    without a dot, [split] yields the single piece ["scan"], which [pop]
    takes as the extension, and the base name falls back to
    ["document"]: the link that [handleDownload] clicks downloads
    ["document_watermarked.scan"]. *)
Theorem downloadName_of_passport_and_scan :
  downloadName passportPdf = "passport_watermarked.png"
  /\ downloadName scanPng = "document_watermarked.scan"
  /\ downloadName scanPng <> "scan_watermarked.png"
  /\ snd (handleDownload scanSession)
     = Some (draftOn3x4, "document_watermarked.scan").
Proof. repeat split; try reflexivity. discriminate. Qed.

(** ** File validation *)

Lemma handleFileChange_unsupported (file : File) (s : State) :
  supportedType file = false ->
  handleFileChange (Some file) s
  = toast (mkToast "Unsupported File" unsupportedTypeText (Some "destructive"))
      (setError (Some unsupportedTypeText) (resetState s)).
Proof.
  unfold supportedType, handleFileChange. intros H.
  apply orb_false_elim in H. destruct H as [-> ->]. reflexivity.
Qed.

Lemma handleFileChange_too_large (file : File) (s : State) :
  supportedType file = true ->
  maxFileSize < size file ->
  handleFileChange (Some file) s
  = toast (mkToast "Error" tooLargeText (Some "destructive"))
      (setError (Some tooLargeText) (resetState s)).
Proof.
  unfold supportedType, handleFileChange, maxFileSize. intros H Hsize.
  rewrite <- negb_orb, H. cbn [negb].
  destruct (Z.gtb_spec (size file) (20 * 1024 * 1024)); [reflexivity | lia].
Qed.

Lemma handleFileChange_accepted (file : File) (s : State) :
  supportedType file = true ->
  size file <= maxFileSize ->
  handleFileChange (Some file) s = setOriginalFile (Some file) (resetState s).
Proof.
  unfold supportedType, handleFileChange, maxFileSize. intros H Hsize.
  rewrite <- negb_orb, H. cbn [negb].
  destruct (Z.gtb_spec (size file) (20 * 1024 * 1024)); [lia | reflexivity].
Qed.

(** C6: a file of a supported type and of [20*1024*1024 + 1] bytes is
    rejected: the error is the too-large message, no file is kept, the
    effect hands nothing to the reader and a click on "Apply Watermark"
    loads no image.  A file of exactly [20*1024*1024] bytes is accepted:
    it becomes the original file, without error, and the effect hands it
    to the reader. *)
Theorem size_limit_boundary (file : File) (s : State) :
  supportedType file = true ->
  (size file = 20 * 1024 * 1024 + 1 ->
     originalFile (handleFileChange (Some file) s) = None
     /\ error (handleFileChange (Some file) s) = Some tooLargeText
     /\ snd (fileEffect (handleFileChange (Some file) s)) = None
     /\ snd (applyWatermark (handleFileChange (Some file) s)) = None)
  /\ (size file = 20 * 1024 * 1024 ->
        originalFile (handleFileChange (Some file) s) = Some file
        /\ error (handleFileChange (Some file) s) = None
        /\ snd (fileEffect (handleFileChange (Some file) s)) = Some file).
Proof.
  intros Htype. split; intros Hsize.
  - rewrite handleFileChange_too_large by (unfold maxFileSize; lia || assumption).
    repeat split; reflexivity.
  - rewrite handleFileChange_accepted by (unfold maxFileSize; lia || assumption).
    repeat split; reflexivity.
Qed.

(** The boundary on two PNG files, selected in a watermarked session. *)
Lemma size_limit_boundary_witness :
  (originalFile (handleFileChange (Some oversizedPng) watermarkedSession) = None
   /\ error (handleFileChange (Some oversizedPng) watermarkedSession) = Some tooLargeText
   /\ snd (fileEffect (handleFileChange (Some oversizedPng) watermarkedSession)) = None
   /\ snd (applyWatermark (handleFileChange (Some oversizedPng) watermarkedSession)) = None)
  /\ (originalFile (handleFileChange (Some largestPng) watermarkedSession) = Some largestPng
      /\ error (handleFileChange (Some largestPng) watermarkedSession) = None
      /\ snd (fileEffect (handleFileChange (Some largestPng) watermarkedSession))
         = Some largestPng).
Proof.
  split.
  - apply (size_limit_boundary oversizedPng watermarkedSession); reflexivity.
  - apply (size_limit_boundary largestPng watermarkedSession); reflexivity.
Defined.

(** C10: a selection that is rejected, for its type or for its size,
    leaves no original file, no preview and no watermarked image,
    whatever was loaded before: [resetState] has run before the checks.
    Nothing is loading, the progress is back at zero, the error is the
    message of the failed check with its one toast, and the effect hands
    no file to the reader. *)
Theorem rejected_selection_discards_loaded_state (file : File) (s : State) :
  supportedType file = false \/ maxFileSize < size file ->
  let s' := handleFileChange (Some file) s in
  originalFile s' = None
  /\ originalImagePreviewSrc s' = None
  /\ watermarkedImageSrc s' = None
  /\ (error s' = Some unsupportedTypeText \/ error s' = Some tooLargeText)
  /\ isLoading s' = false
  /\ progress s' = 0
  /\ (exists t, toasts s' = (toasts s ++ [t])%list)
  /\ snd (fileEffect s') = None.
Proof.
  intros Hbad s'. subst s'.
  destruct (supportedType file) eqn:Htype.
  - destruct Hbad as [Hbad | Hbad]; [discriminate |].
    rewrite handleFileChange_too_large by assumption.
    repeat split; try reflexivity; [now right | eexists; reflexivity].
  - rewrite handleFileChange_unsupported by assumption.
    repeat split; try reflexivity; [now left | eexists; reflexivity].
Qed.

(** A text file selected in a watermarked session. *)
Lemma rejected_selection_discards_loaded_state_witness :
  let s' := handleFileChange (Some notesTxt) watermarkedSession in
  originalFile s' = None
  /\ originalImagePreviewSrc s' = None
  /\ watermarkedImageSrc s' = None
  /\ (error s' = Some unsupportedTypeText \/ error s' = Some tooLargeText)
  /\ isLoading s' = false
  /\ progress s' = 0
  /\ (exists t, toasts s' = (toasts watermarkedSession ++ [t])%list)
  /\ snd (fileEffect s') = None.
Proof.
  apply (rejected_selection_discards_loaded_state notesTxt watermarkedSession).
  left. reflexivity.
Defined.

(** ** Errors of the watermarking *)

Lemma diagonalR_no_area : diagonalR 0 0 = 0%R.
Proof.
  unfold diagonalR. replace (0 * 0 + 0 * 0)%R with 0%R by lra. apply sqrt_0.
Qed.

(** On a canvas without area the tiling has nothing to do. *)
Lemma img_onload_no_area (fuel : nat) (rt : Runtime) (text : string) (bytes : string)
    (s : State) :
  context2d rt 0 0 = true ->
  img_onload (S fuel) rt text (FileData 0 0 bytes) s
  = Some (storedState (watermarked (FileData 0 0 bytes) []) s).
Proof.
  intros Hctx. rewrite img_onload_unfold. cbn [naturalWidth naturalHeight].
  rewrite Hctx, diagonalFor_fin, diagonalR_no_area.
  cbn [rows num_neg]. rewrite !half_fin, num_lt_fin_false by lra.
  reflexivity.
Qed.

(** C4, as the claim states it, fails: the source has no area, the
    browser yields a context for the canvas, and the compositor returns a
    bitmap and reports no error. *)
Lemma zero_area_source_is_composited :
  naturalWidth emptyImage = 0
  /\ naturalHeight emptyImage = 0
  /\ composite 1 (plainRuntime 10) "DRAFT" emptyImage
     = Some (Bitmap (watermarked emptyImage []))
  /\ error (storedState (watermarked emptyImage []) initialState) = None.
Proof.
  repeat split.
  unfold composite, emptyImage. rewrite img_onload_no_area by reflexivity.
  reflexivity.
Qed.

(** C4 (amended): the compositor fails exactly when [getContext('2d')]
    yields no context, with the message of its [throw]; the size of the
    source is not looked at.  With a context it returns a bitmap, unless
    its tiling does not end.  Around it [applyWatermark] reports two more
    errors: the missing preview, for which no image is loaded, and the
    image that fails to load. *)
Theorem composite_fails_only_without_context :
  (forall (fuel : nat) (rt : Runtime) (text : string) (source : dataURL),
     (context2d rt (naturalWidth source) (naturalHeight source) = false
      /\ composite fuel rt text source
         = Some (RenderError (Some "Could not get canvas context.")))
     \/ (context2d rt (naturalWidth source) (naturalHeight source) = true
         /\ (composite fuel rt text source = None
             \/ exists out, composite fuel rt text source = Some (Bitmap out))))
  /\ (forall s : State,
        originalImagePreviewSrc s = None ->
        error (fst (applyWatermark s)) = Some noPreviewText
        /\ snd (applyWatermark s) = None)
  /\ (forall s : State, error (img_onerror s) = Some imageLoadFailedText).
Proof.
  split; [| split].
  - intros fuel rt text source. unfold composite.
    destruct (context2d rt (naturalWidth source) (naturalHeight source)) eqn:Hctx.
    + right. split; [reflexivity |].
      destruct (img_onload fuel rt text source initialState) as [s' |] eqn:Hrun;
        [| now left].
      right. apply img_onload_inv in Hrun.
      destruct Hrun as [[Hno _] | (_ & tiles & _ & _ & ->)]; [congruence |].
      eexists. reflexivity.
    + left. split; [reflexivity |].
      rewrite img_onload_caught by assumption. reflexivity.
  - intros s Hsrc. unfold applyWatermark. rewrite Hsrc. split; reflexivity.
  - intros s. reflexivity.
Qed.


(** ** A text that measures nothing *)

(** Without any measured width the step is zero, and [img.onload] does
    not end, whatever the fuel. *)
Lemma zero_width_never_finishes (rt : Runtime) (text : string) (img : dataURL) :
  0 < naturalWidth img -> 0 < naturalHeight img ->
  context2d rt (naturalWidth img) (naturalHeight img) = true ->
  measuredWidth rt text (naturalWidth img) (naturalHeight img) = 0%R ->
  tilingStep rt text (naturalWidth img) (naturalHeight img) = Fin 0
  /\ forall (fuel : nat) (s : State), img_onload fuel rt text img s = None.
Proof.
  intros Hw Hh Hctx Htw.
  pose proof (diagonalR_pos _ _ Hw Hh) as Hdl.
  assert (tilingStep rt text (naturalWidth img) (naturalHeight img) = Fin 0) as Hstep.
  { unfold tilingStep. rewrite Htw, diagonalFor_fin.
    rewrite repetitionsFor_zero_width by assumption. apply stepFor_infinite. }
  split; [exact Hstep |].
  intros fuel s. rewrite img_onload_unfold, Hctx, Hstep, diagonalFor_fin.
  rewrite rows_stalls by assumption. reflexivity.
Qed.

(** C2: what the page does when the text measures nothing.  On the 3 x 4
    image, with a context and the zero width space as text, the width is
    0, [repetitions] is [Infinity], the step is 0 and neither [img.onload]
    nor the compositor ends for any fuel: the loops never advance. *)
Theorem zero_width_text_stalls_the_tiling :
  effectiveText zeroWidthSpace = zeroWidthSpace
  /\ repetitionsFor (diagonalFor 3 4)
       (Fin (measuredWidth (plainRuntime 0) zeroWidthSpace 3 4)) = PInf
  /\ tilingStep (plainRuntime 0) zeroWidthSpace 3 4 = Fin 0
  /\ (forall (fuel : nat) (s : State),
        img_onload fuel (plainRuntime 0) zeroWidthSpace photo3x4 s = None)
  /\ (forall fuel : nat,
        composite fuel (plainRuntime 0) zeroWidthSpace photo3x4 = None).
Proof.
  destruct (zero_width_never_finishes (plainRuntime 0) zeroWidthSpace photo3x4)
    as [Hstep Hrun]; try reflexivity.
  repeat split.
  - rewrite diagonalFor_fin. apply repetitionsFor_zero_width.
    apply diagonalR_pos; reflexivity.
  - exact Hstep.
  - exact Hrun.
  - intros fuel. unfold composite. rewrite Hrun. reflexivity.
Qed.

(** ** Rows of the tiling *)

(** C7: on a canvas with positive width and height and for a positive
    measured width, the step is a positive number that is at most a fifth
    of the diagonal, and the tiling ends: the loop over [y] has made
    [nrows] iterations, at least five, each of which painted the same
    [ncols] tiles, at least one, at the height [- diagonal / 2 + k * step]
    of its row [k]. *)
Theorem step_at_most_a_fifth_gives_five_rows (w h : Z) (textWidth : R) :
  0 < w -> 0 < h -> (0 < textWidth)%R ->
  exists (s : R) (nrows ncols : nat),
    diagonalFor w h = Fin (diagonalR w h)
    /\ stepFor (diagonalFor w h) (repetitionsFor (diagonalFor w h) (Fin textWidth))
       = Fin s
    /\ (0 < s <= diagonalR w h / 5)%R
    /\ (5 <= nrows)%nat /\ (1 <= ncols)%nat
    /\ forall (fuel : nat) (ctx : Canvas) (text : string),
         (nrows + ncols < fuel)%nat ->
         rows fuel ctx text (diagonalFor w h) (Fin s) (- diagonalFor w h / Fin 2)%num
         = Some (painted_more ctx
                   (tileGrid text (style ctx) (- diagonalR w h / 2)
                      (- diagonalR w h / 2) (s * 2.5) s nrows ncols)).
Proof.
  intros Hw Hh Htw.
  destruct (tiling_finishes w h textWidth Hw Hh Htw)
    as (s & nrows & ncols & Hstep & Hs & Hrows5 & Hcols1 & Hrun).
  exists s, nrows, ncols.
  split; [apply diagonalFor_fin |].
  repeat split; try assumption; apply Hs.
Qed.

(** The 3 x 4 canvas and a text that measures 10. *)
Lemma step_at_most_a_fifth_gives_five_rows_witness :
  exists (s : R) (nrows ncols : nat),
    diagonalFor 3 4 = Fin (diagonalR 3 4)
    /\ stepFor (diagonalFor 3 4) (repetitionsFor (diagonalFor 3 4) (Fin 10)) = Fin s
    /\ (0 < s <= diagonalR 3 4 / 5)%R
    /\ (5 <= nrows)%nat /\ (1 <= ncols)%nat
    /\ forall (fuel : nat) (ctx : Canvas) (text : string),
         (nrows + ncols < fuel)%nat ->
         rows fuel ctx text (diagonalFor 3 4) (Fin s) (- diagonalFor 3 4 / Fin 2)%num
         = Some (painted_more ctx
                   (tileGrid text (style ctx) (- diagonalR 3 4 / 2)
                      (- diagonalR 3 4 / 2) (s * 2.5) s nrows ncols)).
Proof.
  apply (step_at_most_a_fifth_gives_five_rows 3 4 10); [lia | lia | lra].
Defined.

(** ** The size of the output *)




(** ** Watermarking a watermarked image *)

Lemma composite_bitmap_inv (fuel : nat) (rt : Runtime) (text : string)
    (img out : dataURL) :
  composite fuel rt text img = Some (Bitmap out) ->
  exists s',
    img_onload fuel rt text img initialState = Some s'
    /\ watermarkedImageSrc s' = Some out.
Proof.
  unfold composite.
  destruct (img_onload fuel rt text img initialState) as [s' |]; [| discriminate].
  destruct (watermarkedImageSrc s') as [out' |] eqn:Hout; [| discriminate].
  intros H. injection H as <-. exists s'. split; [reflexivity | exact Hout].
Qed.

(** Tiles of a blank text leave the picture as it is. *)
Lemma blank_texts_leave_no_pixel (w h : Z) (before tiles after : list call)
    (text : string) (st : TextStyle) :
  blank text = true ->
  Forall (paintsText text st) tiles ->
  samePixels (CanvasData w h (before ++ tiles ++ after))
    (CanvasData w h (before ++ after)).
Proof.
  intros Hblank Hall.
  induction Hall as [| c tiles (x & y & ->) _ IH]; [apply same_refl |].
  cbn [app]. eapply same_trans; [| exact IH].
  apply same_without_blank_text. exact Hblank.
Qed.

(** A watermark of a blank text shows the source and nothing else. *)
Lemma blank_watermark_shows_the_source (img : dataURL) (tiles : list call)
    (text : string) (st : TextStyle) :
  0 < naturalWidth img -> 0 < naturalHeight img ->
  blank text = true ->
  Forall (paintsText text st) tiles ->
  samePixels (watermarked img tiles) img.
Proof.
  intros Hw Hh Hblank Hall. unfold watermarked.
  eapply same_trans; [apply (blank_texts_leave_no_pixel _ _ _ _ _ text st Hblank Hall) |].
  eapply same_trans; [| apply (same_copy img Hw Hh)].
  apply (same_without_last_moves _ _
           [DrawImage img (Fin 0) (Fin 0) (num_of_Z (naturalWidth img))
              (num_of_Z (naturalHeight img))]).
  reflexivity.
Qed.

(** The same tiles over two sources of one size that are one picture
    give one picture. *)
Lemma same_source_same_watermark (a b : dataURL) (tiles : list call) :
  naturalWidth a = naturalWidth b -> naturalHeight a = naturalHeight b ->
  samePixels a b ->
  samePixels (watermarked a tiles) (watermarked b tiles).
Proof.
  intros Hw Hh Hab. unfold watermarked. rewrite Hw, Hh.
  apply (same_drawn _ _ [] _ a b). exact Hab.
Qed.

(** C9: for a source of positive size, the compositor returns a canvas
    that starts with the source itself, drawn at its natural size, and
    has the layer of its tiles painted over it.  Fed with its own output
    it paints a second layer over the first: the result carries the
    calls of both layers, and the result for the source alone carries
    exactly those of the second.  The two are not always two pictures:
    when the first text is blank its layer leaves no pixel, the first
    output shows the source and the two results are one picture.  All
    three bitmaps are returned when the browser yields a context and both
    texts have a positive measured width.  In the page the source is
    never replaced: a click on "Apply Watermark", whatever its outcome,
    leaves the preview, the file and the text as they were. *)
Theorem recomposition_adds_a_layer (rt : Runtime) (textA textB : string)
    (source : dataURL) :
  0 < naturalWidth source -> 0 < naturalHeight source ->
  (forall (fuelA fuelAB fuelB : nat) (outA outAB outB : dataURL),
     composite fuelA rt textA source = Some (Bitmap outA) ->
     composite fuelAB rt textB outA = Some (Bitmap outAB) ->
     composite fuelB rt textB source = Some (Bitmap outB) ->
     exists layerA layerB : list call,
       layerA <> [] /\ layerB <> []
       /\ Forall (paintsText (effectiveText textA)
                    (watermarkStyle (naturalWidth source) (naturalHeight source))) layerA
       /\ Forall (paintsText (effectiveText textB)
                    (watermarkStyle (naturalWidth source) (naturalHeight source))) layerB
       /\ outA = watermarked source layerA
       /\ outAB = watermarked outA layerB
       /\ outB = watermarked source layerB
       /\ fillTexts outAB = (fillTexts source ++ layerA ++ layerB)%list
       /\ fillTexts outB = (fillTexts source ++ layerB)%list
       /\ (blank (effectiveText textA) = true ->
           samePixels outA source /\ samePixels outAB outB))
  /\ (context2d rt (naturalWidth source) (naturalHeight source) = true ->
      (0 < measuredWidth rt textA (naturalWidth source) (naturalHeight source))%R ->
      (0 < measuredWidth rt textB (naturalWidth source) (naturalHeight source))%R ->
      exists fuel0 : nat,
        forall fuel : nat,
          (fuel0 <= fuel)%nat ->
          exists outA outAB outB,
            composite fuel rt textA source = Some (Bitmap outA)
            /\ composite fuel rt textB outA = Some (Bitmap outAB)
            /\ composite fuel rt textB source = Some (Bitmap outB))
  /\ (forall (fuel : nat) (loads : bool) (s s' : State),
        clickApply fuel rt loads s = Some s' ->
        originalImagePreviewSrc s' = originalImagePreviewSrc s
        /\ originalFile s' = originalFile s
        /\ watermarkText s' = watermarkText s).
Proof.
  intros Hw Hh. split; [| split].
  - intros fuelA fuelAB fuelB outA outAB outB HA HAB HB.
    apply composite_bitmap_inv in HA, HAB, HB.
    destruct HA as (sA & HrunA & HoutA).
    destruct HAB as (sAB & HrunAB & HoutAB).
    destruct HB as (sB & HrunB & HoutB).
    apply img_onload_inv in HrunA.
    destruct HrunA as [[_ ->] | (Hctx & layerA & HallA & HneA & ->)]; [discriminate |].
    injection HoutA as <-.
    destruct (img_onload_same_tiles rt textB fuelB fuelAB source
                (watermarked source layerA) _ _ _ _ eq_refl eq_refl Hctx HrunB HrunAB)
      as (layerB & HallB & HneB & -> & ->).
    injection HoutAB as <-. injection HoutB as <-.
    assert (fillTexts (watermarked (watermarked source layerA) layerB)
            = (fillTexts source ++ layerA ++ layerB)%list) as HfAB.
    { rewrite (fillTexts_watermarked _ _ _ _ HallB),
        (fillTexts_watermarked _ _ _ _ HallA), <- app_assoc. reflexivity. }
    assert (fillTexts (watermarked source layerB)
            = (fillTexts source ++ layerB)%list) as HfB
      by apply (fillTexts_watermarked _ _ _ _ HallB).
    specialize (HneA Hw Hh). specialize (HneB Hw Hh).
    exists layerA, layerB.
    repeat (split; [assumption || reflexivity |]).
    intros Hblank.
    assert (samePixels (watermarked source layerA) source) as Hsame
      by apply (blank_watermark_shows_the_source _ _ _ _ Hw Hh Hblank HallA).
    split; [exact Hsame |].
    apply same_source_same_watermark; [reflexivity | reflexivity | exact Hsame].
  - intros Hctx HtwA HtwB.
    destruct (img_onload_stores rt textA _ _ Hw Hh Hctx HtwA)
      as (sxA & syA & nrowsA & ncolsA & _ & _ & HrunA).
    destruct (img_onload_stores rt textB _ _ Hw Hh Hctx HtwB)
      as (sxB & syB & nrowsB & ncolsB & _ & _ & HrunB).
    exists (S (nrowsA + ncolsA + (nrowsB + ncolsB))). intros fuel Hfuel.
    set (outA := watermarked source
                   (tileGrid (effectiveText textA)
                      (watermarkStyle (naturalWidth source) (naturalHeight source))
                      (- diagonalR (naturalWidth source) (naturalHeight source) / 2)
                      (- diagonalR (naturalWidth source) (naturalHeight source) / 2)
                      sxA syA nrowsA ncolsA)).
    exists outA.
    exists (watermarked outA
              (tileGrid (effectiveText textB)
                 (watermarkStyle (naturalWidth source) (naturalHeight source))
                 (- diagonalR (naturalWidth source) (naturalHeight source) / 2)
                 (- diagonalR (naturalWidth source) (naturalHeight source) / 2)
                 sxB syB nrowsB ncolsB)).
    exists (watermarked source
              (tileGrid (effectiveText textB)
                 (watermarkStyle (naturalWidth source) (naturalHeight source))
                 (- diagonalR (naturalWidth source) (naturalHeight source) / 2)
                 (- diagonalR (naturalWidth source) (naturalHeight source) / 2)
                 sxB syB nrowsB ncolsB)).
    unfold composite.
    rewrite (HrunA source fuel initialState) by (reflexivity || lia).
    rewrite (HrunB outA fuel initialState) by (reflexivity || lia).
    rewrite (HrunB source fuel initialState) by (reflexivity || lia).
    repeat split.
  - intros fuel loads s s'. apply clickApply_keeps_source.
Qed.

(** Three spaces and then ["COPY"] on the 3 x 4 image. *)
Lemma recomposition_adds_a_layer_witness :
  (0 < naturalWidth photo3x4 /\ 0 < naturalHeight photo3x4)
  /\ (forall (fuelA fuelAB fuelB : nat) (outA outAB outB : dataURL),
        composite fuelA (plainRuntime 10) "   " photo3x4 = Some (Bitmap outA) ->
        composite fuelAB (plainRuntime 10) "COPY" outA = Some (Bitmap outAB) ->
        composite fuelB (plainRuntime 10) "COPY" photo3x4 = Some (Bitmap outB) ->
        exists layerA layerB : list call,
          layerA <> [] /\ layerB <> []
          /\ Forall (paintsText "   " (watermarkStyle 3 4)) layerA
          /\ Forall (paintsText "COPY" (watermarkStyle 3 4)) layerB
          /\ outA = watermarked photo3x4 layerA
          /\ outAB = watermarked outA layerB
          /\ outB = watermarked photo3x4 layerB
          /\ fillTexts outAB = (fillTexts photo3x4 ++ layerA ++ layerB)%list
          /\ fillTexts outB = (fillTexts photo3x4 ++ layerB)%list
          /\ samePixels outA photo3x4
          /\ samePixels outAB outB)
  /\ (exists fuel0 : nat,
        forall fuel : nat,
          (fuel0 <= fuel)%nat ->
          exists outA outAB outB,
            composite fuel (plainRuntime 10) "   " photo3x4 = Some (Bitmap outA)
            /\ composite fuel (plainRuntime 10) "COPY" outA = Some (Bitmap outAB)
            /\ composite fuel (plainRuntime 10) "COPY" photo3x4 = Some (Bitmap outB)).
Proof.
  assert (0 < naturalWidth photo3x4) as Hw by reflexivity.
  assert (0 < naturalHeight photo3x4) as Hh by reflexivity.
  destruct (recomposition_adds_a_layer (plainRuntime 10) "   " "COPY" photo3x4 Hw Hh)
    as (Hlayers & Hreturns & _).
  split; [split; assumption |].
  split.
  - intros fuelA fuelAB fuelB outA outAB outB HA HAB HB.
    destruct (Hlayers _ _ _ _ _ _ HA HAB HB)
      as (layerA & layerB & HneA & HneB & HallA & HallB & HoutA & HoutAB & HoutB
          & HfAB & HfB & Hsame).
    destruct (Hsame eq_refl) as [HsameA HsameAB].
    exists layerA, layerB. repeat (split; [assumption |]). assumption.
  - apply Hreturns; [reflexivity | |]; unfold measuredWidth; cbn; lra.
Defined.

(** A first layer that is not seen: three spaces and then ["COPY"] on
    the 3 x 4 image in a browser that measures every text at 10.  The
    compositor paints the spaces as they are, five rows of them; the
    second run on its output and the run on the source alone paint the
    same tiles over one picture. *)
Lemma blank_first_layer_is_not_seen :
  effectiveText "   " = "   " /\ blank "   " = true
  /\ exists fuel0 : nat,
       forall fuel : nat,
         (fuel0 <= fuel)%nat ->
         exists (outA outAB outB : dataURL) (layerA layerB : list call),
           composite fuel (plainRuntime 10) "   " photo3x4 = Some (Bitmap outA)
           /\ composite fuel (plainRuntime 10) "COPY" outA = Some (Bitmap outAB)
           /\ composite fuel (plainRuntime 10) "COPY" photo3x4 = Some (Bitmap outB)
           /\ Forall (paintsText "   " (watermarkStyle 3 4)) layerA
           /\ outA = watermarked photo3x4 layerA
           /\ outAB = watermarked outA layerB
           /\ outB = watermarked photo3x4 layerB
           /\ samePixels outA photo3x4
           /\ samePixels outAB outB.
Proof.
  split; [reflexivity | split; [reflexivity |]].
  assert (0 < measuredWidth (plainRuntime 10) "   " 3 4)%R as HtwA
    by (unfold measuredWidth; cbn; lra).
  assert (0 < measuredWidth (plainRuntime 10) "COPY" 3 4)%R as HtwB
    by (unfold measuredWidth; cbn; lra).
  destruct (img_onload_stores (plainRuntime 10) "   " 3 4 eq_refl eq_refl eq_refl HtwA)
    as (sxA & syA & nrowsA & ncolsA & _ & _ & HrunA).
  destruct (img_onload_stores (plainRuntime 10) "COPY" 3 4 eq_refl eq_refl eq_refl HtwB)
    as (sxB & syB & nrowsB & ncolsB & _ & _ & HrunB).
  exists (S (nrowsA + ncolsA + (nrowsB + ncolsB))). intros fuel Hfuel.
  set (layerA := tileGrid (effectiveText "   ") (watermarkStyle 3 4)
                   (- diagonalR 3 4 / 2) (- diagonalR 3 4 / 2) sxA syA nrowsA ncolsA)
    in *.
  set (layerB := tileGrid (effectiveText "COPY") (watermarkStyle 3 4)
                   (- diagonalR 3 4 / 2) (- diagonalR 3 4 / 2) sxB syB nrowsB ncolsB)
    in *.
  assert (Forall (paintsText "   " (watermarkStyle 3 4)) layerA) as HallA
    by apply tileGrid_paints.
  assert (samePixels (watermarked photo3x4 layerA) photo3x4) as Hsame
    by (apply (blank_watermark_shows_the_source _ _ "   " (watermarkStyle 3 4));
        [reflexivity | reflexivity | reflexivity | exact HallA]).
  exists (watermarked photo3x4 layerA), (watermarked (watermarked photo3x4 layerA) layerB),
    (watermarked photo3x4 layerB), layerA, layerB.
  unfold composite.
  rewrite (HrunA photo3x4 fuel initialState) by (reflexivity || lia).
  rewrite (HrunB (watermarked photo3x4 layerA) fuel initialState) by (reflexivity || lia).
  rewrite (HrunB photo3x4 fuel initialState) by (reflexivity || lia).
  repeat (split; [reflexivity || assumption |]).
  apply same_source_same_watermark; [reflexivity | reflexivity | exact Hsame].
Qed.

(** * Further properties of the page *)

(** Reading the fields of a state that setters built, without touching
    the data URLs it holds. *)
Ltac state_simpl :=
  cbn [originalFile originalImagePreviewSrc watermarkText watermarkedImageSrc
       isLoading progress error fileInputValue toasts
       storedState caughtState onload_catch reader_catch
       setOriginalFile setOriginalImagePreviewSrc setWatermarkText
       setWatermarkedImageSrc setIsLoading setProgress setError setFileInputValue
       toast resetState img_onerror reader_onerror
       fst snd present truthy andb orb negb].

(** ** Selecting a file *)

Lemma or_else_not_empty (a b : string) : b <> "" -> JS.or_else a b <> "".
Proof. intros Hb. destruct a; [exact Hb | discriminate]. Qed.

Lemma truthy_or_else (a b : string) : b <> "" -> truthy (Some (JS.or_else a b)) = true.
Proof.
  intros Hb. destruct a as [| c a]; [| reflexivity].
  destruct b; [contradiction | reflexivity].
Qed.

(** X1: the table of [handleFileChange].  A file is kept exactly when
    its type is application/pdf or starts with [image/], whatever
    follows, and its size is at most 20 MiB, that is 20971520 bytes, and
    then without error or toast.  The type is checked first: a file of
    another type is reported as unsupported whatever its size, and a
    file of such a type that is larger as too large.  The name of the
    file plays no role. *)
Theorem selection_is_decided_by_type_then_size (file : File) (s : State) :
  maxFileSize = 20971520
  /\ (((type file = "application/pdf" \/ JS.startsWith (type file) "image/" = true)
       /\ size file <= maxFileSize
       /\ originalFile (handleFileChange (Some file) s) = Some file
       /\ error (handleFileChange (Some file) s) = None
       /\ toasts (handleFileChange (Some file) s) = toasts s)
      \/ (type file <> "application/pdf"
          /\ JS.startsWith (type file) "image/" = false
          /\ originalFile (handleFileChange (Some file) s) = None
          /\ error (handleFileChange (Some file) s) = Some unsupportedTypeText)
      \/ ((type file = "application/pdf" \/ JS.startsWith (type file) "image/" = true)
          /\ maxFileSize < size file
          /\ originalFile (handleFileChange (Some file) s) = None
          /\ error (handleFileChange (Some file) s) = Some tooLargeText)).
Proof.
  split; [reflexivity |].
  assert (supportedType file = true
          -> type file = "application/pdf" \/ JS.startsWith (type file) "image/" = true)
    as Hyes.
  { unfold supportedType. intros H. apply orb_true_iff in H.
    destruct H as [H | H]; [left; now apply String.eqb_eq | now right]. }
  destruct (supportedType file) eqn:Htype.
  - destruct (Z_le_gt_dec (size file) maxFileSize) as [Hle | Hgt].
    + left. rewrite handleFileChange_accepted by assumption.
      repeat split; auto.
    + right. right. rewrite handleFileChange_too_large by (assumption || lia).
      repeat split; auto. lia.
  - right. left. rewrite handleFileChange_unsupported by assumption.
    unfold supportedType in Htype. apply orb_false_iff in Htype.
    destruct Htype as [Hpdf Himg]. apply String.eqb_neq in Hpdf.
    repeat split; assumption.
Qed.

(** X2: a selection starts from scratch.  What [handleFileChange] leaves
    depends on the file, on the watermark text and on the toasts shown so
    far, and on nothing else of the state before: no file, preview,
    result, error or progress of an earlier document survives it.  This
    holds for a cancelled dialog too, which therefore discards the loaded
    document. *)
Theorem selection_forgets_the_previous_document (file : option File) (s1 s2 : State) :
  watermarkText s1 = watermarkText s2 ->
  toasts s1 = toasts s2 ->
  handleFileChange file s1 = handleFileChange file s2
  /\ originalImagePreviewSrc (handleFileChange file s1) = None
  /\ watermarkedImageSrc (handleFileChange file s1) = None
  /\ (file = None ->
      originalFile (handleFileChange file s1) = None
      /\ error (handleFileChange file s1) = None).
Proof.
  intros Htext Htoasts.
  assert (resetState s1 = resetState s2) as Hreset.
  { unfold resetState, setFileInputValue, setError, setProgress, setIsLoading,
      setWatermarkedImageSrc, setOriginalImagePreviewSrc, setOriginalFile.
    cbn. now rewrite Htext, Htoasts. }
  split; [| split; [| split]].
  - unfold handleFileChange. rewrite Hreset. reflexivity.
  - unfold handleFileChange. destruct file as [f |]; [| reflexivity].
    destruct (_ && _); [reflexivity |]. destruct (_ >? _); reflexivity.
  - unfold handleFileChange. destruct file as [f |]; [| reflexivity].
    destruct (_ && _); [reflexivity |]. destruct (_ >? _); reflexivity.
  - intros ->. split; reflexivity.
Qed.

(** A new selection in a watermarked session and in a fresh page with the
    same text. *)
Lemma selection_forgets_the_previous_document_witness :
  handleFileChange (Some largestPng) watermarkedSession
  = handleFileChange (Some largestPng) (setWatermarkText "DRAFT" initialState)
  /\ originalImagePreviewSrc (handleFileChange (Some largestPng) watermarkedSession) = None
  /\ watermarkedImageSrc (handleFileChange (Some largestPng) watermarkedSession) = None
  /\ (Some largestPng = None ->
      originalFile (handleFileChange (Some largestPng) watermarkedSession) = None
      /\ error (handleFileChange (Some largestPng) watermarkedSession) = None).
Proof.
  apply (selection_forgets_the_previous_document (Some largestPng) watermarkedSession
           (setWatermarkText "DRAFT" initialState)); reflexivity.
Defined.

(** ** Loading the file *)

(** The two ways [reader.onload] ends: by its [catch] block, from a state
    that only differs from the one it started in by the progress, or
    normally, with or without a preview set. *)
Lemma reader_onload_ends (rt : Runtime) (ld : Loader) (file : File)
    (fileSrc : string) (s : State) :
  (exists (message : string) (p : Z),
     reader_onload rt ld file fileSrc s
     = Some (setIsLoading false (reader_catch message (setProgress p s))))
  \/ (exists preview,
        reader_onload rt ld file fileSrc s
        = Some (setIsLoading false
                  (toast (mkToast "File Loaded"
                            (name file ++ " ready for watermarking.") None)
                     (setProgress 100 (setOriginalImagePreviewSrc (Some preview) s))))
        /\ supportedType file = true)
  \/ (reader_onload rt ld file fileSrc s
      = Some (setIsLoading false
                (toast (mkToast "File Loaded"
                          (name file ++ " ready for watermarking.") None)
                   (setProgress 100 s)))
      /\ supportedType file = false).
Proof.
  unfold reader_onload, supportedType, try_catch_finally, bind, await.
  destruct (String.eqb (type file) "application/pdf") eqn:Hpdf.
  - destruct (atob ld (nth_error (JS.split "," fileSrc) 1)) as [data | m];
      [| left; exists m, 30; reflexivity].
    cbn [ret].
    destruct (getDocument ld data) as [pdf | m];
      [| left; exists m, 30; reflexivity].
    cbn [ret update].
    destruct (getPage pdf 1) as [page | m];
      [| left; exists m, 50; reflexivity].
    cbn [ret]. unfold getContext. cbn [width height set_width set_height createCanvas].
    destruct (context2d rt _ _);
      [| left; exists "Failed to get canvas context for PDF page.", 50; reflexivity].
    cbn [ret].
    destruct (render page _ _) as [png | m];
      [| left; exists m, 50; reflexivity].
    right. left. eexists. split; reflexivity.
  - destruct (JS.startsWith (type file) "image/") eqn:Himg.
    + right. left. eexists. split; reflexivity.
    + right. right. split; reflexivity.
Qed.

(** X3: [reader.onload] and [reader.onerror] always end, stop the
    loading, and never drop the selected file nor touch the watermarked
    image or the text.  [reader.onload] ends either with an error that is
    shown and without preview, or with the error as it was, at progress
    100 and, for a file of a supported type, with a preview.
    [reader.onerror] reports that the file could not be read and clears
    the preview. *)
Theorem loading_ends_with_a_preview_or_an_error :
  (forall (rt : Runtime) (ld : Loader) (file : File) (fileSrc : string) (s : State),
     exists s',
       reader_onload rt ld file fileSrc s = Some s'
       /\ originalFile s' = originalFile s
       /\ watermarkedImageSrc s' = watermarkedImageSrc s
       /\ watermarkText s' = watermarkText s
       /\ isLoading s' = false
       /\ ((showsError s' = true /\ originalImagePreviewSrc s' = None)
           \/ (error s' = error s /\ progress s' = 100
               /\ (supportedType file = true ->
                   present (originalImagePreviewSrc s') = true))))
  /\ (forall s : State,
        originalFile (reader_onerror s) = originalFile s
        /\ watermarkedImageSrc (reader_onerror s) = watermarkedImageSrc s
        /\ isLoading (reader_onerror s) = false
        /\ error (reader_onerror s) = Some readFailedText
        /\ showsError (reader_onerror s) = true
        /\ originalImagePreviewSrc (reader_onerror s) = None).
Proof.
  split.
  - intros rt ld file fileSrc s.
    destruct (reader_onload_ends rt ld file fileSrc s)
      as [(m & p & ->) | [(preview & -> & Htype) | [-> Htype]]];
      eexists; (split; [reflexivity |]); repeat (split; [reflexivity |]).
    + left. split; [| reflexivity].
      unfold showsError. cbn. apply truthy_or_else. discriminate.
    + right. repeat split.
    + right. repeat split. intros Htype'. congruence.
  - intros s. repeat split.
Qed.

Lemma image_type_is_not_pdf (t : string) :
  JS.startsWith t "image/" = true -> String.eqb t "application/pdf" = false.
Proof.
  intros Himg. destruct (String.eqb_spec t "application/pdf") as [-> |]; [| reflexivity].
  discriminate.
Qed.

(** X4: an image that is accepted and read is previewed as it was read.
    From any state, selecting a file whose type starts with [image/] and
    whose size is within the limit ends with this file as the original
    file and the data URL of the reader itself as the preview, whatever
    pdf.js or the canvas would do.  No error and no old result is left,
    the card with "Apply Watermark" is shown with its button enabled, and
    no download is offered. *)
Theorem accepted_image_is_previewed_as_read (rt : Runtime) (ld : Loader)
    (file : File) (fileSrc : string) (s : State) :
  JS.startsWith (type file) "image/" = true ->
  size file <= maxFileSize ->
  exists s',
    selectFile rt ld (Some file) (Some fileSrc) s = Some s'
    /\ originalFile s' = Some file
    /\ originalImagePreviewSrc s'
       = Some (FileData (fst (imageSize ld fileSrc)) (snd (imageSize ld fileSrc)) fileSrc)
    /\ watermarkedImageSrc s' = None
    /\ error s' = None
    /\ progress s' = 100
    /\ showsCustomize s' = true /\ applyDisabled s' = false
    /\ showsProgress s' = false
    /\ showsDownloadButton s' = false.
Proof.
  intros Himg Hsize.
  assert (supportedType file = true) as Htype.
  { unfold supportedType. rewrite Himg. apply orb_true_r. }
  unfold selectFile. rewrite handleFileChange_accepted by assumption.
  cbn [fileEffect originalFile setOriginalFile].
  unfold reader_onload, try_catch_finally, bind.
  rewrite (image_type_is_not_pdf _ Himg), Himg.
  eexists. split; [reflexivity |]. repeat split.
Qed.

(** A PNG of the largest size, selected in a watermarked session. *)
Lemma accepted_image_is_previewed_as_read_witness :
  exists s',
    selectFile (plainRuntime 10) sampleLoader (Some largestPng)
      (Some "data:image/png;base64,AAAA") watermarkedSession = Some s'
    /\ originalFile s' = Some largestPng
    /\ originalImagePreviewSrc s'
       = Some (FileData 3 4 "data:image/png;base64,AAAA")
    /\ watermarkedImageSrc s' = None
    /\ error s' = None
    /\ progress s' = 100
    /\ showsCustomize s' = true /\ applyDisabled s' = false
    /\ showsProgress s' = false
    /\ showsDownloadButton s' = false.
Proof.
  apply (accepted_image_is_previewed_as_read (plainRuntime 10) sampleLoader largestPng
           "data:image/png;base64,AAAA" watermarkedSession);
    [reflexivity | unfold maxFileSize; cbn; lia].
Defined.

Lemma truncZ_floor (n : Z) (v : R) :
  0 <= n -> (IZR n <= v < IZR n + 1)%R -> truncZ v = n.
Proof.
  intros Hn [Hlo Hhi]. unfold truncZ.
  assert (0 <= IZR n)%R as Hn' by now apply IZR_le.
  destruct (Rle_dec 0 v) as [_ | Hneg]; [| lra].
  rewrite (ceilZ_unique (- v) (- n)); [lia |].
  rewrite opp_IZR. lra.
Qed.

(** The side a canvas takes from a number that is not negative and
    below 2^31: the number without its fraction. *)
Lemma canvasLength_floor (fallback n : Z) (v : R) :
  0 <= n <= 2147483647 -> (IZR n <= v < IZR n + 1)%R ->
  canvasLength fallback v = n.
Proof.
  intros Hn Hv. unfold canvasLength.
  rewrite (truncZ_floor n v) by (lia || assumption).
  rewrite Z.mod_small by lia.
  destruct (Z.leb_spec n 2147483647); [reflexivity | lia].
Qed.

Lemma canvasLength_cuts_the_fraction (fallback : Z) (v : R) :
  (0 <= v < 2147483648)%R ->
  (IZR (canvasLength fallback v) <= v < IZR (canvasLength fallback v) + 1)%R.
Proof.
  intros [Hlo Hhi].
  destruct (ceilZ_spec (- v)) as [Hc1 Hc2].
  assert (IZR (- ceilZ (- v)) <= v < IZR (- ceilZ (- v)) + 1)%R as Hfloor
    by (rewrite opp_IZR; lra).
  assert (0 <= - ceilZ (- v) <= 2147483647) as Hrange.
  { split.
    - apply Z.lt_succ_r. apply lt_IZR. rewrite succ_IZR. lra.
    - apply Z.lt_succ_r. apply lt_IZR. rewrite succ_IZR.
      lra. }
  rewrite (canvasLength_floor fallback (- ceilZ (- v)) v Hrange Hfloor).
  exact Hfloor.
Qed.

(** X5: the preview of a PDF is its first page at scale 2, cut to whole
    pixels.  When [atob] decodes the second piece of the data URL, pdf.js
    opens the document and its page 1, the browser yields a context for
    the canvas and the page renders, then selecting an accepted PDF ends
    without error with a preview that is the PNG of that canvas.  Its
    sides are those of the viewport at scale 2.0 as the canvas took
    them: for a side that is not negative and below 2^31 the side
    without its fraction, so that a viewport of 1190.56 x 1683.78 gives
    a preview of 1190 x 1683. *)
Theorem pdf_preview_is_page_one_at_scale_two (rt : Runtime) (ld : Loader)
    (file : File) (fileSrc data png : string) (pdf : PdfDocument) (page : PdfPage)
    (s : State) :
  type file = "application/pdf" ->
  size file <= maxFileSize ->
  atob ld (nth_error (JS.split "," fileSrc) 1) = Normal data ->
  getDocument ld data = Normal pdf ->
  getPage pdf 1 = Normal page ->
  context2d rt (width (pdfCanvas page)) (height (pdfCanvas page)) = true ->
  render page (pdfCanvas page) (getViewport page 2.0) = Normal png ->
  exists (s' : State) (w h : Z),
    selectFile rt ld (Some file) (Some fileSrc) s = Some s'
    /\ originalFile s' = Some file
    /\ originalImagePreviewSrc s' = Some (FileData w h png)
    /\ w = canvasLength 300 (fst (getViewport page 2.0))
    /\ h = canvasLength 150 (snd (getViewport page 2.0))
    /\ ((0 <= fst (getViewport page 2.0) < 2147483648)%R ->
        (IZR w <= fst (getViewport page 2.0) < IZR w + 1)%R)
    /\ ((0 <= snd (getViewport page 2.0) < 2147483648)%R ->
        (IZR h <= snd (getViewport page 2.0) < IZR h + 1)%R)
    /\ error s' = None
    /\ progress s' = 100
    /\ showsCustomize s' = true.
Proof.
  intros Hpdf Hsize Hatob Hdoc Hpage Hctx Hrender.
  assert (supportedType file = true) as Htype.
  { unfold supportedType. rewrite Hpdf. reflexivity. }
  exists (setIsLoading false
            (toast (mkToast "File Loaded" (name file ++ " ready for watermarking.") None)
               (setProgress 100
                  (setOriginalImagePreviewSrc
                     (Some (FileData (canvasLength 300 (fst (getViewport page 2.0)))
                              (canvasLength 150 (snd (getViewport page 2.0))) png))
                     (setProgress 70 (setProgress 50 (setProgress 30
                        (fst (fileEffect (handleFileChange (Some file) s)))))))))),
    (canvasLength 300 (fst (getViewport page 2.0))),
    (canvasLength 150 (snd (getViewport page 2.0))).
  split.
  - unfold selectFile. rewrite handleFileChange_accepted by assumption.
    cbn [fileEffect originalFile setOriginalFile fst].
    unfold reader_onload, try_catch_finally, bind, await, getContext.
    rewrite Hpdf. cbn [String.eqb Ascii.eqb Bool.eqb].
    rewrite Hatob. cbn [ret]. rewrite Hdoc. cbn [ret update]. rewrite Hpage. cbn [ret].
    change (set_height (set_width createCanvas
                          (canvasLength 300 (fst (getViewport page 2.0))))
              (canvasLength 150 (snd (getViewport page 2.0))))
      with (pdfCanvas page).
    rewrite Hctx. cbn [ret]. rewrite Hrender. reflexivity.
  - rewrite handleFileChange_accepted by assumption.
    split; [reflexivity |].
    split; [reflexivity |].
    split; [reflexivity |].
    split; [reflexivity |].
    split; [apply canvasLength_cuts_the_fraction |].
    split; [apply canvasLength_cuts_the_fraction |].
    repeat split.
Qed.

(** The passport of the size A4, read as a data URL with the payload
    [JVBERi0=]: the viewport of 1190.56 x 1683.78 gives a preview of
    1190 x 1683. *)
Lemma pdf_preview_is_page_one_at_scale_two_witness :
  exists s',
    selectFile (plainRuntime 10) sampleLoader (Some passportPdf)
      (Some "data:application/pdf;base64,JVBERi0=") initialState = Some s'
    /\ originalFile s' = Some passportPdf
    /\ originalImagePreviewSrc s'
       = Some (FileData 1190 1683 "data:image/png;base64,PAGE")
    /\ error s' = None
    /\ progress s' = 100
    /\ showsCustomize s' = true.
Proof.
  destruct (pdf_preview_is_page_one_at_scale_two (plainRuntime 10) sampleLoader
              passportPdf "data:application/pdf;base64,JVBERi0=" "JVBERi0="
              "data:image/png;base64,PAGE"
              (mkPdfDocument (fun n => if n =? 1 then Normal samplePage
                                       else Thrown "Invalid page request."))
              samplePage initialState)
    as (s' & w & h & Hrun & Hfile & Hpreview & Hw & Hh & _ & _ & Herror & Hprogress & Hshown);
    try reflexivity.
  - unfold maxFileSize. cbn. lia.
  - exists s'.
    rewrite (canvasLength_floor 300 1190) in Hw by (cbn [samplePage getViewport fst]; lra || lia).
    rewrite (canvasLength_floor 150 1683) in Hh by (cbn [samplePage getViewport snd]; lra || lia).
    subst w h. repeat split; assumption.
Defined.

(** ** What the page offers around the watermarking *)

(** X6: whenever the page offers "Apply Watermark", a click starts the
    load of the preview: the button is enabled and the guard of
    [applyWatermark] for a missing preview does not fire.  While that
    image loads the card is hidden, so no second click can start a second
    load, and the progress bar is not shown either: the progress is 0.
    It is not shown when the load has ended, whatever its outcome. *)
Theorem offered_apply_starts_one_silent_load (s : State) :
  showsCustomize s = true ->
  applyDisabled s = false
  /\ (exists src,
        originalImagePreviewSrc s = Some src
        /\ snd (applyWatermark s) = Some src)
  /\ error (fst (applyWatermark s)) = None
  /\ showsCustomize (fst (applyWatermark s)) = false
  /\ showsProgress (fst (applyWatermark s)) = false
  /\ (forall (fuel : nat) (rt : Runtime) (loads : bool) (s' : State),
        clickApply fuel rt loads s = Some s' -> showsProgress s' = false).
Proof.
  unfold showsCustomize, applyDisabled. intros Hshown.
  apply andb_prop in Hshown. destruct Hshown as [Hshown Herr].
  apply andb_prop in Hshown. destruct Hshown as [Hsrc Hload].
  destruct (originalImagePreviewSrc s) as [src |] eqn:Hpreview; [| discriminate].
  apply negb_true_iff in Hload.
  split; [rewrite Hload; reflexivity |].
  unfold applyWatermark. rewrite Hpreview. cbn [fst snd].
  split; [exists src; split; reflexivity |].
  split; [reflexivity |].
  split; [cbn; rewrite Hpreview; reflexivity |].
  split; [reflexivity |].
  intros fuel rt loads s'. unfold clickApply, applyWatermark. rewrite Hpreview.
  destruct loads.
  - intros Hrun. apply img_onload_inv in Hrun.
    destruct Hrun as [[_ ->] | (_ & tiles & _ & _ & ->)]; reflexivity.
  - intros Hrun. injection Hrun as <-. reflexivity.
Qed.

(** The session in which the 3 x 4 image is loaded and watermarked. *)
Lemma offered_apply_starts_one_silent_load_witness :
  applyDisabled watermarkedSession = false
  /\ (exists src,
        originalImagePreviewSrc watermarkedSession = Some src
        /\ snd (applyWatermark watermarkedSession) = Some src)
  /\ error (fst (applyWatermark watermarkedSession)) = None
  /\ showsCustomize (fst (applyWatermark watermarkedSession)) = false
  /\ showsProgress (fst (applyWatermark watermarkedSession)) = false
  /\ (forall (fuel : nat) (rt : Runtime) (loads : bool) (s' : State),
        clickApply fuel rt loads watermarkedSession = Some s' ->
        showsProgress s' = false).
Proof.
  apply (offered_apply_starts_one_silent_load watermarkedSession). reflexivity.
Defined.

(** X7: a failed watermarking cannot be tried again as it is.  After the
    [catch] block of [img.onload] or after [img.onerror] the error is
    shown and, although the preview is still loaded, the page offers
    neither "Apply Watermark" nor the preview card nor a download; the
    file stays selected, so "Clear Selection & Reset" is offered as
    before. *)
Theorem failed_watermark_hides_apply_and_download :
  (forall (fuel : nat) (rt : Runtime) (text : string) (img : dataURL) (s : State),
     context2d rt (naturalWidth img) (naturalHeight img) = false ->
     exists s',
       img_onload fuel rt text img s = Some s'
       /\ showsError s' = true
       /\ showsCustomize s' = false
       /\ showsPreviewCard s' = false
       /\ showsDownloadButton s' = false
       /\ originalImagePreviewSrc s' = originalImagePreviewSrc s
       /\ showsResetButton s' = showsResetButton s)
  /\ (forall s : State,
        showsError (img_onerror s) = true
        /\ showsCustomize (img_onerror s) = false
        /\ showsPreviewCard (img_onerror s) = false
        /\ showsDownloadButton (img_onerror s) = false
        /\ originalImagePreviewSrc (img_onerror s) = originalImagePreviewSrc s
        /\ showsResetButton (img_onerror s) = showsResetButton s).
Proof.
  split.
  - intros fuel rt text img s Hctx. eexists.
    split; [apply img_onload_caught; assumption |].
    unfold showsCustomize, showsPreviewCard, showsDownloadButton, showsPreviewCard,
      showsError. cbn.
    rewrite !andb_false_r. repeat split.
  - intros s.
    unfold showsCustomize, showsPreviewCard, showsDownloadButton, showsPreviewCard,
      showsError. cbn.
    rewrite !andb_false_r. repeat split.
Qed.

(** X8: a watermark that succeeds can be downloaded at once.  In a state
    with a file and a preview of positive size, when the browser yields a
    context and the text has a positive measured width, a click on "Apply
    Watermark" whose image loads stores a bitmap of the size of the
    preview; the page then shows the download button, enabled, and a
    click on it downloads exactly that bitmap under the download name of
    the file. *)
Theorem successful_watermark_is_offered_for_download (rt : Runtime)
    (file : File) (src : dataURL) (s : State) :
  originalFile s = Some file ->
  originalImagePreviewSrc s = Some src ->
  0 < naturalWidth src -> 0 < naturalHeight src ->
  context2d rt (naturalWidth src) (naturalHeight src) = true ->
  (0 < measuredWidth rt (watermarkText s) (naturalWidth src) (naturalHeight src))%R ->
  exists fuel0 : nat,
    forall fuel : nat,
      (fuel0 <= fuel)%nat ->
      exists s' out,
        clickApply fuel rt true s = Some s'
        /\ watermarkedImageSrc s' = Some out
        /\ naturalWidth out = naturalWidth src
        /\ naturalHeight out = naturalHeight src
        /\ error s' = None
        /\ showsDownloadButton s' = true
        /\ downloadDisabled s' = false
        /\ snd (handleDownload s') = Some (out, downloadName file).
Proof.
  intros Hfile Hsrc Hw Hh Hctx Htw.
  destruct (img_onload_stores rt (watermarkText s) _ _ Hw Hh Hctx Htw)
    as (sx & sy & nrows & ncols & _ & _ & Hrun).
  exists (S (nrows + ncols)). intros fuel Hfuel.
  unfold clickApply, applyWatermark. rewrite Hsrc.
  rewrite Hrun by (reflexivity || lia).
  eexists. eexists. split; [reflexivity |].
  unfold showsDownloadButton, showsPreviewCard, downloadDisabled, handleDownload.
  state_simpl. rewrite Hfile, Hsrc. state_simpl.
  repeat (split; [reflexivity |]). reflexivity.
Qed.

(** The scan session, in a browser that measures the text at 10. *)
Lemma successful_watermark_is_offered_for_download_witness :
  exists fuel0 : nat,
    forall fuel : nat,
      (fuel0 <= fuel)%nat ->
      exists s' out,
        clickApply fuel (plainRuntime 10) true scanSession = Some s'
        /\ watermarkedImageSrc s' = Some out
        /\ naturalWidth out = 3
        /\ naturalHeight out = 4
        /\ error s' = None
        /\ showsDownloadButton s' = true
        /\ downloadDisabled s' = false
        /\ snd (handleDownload s') = Some (out, downloadName scanPng).
Proof.
  apply (successful_watermark_is_offered_for_download (plainRuntime 10) scanPng
           photo3x4 scanSession); try reflexivity.
  unfold measuredWidth. cbn. lra.
Defined.

(** X9: a reset does not cancel a watermarking that is under way.  When
    "Clear Selection & Reset", which stays offered, is clicked after
    "Apply Watermark" and before the image has loaded, [img.onload] still
    runs and stores its bitmap in the state that was reset: the page then
    shows a watermarked image and an enabled download button without any
    file or preview, and a click on that button does nothing. *)
Theorem reset_does_not_cancel_a_pending_watermark (rt : Runtime)
    (src : dataURL) (s : State) :
  showsResetButton s = true ->
  originalImagePreviewSrc s = Some src ->
  0 < naturalWidth src -> 0 < naturalHeight src ->
  context2d rt (naturalWidth src) (naturalHeight src) = true ->
  (0 < measuredWidth rt (watermarkText s) (naturalWidth src) (naturalHeight src))%R ->
  snd (applyWatermark s) = Some src
  /\ showsResetButton (fst (applyWatermark s)) = true
  /\ exists fuel0 : nat,
       forall fuel : nat,
         (fuel0 <= fuel)%nat ->
         exists s' out,
           img_onload fuel rt (watermarkText s) src (resetState (fst (applyWatermark s)))
           = Some s'
           /\ originalFile s' = None
           /\ originalImagePreviewSrc s' = None
           /\ watermarkedImageSrc s' = Some out
           /\ showsDownloadButton s' = true
           /\ downloadDisabled s' = false
           /\ handleDownload s' = (s', None).
Proof.
  intros Hreset Hsrc Hw Hh Hctx Htw.
  destruct (img_onload_stores rt (watermarkText s) _ _ Hw Hh Hctx Htw)
    as (sx & sy & nrows & ncols & _ & _ & Hrun).
  unfold applyWatermark. rewrite Hsrc. cbn [fst snd].
  split; [reflexivity | split; [exact Hreset |]].
  exists (S (nrows + ncols)). intros fuel Hfuel.
  rewrite Hrun by (reflexivity || lia).
  eexists. eexists. split; [reflexivity |].
  unfold showsDownloadButton, showsPreviewCard, downloadDisabled, handleDownload.
  state_simpl. repeat (split; [reflexivity |]). reflexivity.
Qed.

(** The watermarked session, in a browser that measures the text at 10. *)
Lemma reset_does_not_cancel_a_pending_watermark_witness :
  snd (applyWatermark watermarkedSession) = Some photo3x4
  /\ showsResetButton (fst (applyWatermark watermarkedSession)) = true
  /\ exists fuel0 : nat,
       forall fuel : nat,
         (fuel0 <= fuel)%nat ->
         exists s' out,
           img_onload fuel (plainRuntime 10) (watermarkText watermarkedSession) photo3x4
             (resetState (fst (applyWatermark watermarkedSession)))
           = Some s'
           /\ originalFile s' = None
           /\ originalImagePreviewSrc s' = None
           /\ watermarkedImageSrc s' = Some out
           /\ showsDownloadButton s' = true
           /\ downloadDisabled s' = false
           /\ handleDownload s' = (s', None).
Proof.
  apply (reset_does_not_cancel_a_pending_watermark (plainRuntime 10) photo3x4
           watermarkedSession); try reflexivity.
  unfold measuredWidth. cbn. lra.
Defined.

(** X10: no handler changes the watermark text or takes a toast back;
    only the text input writes the text.  Selecting a file, the effect,
    the end of a read, a reset, a watermarking and a download all leave
    the text as the user typed it and only append to the toasts. *)
Theorem handlers_keep_the_text_and_the_toasts :
  (forall (file : option File) (s : State),
     watermarkText (handleFileChange file s) = watermarkText s
     /\ exists more, toasts (handleFileChange file s) = (toasts s ++ more)%list)
  /\ (forall s : State,
        watermarkText (fst (fileEffect s)) = watermarkText s
        /\ toasts (fst (fileEffect s)) = toasts s)
  /\ (forall (rt : Runtime) (ld : Loader) (file : File) (fileSrc : string)
             (s s' : State),
        reader_onload rt ld file fileSrc s = Some s' ->
        watermarkText s' = watermarkText s
        /\ exists more, toasts s' = (toasts s ++ more)%list)
  /\ (forall s : State,
        watermarkText (reader_onerror s) = watermarkText s
        /\ exists more, toasts (reader_onerror s) = (toasts s ++ more)%list)
  /\ (forall s : State,
        watermarkText (resetState s) = watermarkText s
        /\ toasts (resetState s) = toasts s)
  /\ (forall (fuel : nat) (rt : Runtime) (loads : bool) (s s' : State),
        clickApply fuel rt loads s = Some s' ->
        watermarkText s' = watermarkText s
        /\ exists more, toasts s' = (toasts s ++ more)%list)
  /\ (forall s : State,
        watermarkText (fst (handleDownload s)) = watermarkText s
        /\ exists more, toasts (fst (handleDownload s)) = (toasts s ++ more)%list).
Proof.
  repeat split.
  - unfold handleFileChange. destruct file as [f |]; [| reflexivity].
    destruct (_ && _); [reflexivity |]. destruct (_ >? _); reflexivity.
  - unfold handleFileChange. destruct file as [f |];
      [| exists []; cbn; now rewrite app_nil_r].
    destruct (_ && _); [eexists; reflexivity |].
    destruct (_ >? _); [eexists; reflexivity |].
    exists []; cbn; now rewrite app_nil_r.
  - unfold fileEffect. destruct (originalFile s); reflexivity.
  - unfold fileEffect. destruct (originalFile s); reflexivity.
  - match goal with H : reader_onload _ _ _ _ _ = Some _ |- _ => rename H into Hrun end.
    destruct (reader_onload_ends rt ld file fileSrc s)
      as [(m & p & Heq) | [(preview & Heq & _) | [Heq _]]];
      rewrite Heq in Hrun; injection Hrun as <-; reflexivity.
  - match goal with H : reader_onload _ _ _ _ _ = Some _ |- _ => rename H into Hrun end.
    destruct (reader_onload_ends rt ld file fileSrc s)
      as [(m & p & Heq) | [(preview & Heq & _) | [Heq _]]];
      rewrite Heq in Hrun; injection Hrun as <-; eexists; reflexivity.
  - eexists. reflexivity.
  - match goal with H : clickApply _ _ _ _ = Some _ |- _ => rename H into Hrun end.
    now apply clickApply_keeps_source in Hrun.
  - match goal with H : clickApply _ _ _ _ = Some _ |- _ => rename H into Hrun end.
    unfold clickApply, applyWatermark in Hrun.
    destruct (originalImagePreviewSrc s) as [src |].
    + destruct loads.
      * apply img_onload_inv in Hrun.
        destruct Hrun as [[_ ->] | (_ & tiles & _ & _ & ->)]; eexists; reflexivity.
      * injection Hrun as <-. eexists. reflexivity.
    + injection Hrun as <-. eexists. reflexivity.
  - unfold handleDownload.
    destruct (watermarkedImageSrc s); [destruct (originalFile s) |]; reflexivity.
  - unfold handleDownload.
    destruct (watermarkedImageSrc s); [destruct (originalFile s) |];
      try (eexists; reflexivity); exists []; cbn; now rewrite app_nil_r.
Qed.

(** ** More on the download name *)

Lemma append_cancel_l (a x y : string) : a ++ x = a ++ y -> x = y.
Proof.
  induction a as [| c a IH]; cbn [append]; intros Heq; [exact Heq |].
  injection Heq as Heq. now apply IH.
Qed.

Lemma downloadName_rev2_with_extension (base ext mime : string) (bytes : Z) :
  JS.includes ext "." = false ->
  downloadName_rev2 (mkFile (base ++ "." ++ ext) mime bytes)
  = base ++ "_watermarked." ++ (if String.eqb ext "pdf" then "png" else ext).
Proof.
  intros Hdot. unfold downloadName_rev2. cbn [name].
  change (base ++ "." ++ ext) with (base ++ String "." ext).
  rewrite split_at_separator, (split_without_separator _ _ Hdot), pop_last.
  change "."%string with (String "."%char EmptyString).
  now rewrite join_split.
Qed.

(** X11: the download name against the one of the second revision.  On a
    name with a base and an extension [handleDownload] names the
    download after the base, with [png] for a file of type
    application/pdf and the extension of the name otherwise; the second
    revision decided by the extension instead, [png] exactly for the
    extension [pdf].  The two give the same name exactly when the type
    and the extension agree on the file being a PDF, or the file is a
    PDF whose name ends in [.png]. *)
Theorem download_names_of_two_revisions (base ext mime : string) (bytes : Z) :
  base <> "" -> ext <> "" -> JS.includes ext "." = false ->
  let file := mkFile (base ++ "." ++ ext) mime bytes in
  downloadName file
  = base ++ "_watermarked." ++ (if String.eqb mime "application/pdf" then "png" else ext)
  /\ downloadName_rev2 file
     = base ++ "_watermarked." ++ (if String.eqb ext "pdf" then "png" else ext)
  /\ (downloadName file = downloadName_rev2 file
      <-> String.eqb mime "application/pdf" = String.eqb ext "pdf"
          \/ (mime = "application/pdf" /\ ext = "png")).
Proof.
  intros Hbase Hext Hdot file. unfold file.
  rewrite (downloadName_with_extension base ext mime bytes Hbase Hext Hdot),
    (downloadName_rev2_with_extension base ext mime bytes Hdot).
  split; [reflexivity | split; [reflexivity |]].
  destruct (String.eqb_spec mime "application/pdf") as [Hmime | Hmime];
    destruct (String.eqb_spec ext "pdf") as [Hpdf | Hpdf]; split.
  - intros _. now left.
  - reflexivity.
  - intros Heq. do 2 apply append_cancel_l in Heq. right. now split.
  - intros [Hbool | [_ ->]]; [discriminate | reflexivity].
  - intros Heq. do 2 apply append_cancel_l in Heq. subst ext. discriminate.
  - intros [Hbool | [Himp _]]; [discriminate | contradiction].
  - intros _. now left.
  - reflexivity.
Qed.

(** A PDF whose name ends in [.PDF]: the page names the download
    [ID_watermarked.png], the second revision [ID_watermarked.PDF]. *)
Lemma download_names_of_two_revisions_witness :
  downloadName (mkFile "ID.PDF" "application/pdf" 1024) = "ID_watermarked.png"
  /\ downloadName_rev2 (mkFile "ID.PDF" "application/pdf" 1024) = "ID_watermarked.PDF"
  /\ (downloadName (mkFile "ID.PDF" "application/pdf" 1024)
      = downloadName_rev2 (mkFile "ID.PDF" "application/pdf" 1024)
      <-> true = false \/ ("application/pdf" = "application/pdf" /\ "PDF" = "png")).
Proof.
  apply (download_names_of_two_revisions "ID" "PDF" "application/pdf" 1024);
    [discriminate | discriminate | reflexivity].
Defined.

Lemma pop_is_some (arr : list string) :
  arr <> [] -> exists x rest, JS.pop arr = (Some x, rest).
Proof.
  induction arr as [| y arr IH]; [contradiction |]. intros _.
  destruct arr as [| z arr]; [exists y, []; reflexivity |].
  destruct IH as (x & rest & Hpop); [discriminate |].
  exists x, (y :: rest). cbn [JS.pop] in *. now rewrite Hpop.
Qed.

(** X12: every download name has a base and an extension that are not
    empty, around the fixed middle [_watermarked.], and for a PDF the
    extension is [png] whatever the name of the file is. *)
Theorem downloadName_always_has_base_and_extension (file : File) :
  exists base ext : string,
    base <> "" /\ ext <> ""
    /\ downloadName file = base ++ "_watermarked." ++ ext
    /\ (type file = "application/pdf" -> ext = "png").
Proof.
  unfold downloadName.
  destruct (pop_is_some (JS.split "." (name file)) (split_not_empty _ _))
    as (x & rest & ->).
  cbn [JS.or_else_undef].
  exists (JS.or_else (JS.join "." rest) "document").
  exists (if String.eqb (type file) "application/pdf" then "png" else JS.or_else x "png").
  split; [apply or_else_not_empty; discriminate |].
  split.
  - destruct (String.eqb (type file) "application/pdf");
      [discriminate | apply or_else_not_empty; discriminate].
  - split; [reflexivity |]. intros ->. reflexivity.
Qed.

(** X13: a name without a dot is taken whole as the extension.  For
    every name that is not empty and has no dot, the base is
    ["document"] and the extension is the name itself, or [png] for a
    PDF. *)
Theorem downloadName_of_a_name_without_dot (fileName mime : string) (bytes : Z) :
  fileName <> "" -> JS.includes fileName "." = false ->
  downloadName (mkFile fileName mime bytes)
  = "document_watermarked."
      ++ (if String.eqb mime "application/pdf" then "png" else fileName).
Proof.
  intros Hname Hdot. unfold downloadName. cbn [name type].
  rewrite (split_without_separator _ _ Hdot). cbn [JS.pop JS.or_else_undef].
  destruct fileName; [contradiction |]. reflexivity.
Qed.

(** A photo that the camera named without extension. *)
Lemma downloadName_of_a_name_without_dot_witness :
  downloadName (mkFile "IMG_0042" "image/jpeg" 1024) = "document_watermarked.IMG_0042".
Proof.
  apply (downloadName_of_a_name_without_dot "IMG_0042" "image/jpeg" 1024);
    [discriminate | reflexivity].
Defined.

(** X14: a name that ends in a dot gets the extension [png], whatever
    the type of the file, and keeps what stands before the dot as its
    base; when nothing stands before it, as for the name ["."], the base
    is ["document"]. *)
Theorem downloadName_of_a_name_ending_in_a_dot (base mime : string) (bytes : Z) :
  downloadName (mkFile (base ++ ".") mime bytes)
  = JS.or_else base "document" ++ "_watermarked.png".
Proof.
  unfold downloadName. cbn [name type].
  change (base ++ ".") with (base ++ String "." EmptyString).
  rewrite split_at_separator. change (JS.split "." "") with [""].
  rewrite pop_last. cbn [JS.or_else_undef JS.or_else].
  change "."%string with (String "."%char EmptyString).
  rewrite join_split.
  destruct (String.eqb mime "application/pdf"); reflexivity.
Qed.

(** ** The geometry of the tiling, exactly *)

(** The tiling of [img.onload] with its exact numbers of rows and
    columns. *)
Lemma tiling_grid_exact (w h : Z) (tw : R) :
  0 < w -> 0 < h -> (0 < tw)%R ->
  stepFor (diagonalFor w h) (repetitionsFor (diagonalFor w h) (Fin tw))
  = Fin (diagonalR w h / IZR (rowCount (diagonalR w h) tw))
  /\ (0 < diagonalR w h / IZR (rowCount (diagonalR w h) tw))%R
  /\ forall (fuel : nat) (ctx : Canvas) (text : string),
       (Z.to_nat (rowCount (diagonalR w h) tw)
        + Z.to_nat (columnCount (diagonalR w h) tw) < fuel)%nat ->
       rows fuel ctx text (diagonalFor w h)
         (Fin (diagonalR w h / IZR (rowCount (diagonalR w h) tw)))
         (- diagonalFor w h / Fin 2)%num
       = Some (painted_more ctx
                 (tileGrid text (style ctx) (- diagonalR w h / 2) (- diagonalR w h / 2)
                    (diagonalR w h / IZR (rowCount (diagonalR w h) tw) * 2.5)
                    (diagonalR w h / IZR (rowCount (diagonalR w h) tw))
                    (Z.to_nat (rowCount (diagonalR w h) tw))
                    (Z.to_nat (columnCount (diagonalR w h) tw)))).
Proof.
  intros Hw Hh Htw.
  pose proof (diagonalR_pos w h Hw Hh) as Hdl.
  rewrite diagonalFor_fin. set (dl := diagonalR w h) in *.
  rewrite repetitionsFor_fin by assumption.
  unfold columnCount. unfold rowCount.
  set (m := Z.max 5 (ceilZ (dl / (tw * 0.7)))).
  rewrite stepFor_fin. fold m.
  assert (5 <= m) as Hm by (unfold m; lia).
  assert (5 <= IZR m)%R as HmR by (apply IZR_le in Hm; lra).
  set (s := (dl / IZR m)%R).
  assert (s * IZR m = dl)%R as Hs by (unfold s; field; lra).
  assert (0 < s)%R as Hspos by (unfold s; apply Rdiv_lt_0_compat; lra).
  set (c := (2 * m + 4) / 5).
  assert (2 * m <= 5 * c /\ 5 * c < 2 * m + 5) as [Hc1 Hc2].
  { unfold c. pose proof (Z.div_mod (2 * m + 4) 5 ltac:(lia)).
    pose proof (Z.mod_pos_bound (2 * m + 4) 5 ltac:(lia)). lia. }
  assert (0 < c) as Hcpos by lia.
  assert (INR (Z.to_nat m) = IZR m) as Hn.
  { rewrite INR_IZR_INZ, Z2Nat.id by lia. reflexivity. }
  assert (INR (Z.to_nat c) = IZR c) as Hnc.
  { rewrite INR_IZR_INZ, Z2Nat.id by lia. reflexivity. }
  assert (2 * IZR m <= 5 * IZR c)%R as Hc1R.
  { apply IZR_le in Hc1. rewrite !mult_IZR in Hc1. lra. }
  split; [reflexivity | split; [assumption |]].
  intros fuel ctx text Hfuel.
  cbn [num_neg]. rewrite half_fin.
  apply rows_finished; try assumption.
  - rewrite Hnc. nra.
  - intros j Hj.
    assert (5 * IZR (Z.of_nat j) + 5 <= 5 * IZR c)%R as Hj'.
    { assert (5 * Z.of_nat j + 5 <= 5 * c) as HjZ by lia.
      apply IZR_le in HjZ. rewrite plus_IZR, !mult_IZR in HjZ. lra. }
    assert (5 * IZR c < 2 * IZR m + 5)%R as Hc2R.
    { apply IZR_lt in Hc2. rewrite plus_IZR, !mult_IZR in Hc2. lra. }
    rewrite INR_IZR_INZ. nra.
  - rewrite Hn. lra.
  - intros k Hk.
    assert (INR k + 1 <= IZR m)%R as Hk'.
    { rewrite <- Hn, <- S_INR. apply le_INR. lia. }
    nra.
Qed.

Lemma tileRow_length (text : string) (st : TextStyle) (x0 sx : R) (y : num) (ncols : nat) :
  List.length (tileRow text st x0 sx y ncols) = ncols.
Proof. unfold tileRow. now rewrite length_map, length_seq. Qed.

Lemma tileGrid_length (text : string) (st : TextStyle) (x0 y0 sx sy : R)
    (nrows ncols : nat) :
  List.length (tileGrid text st x0 y0 sx sy nrows ncols) = (nrows * ncols)%nat.
Proof.
  revert y0. induction nrows as [| nrows IH]; intros y0; [reflexivity |].
  rewrite tileGrid_succ, length_app, tileRow_length, IH. reflexivity.
Qed.

Lemma NoDup_map_injective {A B : Type} (f : A -> B) (l : list A) :
  (forall a b, f a = f b -> a = b) -> NoDup l -> NoDup (map f l).
Proof.
  intros Hinj Hl. induction Hl as [| a l Hnotin _ IH]; [constructor |].
  cbn [map]. constructor; [| exact IH].
  intros Hin. apply in_map_iff in Hin. destruct Hin as (b & Heq & Hb).
  apply Hinj in Heq. subst b. contradiction.
Qed.

Lemma steps_are_distinct (x0 sx : R) (n : nat) :
  (0 < sx)%R -> NoDup (map (fun j => Fin (x0 + INR j * sx)) (seq 0 n)).
Proof.
  intros Hsx. apply NoDup_map_injective; [| apply seq_NoDup].
  intros j k Heq. injection Heq as Heq. apply INR_eq. nra.
Qed.

Lemma tileGrid_crossings (text : string) (st : TextStyle) (x0 y0 sx sy : R)
    (nrows ncols : nat) :
  tileGrid text st x0 y0 sx sy nrows ncols
  = crossings text st (map (fun j => Fin (x0 + INR j * sx)) (seq 0 ncols))
      (map (fun k => Fin (y0 + INR k * sy)) (seq 0 nrows)).
Proof.
  unfold tileGrid, crossings, tileRow.
  rewrite flat_map_concat_map, flat_map_concat_map, map_map.
  f_equal. apply map_ext. intros k. now rewrite map_map.
Qed.

Lemma crossings_length (text : string) (st : TextStyle) (xs ys : list num) :
  List.length (crossings text st xs ys) = (List.length ys * List.length xs)%nat.
Proof.
  unfold crossings. induction ys as [| y ys IH]; [reflexivity |].
  cbn [flat_map List.length]. now rewrite length_app, length_map, IH.
Qed.

(** X15: the watermark is a full grid of at least ten tiles.  For a
    source of positive size and a text of positive measured width, with a
    context, [img.onload] ends, and the tiles it has painted are the
    crossings of one list of at least two different [x], the same for
    every row, with a list of at least five different [y], painted row
    after row. *)
Theorem tiling_is_a_full_grid (rt : Runtime) (text : string) (img : dataURL) :
  0 < naturalWidth img -> 0 < naturalHeight img ->
  context2d rt (naturalWidth img) (naturalHeight img) = true ->
  (0 < measuredWidth rt text (naturalWidth img) (naturalHeight img))%R ->
  exists (xs ys : list num) (fuel0 : nat),
    (2 <= List.length xs)%nat /\ (5 <= List.length ys)%nat
    /\ NoDup xs /\ NoDup ys
    /\ (10 <= List.length
                (crossings (effectiveText text)
                   (watermarkStyle (naturalWidth img) (naturalHeight img)) xs ys))%nat
    /\ forall (fuel : nat) (s : State),
         (fuel0 <= fuel)%nat ->
         img_onload fuel rt text img s
         = Some (storedState
                   (watermarked img
                      (crossings (effectiveText text)
                         (watermarkStyle (naturalWidth img) (naturalHeight img))
                         xs ys)) s).
Proof.
  intros Hw Hh Hctx Htw.
  destruct (tiling_grid_exact _ _ _ Hw Hh Htw) as (Hstep & Hpos & Hrun).
  set (d := diagonalR (naturalWidth img) (naturalHeight img)) in *.
  set (tw := measuredWidth rt text (naturalWidth img) (naturalHeight img)) in *.
  set (step := (d / IZR (rowCount d tw))%R) in *.
  assert (5 <= rowCount d tw) as Hm by (unfold rowCount; lia).
  assert (2 <= columnCount d tw) as Hc.
  { unfold columnCount. apply Z.div_le_lower_bound; lia. }
  exists (map (fun j => Fin (- d / 2 + INR j * (step * 2.5)))
            (seq 0 (Z.to_nat (columnCount d tw)))),
    (map (fun k => Fin (- d / 2 + INR k * step)) (seq 0 (Z.to_nat (rowCount d tw)))),
    (S (Z.to_nat (rowCount d tw) + Z.to_nat (columnCount d tw))).
  rewrite crossings_length, !length_map, !length_seq.
  split; [lia |]. split; [lia |].
  split; [apply steps_are_distinct; lra |].
  split; [apply steps_are_distinct; lra |].
  split; [nia |].
  intros fuel s Hfuel.
  rewrite <- tileGrid_crossings.
  rewrite img_onload_unfold, Hctx.
  unfold tilingStep. fold tw. fold d. rewrite Hstep.
  rewrite Hrun by lia.
  unfold watermarked, painted_more, tilingCanvas. cbn [width height calls style].
  rewrite <- app_assoc. reflexivity.
Qed.

(** The scan of 3 x 4 with the text ["DRAFT"] measured at 10. *)
Lemma tiling_is_a_full_grid_witness :
  exists (xs ys : list num) (fuel0 : nat),
    (2 <= List.length xs)%nat /\ (5 <= List.length ys)%nat
    /\ NoDup xs /\ NoDup ys
    /\ (10 <= List.length (crossings "DRAFT" (watermarkStyle 3 4) xs ys))%nat
    /\ forall (fuel : nat) (s : State),
         (fuel0 <= fuel)%nat ->
         img_onload fuel (plainRuntime 10) "DRAFT" photo3x4 s
         = Some (storedState
                   (watermarked photo3x4 (crossings "DRAFT" (watermarkStyle 3 4) xs ys))
                   s).
Proof.
  apply (tiling_is_a_full_grid (plainRuntime 10) "DRAFT" photo3x4);
    try reflexivity.
  unfold measuredWidth. cbn. lra.
Defined.

(** The stored bitmap with the facts about its grid that locate a point
    in a cell: the rows end at half the diagonal and the columns reach
    it. *)
Lemma tiling_reaches_half_the_diagonal (rt : Runtime) (text : string) (img : dataURL) :
  0 < naturalWidth img -> 0 < naturalHeight img ->
  context2d rt (naturalWidth img) (naturalHeight img) = true ->
  (0 < measuredWidth rt text (naturalWidth img) (naturalHeight img))%R ->
  let d := diagonalR (naturalWidth img) (naturalHeight img) in
  let tw := measuredWidth rt text (naturalWidth img) (naturalHeight img) in
  let step := (d / IZR (rowCount d tw))%R in
  (0 < step)%R
  /\ ((1 <= Z.to_nat (rowCount d tw))%nat
      /\ (- d / 2 + INR (Z.to_nat (rowCount d tw)) * step = d / 2)%R)
  /\ ((1 <= Z.to_nat (columnCount d tw))%nat
      /\ (d / 2 <= - d / 2 + INR (Z.to_nat (columnCount d tw)) * (step * 2.5))%R)
  /\ forall (fuel : nat) (s : State),
       (Z.to_nat (rowCount d tw) + Z.to_nat (columnCount d tw) < fuel)%nat ->
       img_onload fuel rt text img s
       = Some (storedState
                 (watermarked img
                    (tileGrid (effectiveText text)
                       (watermarkStyle (naturalWidth img) (naturalHeight img))
                       (- d / 2) (- d / 2) (step * 2.5) step
                       (Z.to_nat (rowCount d tw)) (Z.to_nat (columnCount d tw)))) s).
Proof.
  intros Hw Hh Hctx Htw d tw step.
  destruct (tiling_grid_exact _ _ _ Hw Hh Htw) as (Hstep & Hpos & Hrun).
  fold d tw in Hstep, Hpos, Hrun. fold step in Hstep, Hpos, Hrun.
  pose proof (diagonalR_pos _ _ Hw Hh) as Hd. fold d in Hd.
  assert (5 <= rowCount d tw) as Hm by (unfold rowCount; lia).
  assert (5 <= IZR (rowCount d tw))%R as HmR by (apply IZR_le in Hm; lra).
  assert (step * IZR (rowCount d tw) = d)%R as Hs by (unfold step; field; lra).
  assert (2 * rowCount d tw <= 5 * columnCount d tw) as Hc.
  { unfold columnCount.
    pose proof (Z.div_mod (2 * rowCount d tw + 4) 5 ltac:(lia)).
    pose proof (Z.mod_pos_bound (2 * rowCount d tw + 4) 5 ltac:(lia)). lia. }
  assert (INR (Z.to_nat (rowCount d tw)) = IZR (rowCount d tw)) as Hn.
  { rewrite INR_IZR_INZ, Z2Nat.id by lia. reflexivity. }
  assert (INR (Z.to_nat (columnCount d tw)) = IZR (columnCount d tw)) as Hnc.
  { rewrite INR_IZR_INZ, Z2Nat.id by lia. reflexivity. }
  split; [exact Hpos |].
  split; [split; [lia | rewrite Hn; lra] |].
  split.
  { split; [lia |]. rewrite Hnc.
    apply IZR_le in Hc. rewrite !mult_IZR in Hc. nra. }
  intros fuel s Hfuel.
  rewrite img_onload_unfold, Hctx.
  unfold tilingStep. fold tw. fold d. rewrite Hstep. fold d in Hrun.
  rewrite Hrun by assumption.
  unfold watermarked, painted_more, tilingCanvas. cbn [width height calls style].
  rewrite <- app_assoc. reflexivity.
Qed.

(** ** Where the tiles are on the bitmap *)

Lemma frame_translate (w : Z) : (num_of_Z w / Fin 2)%num = Fin (IZR w / 2).
Proof. unfold num_of_Z. apply half_fin. Qed.

Lemma frame_translate_back (w : Z) : (- num_of_Z w / Fin 2)%num = Fin (- IZR w / 2).
Proof. unfold num_of_Z. cbn [num_neg]. apply half_fin. Qed.

Lemma frame_angle : (- Math_PI / Fin 4)%num = Fin (- PI / 4).
Proof. unfold Math_PI. cbn [num_neg]. apply num_div_fin. lra. Qed.

Lemma frame_angle_back : (- (- Math_PI / Fin 4))%num = Fin (- (- PI / 4)).
Proof. rewrite frame_angle. reflexivity. Qed.

(** The matrix under which the tiles are painted: the frame is moved to
    the centre of the bitmap and rotated by [- PI / 4]. *)
Lemma tilingCanvas_transform (img : dataURL) (x y : R) :
  transformed (idealTransform (calls (tilingCanvas img))) x y
  = ((IZR (naturalWidth img) / 2 + (x * cos (- PI / 4) - y * sin (- PI / 4)))%R,
     (IZR (naturalHeight img) / 2 + (x * sin (- PI / 4) + y * cos (- PI / 4)))%R).
Proof.
  unfold idealTransform, tilingCanvas. cbn [calls fold_left].
  rewrite !frame_translate, frame_angle.
  unfold transformed, transformAfter, composeTransform, identityTransform.
  cbn [ta tb tc td te tf].
  f_equal; ring.
Qed.

Lemma tiles_keep_the_transform (text : string) (st : TextStyle) (tiles : list call)
    (m : Transform) (rest : list call) :
  Forall (paintsText text st) tiles ->
  fold_left transformAfter (tiles ++ rest) m = fold_left transformAfter rest m.
Proof.
  intros Hall. induction Hall as [| c tiles (x & y & ->) _ IH]; [reflexivity |].
  cbn [app fold_left transformAfter]. exact IH.
Qed.

Lemma rotation_is_undone (a : R) :
  (cos a * cos a + sin a * sin a = 1)%R.
Proof. pose proof (sin2_cos2 a) as H. unfold Rsqr in H. lra. Qed.

(** X16: [img.onload] takes every move of the frame back.  In every
    bitmap it stores the calls are the drawing of the source, a
    [translate], a [rotate], the tiles, which do not move the frame, and
    then the same two calls with negated arguments in reverse order.
    Over the real numbers the matrix these calls denote is the identity;
    the matrix of a canvas, which is rounded at each call, is not
    modelled. *)
Theorem frame_moves_are_taken_back (fuel : nat) (rt : Runtime) (text : string)
    (img out : dataURL) (s s' : State) :
  img_onload fuel rt text img s = Some s' ->
  watermarkedImageSrc s' = Some out ->
  exists (draw move turn turnBack moveBack : call) (tiles : list call),
    paintedCalls out = (draw :: move :: turn :: tiles ++ [turnBack; moveBack])%list
    /\ movesFrame draw = false
    /\ Forall (fun c => movesFrame c = false) tiles
    /\ undoes turnBack turn
    /\ undoes moveBack move
    /\ idealTransform (paintedCalls out) = identityTransform.
Proof.
  intros Hrun Hout. apply img_onload_inv in Hrun.
  destruct Hrun as [[_ ->] | (_ & tiles & Hall & _ & ->)]; [discriminate |].
  injection Hout as <-.
  do 5 eexists. exists tiles.
  split; [reflexivity |].
  split; [reflexivity |].
  split.
  { apply Forall_impl with (2 := Hall). intros c (x & y & ->). reflexivity. }
  split; [reflexivity |].
  split.
  { cbn [undoes]. rewrite !frame_translate, !frame_translate_back. cbn [num_neg].
    split; f_equal; field. }
  unfold idealTransform, watermarked, paintedCalls.
  rewrite fold_left_app, (tiles_keep_the_transform _ _ _ _ _ Hall).
  cbn [fold_left].
  rewrite !frame_translate, !frame_translate_back, frame_angle_back, frame_angle.
  unfold transformAfter, composeTransform, identityTransform. cbn [ta tb tc td te tf].
  rewrite cos_neg, sin_neg.
  pose proof (rotation_is_undone (- PI / 4)) as Hrot.
  set (c := cos (- PI / 4)) in *. set (sn := sin (- PI / 4)) in *.
  set (W := IZR (naturalWidth img)). set (H := IZR (naturalHeight img)).
  f_equal.
  - transitivity (c * c + sn * sn)%R; [ring | exact Hrot].
  - ring.
  - ring.
  - transitivity (c * c + sn * sn)%R; [ring | exact Hrot].
  - transitivity (- W / 2 * (c * c + sn * sn) + W / 2)%R; [ring | rewrite Hrot; lra].
  - transitivity (- H / 2 * (c * c + sn * sn) + H / 2)%R; [ring | rewrite Hrot; lra].
Qed.

(** The 3 x 4 image watermarked with ["DRAFT"]. *)
Lemma frame_moves_are_taken_back_witness :
  exists (draw move turn turnBack moveBack : call) (tiles : list call),
    paintedCalls draftOn3x4
    = (draw :: move :: turn :: tiles ++ [turnBack; moveBack])%list
    /\ movesFrame draw = false
    /\ Forall (fun c => movesFrame c = false) tiles
    /\ undoes turnBack turn
    /\ undoes moveBack move
    /\ idealTransform (paintedCalls draftOn3x4) = identityTransform.
Proof.
  apply (frame_moves_are_taken_back 8 (plainRuntime 10) "DRAFT" photo3x4 draftOn3x4
           initialState (storedState draftOn3x4 initialState));
    [apply watermark_3x4; lia | reflexivity].
Defined.

(** A point between the first anchor of a row of [n] cells and the end of
    its last cell lies in one of the cells. *)
Lemma cell_of_a_point (x0 s t : R) :
  forall n : nat,
    (1 <= n)%nat ->
    (x0 <= t <= x0 + INR n * s)%R ->
    exists k : nat,
      (k < n)%nat /\ (x0 + INR k * s <= t <= x0 + INR k * s + s)%R.
Proof.
  induction n as [| n IH]; intros Hn Ht; [lia |].
  destruct n as [| n].
  - exists 0%nat. split; [lia |]. simpl in *. lra.
  - destruct (Rle_dec t (x0 + INR (S n) * s)) as [Hle | Hgt].
    + destruct (IH ltac:(lia) ltac:(lra)) as (k & Hk & Hcell).
      exists k. split; [lia | exact Hcell].
    + exists (S n). split; [lia |].
      rewrite (S_INR (S n)) in Ht. lra.
Qed.

Lemma anchors_of_tiles (text : string) (st : TextStyle) (m : Transform)
    (rest : list call) (x y : R) :
  forall tiles : list call,
    Forall (paintsText text st) tiles ->
    In (FillText text (Fin x) (Fin y) st) tiles ->
    In (transformed m x y) (anchorsFrom m (tiles ++ rest)).
Proof.
  induction tiles as [| c tiles IH]; intros Hall Hin; [contradiction |].
  inversion Hall as [| c' tiles' (x' & y' & ->) Hall']; subst.
  cbn [app anchorsFrom].
  destruct Hin as [Heq | Hin].
  - injection Heq as -> ->. left. reflexivity.
  - destruct x' as [rx | | |]; try (cbn [transformAfter]; now apply IH).
    destruct y' as [ry | | |]; try (cbn [transformAfter]; now apply IH).
    right. now apply IH.
Qed.

Lemma tileGrid_in (text : string) (st : TextStyle) (x0 y0 sx sy : R)
    (nrows ncols j k : nat) :
  (j < ncols)%nat -> (k < nrows)%nat ->
  In (FillText text (Fin (x0 + INR j * sx)) (Fin (y0 + INR k * sy)) st)
    (tileGrid text st x0 y0 sx sy nrows ncols).
Proof.
  intros Hj Hk. unfold tileGrid. apply in_flat_map.
  exists k. split; [apply in_seq; lia |].
  unfold tileRow. apply in_map_iff. exists j. split; [reflexivity | apply in_seq; lia].
Qed.

(** X17: the watermark covers all of the image.  For a source of
    positive size, with a context and a text of positive measured width,
    every point of the bitmap that [img.onload] stores lies within the
    cell of one of its tiles: its distance from the anchor of a tile is
    at most [sqrt 7.25], less than 2.7, times the step, because the
    tiled square has the diagonal of the image as its side and is
    centred where the image is. *)
Theorem every_point_is_near_a_tile (rt : Runtime) (text : string) (img : dataURL) :
  0 < naturalWidth img -> 0 < naturalHeight img ->
  context2d rt (naturalWidth img) (naturalHeight img) = true ->
  (0 < measuredWidth rt text (naturalWidth img) (naturalHeight img))%R ->
  let d := diagonalR (naturalWidth img) (naturalHeight img) in
  let tw := measuredWidth rt text (naturalWidth img) (naturalHeight img) in
  let step := (d / IZR (rowCount d tw))%R in
  exists (out : dataURL) (fuel0 : nat),
    (forall (fuel : nat) (s : State),
       (fuel0 <= fuel)%nat ->
       img_onload fuel rt text img s = Some (storedState out s))
    /\ forall px py : R,
         (0 <= px <= IZR (naturalWidth img))%R ->
         (0 <= py <= IZR (naturalHeight img))%R ->
         exists ax ay : R,
           In (ax, ay) (textAnchors out)
           /\ ((px - ax) * (px - ax) + (py - ay) * (py - ay) <= 7.25 * (step * step))%R.
Proof.
  intros Hw Hh Hctx Htw d tw step.
  destruct (tiling_reaches_half_the_diagonal rt text img Hw Hh Hctx Htw)
    as (Hpos & Hrows & Hcols & Hrun).
  fold d tw in Hpos, Hrows, Hcols, Hrun. fold step in Hpos, Hrows, Hcols, Hrun.
  set (nrows := Z.to_nat (rowCount d tw)) in *.
  set (ncols := Z.to_nat (columnCount d tw)) in *.
  set (W := IZR (naturalWidth img)). set (H := IZR (naturalHeight img)).
  assert (d * d = W * W + H * H)%R as Hdd.
  { unfold d, diagonalR. apply sqrt_sqrt.
    unfold W, H. nra. }
  assert (0 < d)%R as Hd by (apply diagonalR_pos; assumption).
  eexists. exists (S (nrows + ncols)).
  split; [intros fuel s Hfuel; apply Hrun; lia |].
  intros px py Hpx Hpy.
  set (c := cos (- PI / 4)). set (sn := sin (- PI / 4)).
  assert (c * c + sn * sn = 1)%R as Hrot by apply rotation_is_undone.
  set (u := (px - W / 2)%R). set (v := (py - H / 2)%R).
  set (x := (u * c + v * sn)%R). set (y := (- u * sn + v * c)%R).
  assert (x * x + y * y = u * u + v * v)%R as Hnorm.
  { unfold x, y.
    replace ((u * c + v * sn) * (u * c + v * sn)
             + (- u * sn + v * c) * (- u * sn + v * c))%R
      with ((u * u + v * v) * (c * c + sn * sn))%R by ring.
    rewrite Hrot. ring. }
  assert (u * u <= W * W / 4)%R as Hu by (unfold u; fold W in Hpx; nra).
  assert (v * v <= H * H / 4)%R as Hv by (unfold v; fold H in Hpy; nra).
  assert (x * x <= d * d / 4 /\ y * y <= d * d / 4)%R as [Hx2 Hy2] by (split; nra).
  assert (- d / 2 <= x <= d / 2)%R as Hx by (split; nra).
  assert (- d / 2 <= y <= d / 2)%R as Hy by (split; nra).
  destruct (cell_of_a_point (- d / 2) (step * 2.5) x ncols)
    as (j & Hj & Hcellx); [lia | lra |].
  destruct (cell_of_a_point (- d / 2) step y nrows)
    as (k & Hk & Hcelly); [lia | lra |].
  set (xj := (- d / 2 + INR j * (step * 2.5))%R) in *.
  set (yk := (- d / 2 + INR k * step)%R) in *.
  exists (W / 2 + (xj * c - yk * sn))%R, (H / 2 + (xj * sn + yk * c))%R.
  split.
  - unfold textAnchors, watermarked, paintedCalls.
    cbn [app anchorsFrom].
    unfold W, H, c, sn. rewrite <- (tilingCanvas_transform img xj yk).
    apply (anchors_of_tiles (effectiveText text)
             (watermarkStyle (naturalWidth img) (naturalHeight img))).
    + apply tileGrid_paints.
    + apply tileGrid_in; assumption.
  - set (dx := (x - xj)%R). set (dy := (y - yk)%R).
    assert (0 <= dx <= step * 2.5)%R as Hdx by (unfold dx; lra).
    assert (0 <= dy <= step)%R as Hdy by (unfold dy; lra).
    assert (px = W / 2 + (x * c - y * sn))%R as Hpx'.
    { unfold x, y, u.
      replace (W / 2 + ((((px - W / 2) * c + v * sn) * c
                        - (- (px - W / 2) * sn + v * c) * sn)))%R
        with (W / 2 + (px - W / 2) * (c * c + sn * sn))%R by ring.
      rewrite Hrot. ring. }
    assert (py = H / 2 + (x * sn + y * c))%R as Hpy'.
    { unfold x, y, v.
      replace (H / 2 + (((u * c + (py - H / 2) * sn) * sn
                        + (- u * sn + (py - H / 2) * c) * c)))%R
        with (H / 2 + (py - H / 2) * (c * c + sn * sn))%R by ring.
      rewrite Hrot. ring. }
    replace (px - (W / 2 + (xj * c - yk * sn)))%R with (dx * c - dy * sn)%R
      by (rewrite Hpx'; unfold dx, dy; ring).
    replace (py - (H / 2 + (xj * sn + yk * c)))%R with (dx * sn + dy * c)%R
      by (rewrite Hpy'; unfold dx, dy; ring).
    replace ((dx * c - dy * sn) * (dx * c - dy * sn)
             + (dx * sn + dy * c) * (dx * sn + dy * c))%R
      with ((dx * dx + dy * dy) * (c * c + sn * sn))%R by ring.
    rewrite Hrot. nra.
Qed.

(** The scan of 3 x 4 with the text ["DRAFT"] measured at 10. *)
Lemma every_point_is_near_a_tile_witness :
  let d := diagonalR 3 4 in
  let tw := 10%R in
  let step := (d / IZR (rowCount d tw))%R in
  exists (out : dataURL) (fuel0 : nat),
    (forall (fuel : nat) (s : State),
       (fuel0 <= fuel)%nat ->
       img_onload fuel (plainRuntime 10) "DRAFT" photo3x4 s = Some (storedState out s))
    /\ forall px py : R,
         (0 <= px <= 3)%R ->
         (0 <= py <= 4)%R ->
         exists ax ay : R,
           In (ax, ay) (textAnchors out)
           /\ ((px - ax) * (px - ax) + (py - ay) * (py - ay) <= 7.25 * (step * step))%R.
Proof.
  apply (every_point_is_near_a_tile (plainRuntime 10) "DRAFT" photo3x4);
    try reflexivity.
  unfold measuredWidth. cbn. lra.
Defined.

(** ** The size of the font *)

Lemma Rmin_IZR (a b : Z) : Rmin (IZR a) (IZR b) = IZR (Z.min a b).
Proof.
  destruct (Z.min_spec a b) as [[Hlt ->] | [Hle ->]].
  - apply Rmin_left. apply IZR_le. lia.
  - apply Rmin_right. apply IZR_le. lia.
Qed.

(** X18: the font of the watermark is a 25th of the smaller side of the
    image and never smaller than 12 pixels: it is 12 for every image
    whose smaller side is at most 300, also for one without area, and
    the 25th of that side from 300 on.  It is the size of the font of
    the style every tile is painted with. *)
Theorem font_is_a_25th_of_the_smaller_side_at_least_12 (w h : Z) :
  exists f : R,
    fontSizeFor w h = Fin f
    /\ fontSizePx (font (watermarkStyle w h)) = Fin f
    /\ (12 <= f)%R
    /\ (Z.min w h <= 300 -> f = 12%R)
    /\ (300 <= Z.min w h -> f = (IZR (Z.min w h) / 25)%R).
Proof.
  exists (Rmax 12 (IZR (Z.min w h) / 25)).
  assert (fontSizeFor w h = Fin (Rmax 12 (IZR (Z.min w h) / 25))) as Hsize.
  { unfold fontSizeFor, num_of_Z. cbn [Math_min].
    rewrite num_div_fin by lra. cbn [Math_max]. now rewrite Rmin_IZR. }
  split; [exact Hsize | split; [exact Hsize |]].
  split; [apply Rmax_l |].
  split; intros Hside; apply IZR_le in Hside.
  - apply Rmax_left. lra.
  - apply Rmax_right. lra.
Qed.

(** ** A text without width, on any image *)

(** X19: a text that measures nothing freezes the page on every image.
    For every preview of positive size for which the browser yields a
    context, when the text of the state has the measured width 0 the
    step is 0, and a click on "Apply Watermark" whose image loads never
    ends, whatever the fuel; the state it leaves behind is loading, with
    progress 0, so neither a card nor the progress bar would be
    shown. *)
Theorem widthless_text_freezes_the_page (rt : Runtime) (src : dataURL) (s : State) :
  originalImagePreviewSrc s = Some src ->
  0 < naturalWidth src -> 0 < naturalHeight src ->
  context2d rt (naturalWidth src) (naturalHeight src) = true ->
  measuredWidth rt (watermarkText s) (naturalWidth src) (naturalHeight src) = 0%R ->
  tilingStep rt (watermarkText s) (naturalWidth src) (naturalHeight src) = Fin 0
  /\ (forall fuel : nat, clickApply fuel rt true s = None)
  /\ isLoading (fst (applyWatermark s)) = true
  /\ showsProgress (fst (applyWatermark s)) = false
  /\ showsCustomize (fst (applyWatermark s)) = false
  /\ showsPreviewCard (fst (applyWatermark s)) = false.
Proof.
  intros Hsrc Hw Hh Hctx Htw.
  destruct (zero_width_never_finishes rt (watermarkText s) src Hw Hh Hctx Htw)
    as [Hstep Hrun].
  split; [exact Hstep |].
  split.
  - intros fuel. unfold clickApply, applyWatermark. rewrite Hsrc. apply Hrun.
  - unfold applyWatermark, showsProgress, showsCustomize, showsPreviewCard.
    rewrite Hsrc. state_simpl. rewrite !andb_false_r. repeat split.
Qed.

(** The watermarked session with the zero width space as its text. *)
Lemma widthless_text_freezes_the_page_witness :
  tilingStep widthlessRuntime zeroWidthSpace 3 4 = Fin 0
  /\ (forall fuel : nat,
        clickApply fuel widthlessRuntime true
          (setWatermarkText zeroWidthSpace watermarkedSession) = None)
  /\ isLoading (fst (applyWatermark (setWatermarkText zeroWidthSpace watermarkedSession)))
     = true
  /\ showsProgress (fst (applyWatermark (setWatermarkText zeroWidthSpace watermarkedSession)))
     = false
  /\ showsCustomize (fst (applyWatermark (setWatermarkText zeroWidthSpace watermarkedSession)))
     = false
  /\ showsPreviewCard (fst (applyWatermark (setWatermarkText zeroWidthSpace watermarkedSession)))
     = false.
Proof.
  apply (widthless_text_freezes_the_page widthlessRuntime photo3x4
           (setWatermarkText zeroWidthSpace watermarkedSession));
    reflexivity.
Defined.

(** ** How a PDF fails to load *)

(** X20: every failure of a PDF on its way to the preview is reported
    with its own message, or with "Failed to load or process the file."
    when it has none, leaves no preview and leaves the progress where the
    failure happened: at 30 when [atob] throws or the document is
    rejected, at 50 when page 1 is rejected, no context is obtained, for
    which the message is the one of the [throw], or the rendering is
    rejected. *)
Theorem pdf_failures_report_their_message (rt : Runtime) (ld : Loader)
    (file : File) (fileSrc : string) (s : State) :
  type file = "application/pdf" ->
  (forall m,
     atob ld (nth_error (JS.split "," fileSrc) 1) = Thrown m ->
     exists s',
       reader_onload rt ld file fileSrc s = Some s'
       /\ error s' = Some (JS.or_else m processingFailedText)
       /\ originalImagePreviewSrc s' = None /\ progress s' = 30)
  /\ (forall data m,
        atob ld (nth_error (JS.split "," fileSrc) 1) = Normal data ->
        getDocument ld data = Thrown m ->
        exists s',
          reader_onload rt ld file fileSrc s = Some s'
          /\ error s' = Some (JS.or_else m processingFailedText)
          /\ originalImagePreviewSrc s' = None /\ progress s' = 30)
  /\ (forall data pdf m,
        atob ld (nth_error (JS.split "," fileSrc) 1) = Normal data ->
        getDocument ld data = Normal pdf ->
        getPage pdf 1 = Thrown m ->
        exists s',
          reader_onload rt ld file fileSrc s = Some s'
          /\ error s' = Some (JS.or_else m processingFailedText)
          /\ originalImagePreviewSrc s' = None /\ progress s' = 50)
  /\ (forall data pdf page,
        atob ld (nth_error (JS.split "," fileSrc) 1) = Normal data ->
        getDocument ld data = Normal pdf ->
        getPage pdf 1 = Normal page ->
        context2d rt (width (pdfCanvas page)) (height (pdfCanvas page)) = false ->
        exists s',
          reader_onload rt ld file fileSrc s = Some s'
          /\ error s' = Some "Failed to get canvas context for PDF page."
          /\ originalImagePreviewSrc s' = None /\ progress s' = 50)
  /\ (forall data pdf page m,
        atob ld (nth_error (JS.split "," fileSrc) 1) = Normal data ->
        getDocument ld data = Normal pdf ->
        getPage pdf 1 = Normal page ->
        context2d rt (width (pdfCanvas page)) (height (pdfCanvas page)) = true ->
        render page (pdfCanvas page) (getViewport page 2.0) = Thrown m ->
        exists s',
          reader_onload rt ld file fileSrc s = Some s'
          /\ error s' = Some (JS.or_else m processingFailedText)
          /\ originalImagePreviewSrc s' = None /\ progress s' = 50).
Proof.
  intros Hpdf.
  assert (forall k : Exec unit,
            (if String.eqb (type file) "application/pdf" then k else
               if JS.startsWith (type file) "image/"
               then update (setOriginalImagePreviewSrc
                              (Some (FileData (fst (imageSize ld fileSrc))
                                       (snd (imageSize ld fileSrc)) fileSrc)))
               else ret tt) = k) as Hbranch.
  { intros k. rewrite Hpdf. reflexivity. }
  unfold reader_onload, try_catch_finally, bind, await, getContext.
  rewrite Hbranch.
  repeat split.
  - intros m Hatob. rewrite Hatob. eexists. split; [reflexivity |]. repeat split.
  - intros data m Hatob Hdoc. rewrite Hatob. cbn [ret]. rewrite Hdoc.
    eexists. split; [reflexivity |]. repeat split.
  - intros data pdf m Hatob Hdoc Hpage. rewrite Hatob. cbn [ret]. rewrite Hdoc.
    cbn [ret update]. rewrite Hpage.
    eexists. split; [reflexivity |]. repeat split.
  - intros data pdf page Hatob Hdoc Hpage Hctx. rewrite Hatob. cbn [ret]. rewrite Hdoc.
    cbn [ret update]. rewrite Hpage. cbn [ret].
    change (set_height (set_width createCanvas
                          (canvasLength 300 (fst (getViewport page 2.0))))
              (canvasLength 150 (snd (getViewport page 2.0))))
      with (pdfCanvas page).
    rewrite Hctx.
    eexists. split; [reflexivity |]. repeat split.
  - intros data pdf page m Hatob Hdoc Hpage Hctx Hrender. rewrite Hatob. cbn [ret].
    rewrite Hdoc. cbn [ret update]. rewrite Hpage. cbn [ret].
    change (set_height (set_width createCanvas
                          (canvasLength 300 (fst (getViewport page 2.0))))
              (canvasLength 150 (snd (getViewport page 2.0))))
      with (pdfCanvas page).
    rewrite Hctx. cbn [ret]. rewrite Hrender.
    eexists. split; [reflexivity |]. repeat split.
Qed.

(** The passport at each of the five failures: a data URL without
    comma, so that [atob] gets [undefined] and throws; a pdf.js that
    rejects the document; a document that rejects page 1 without a
    message; a browser without context; a page whose rendering is
    rejected. *)
Lemma pdf_failures_report_their_message_witness :
  (exists s',
     reader_onload (plainRuntime 10) sampleLoader passportPdf
       "data:application/pdf;base64" initialState = Some s'
     /\ error s' = Some "The string to be decoded is not correctly encoded."
     /\ originalImagePreviewSrc s' = None /\ progress s' = 30)
  /\ (exists s',
        reader_onload (plainRuntime 10) rejectingLoader passportPdf
          "data:application/pdf;base64,JVBERi0=" initialState = Some s'
        /\ error s' = Some "Invalid PDF structure."
        /\ originalImagePreviewSrc s' = None /\ progress s' = 30)
  /\ (exists s',
        reader_onload (plainRuntime 10) pagelessLoader passportPdf
          "data:application/pdf;base64,JVBERi0=" initialState = Some s'
        /\ error s' = Some "Failed to load or process the file."
        /\ originalImagePreviewSrc s' = None /\ progress s' = 50)
  /\ (exists s',
        reader_onload noContextRuntime sampleLoader passportPdf
          "data:application/pdf;base64,JVBERi0=" initialState = Some s'
        /\ error s' = Some "Failed to get canvas context for PDF page."
        /\ originalImagePreviewSrc s' = None /\ progress s' = 50)
  /\ (exists s',
        reader_onload (plainRuntime 10) brokenPageLoader passportPdf
          "data:application/pdf;base64,JVBERi0=" initialState = Some s'
        /\ error s' = Some "Rendering cancelled."
        /\ originalImagePreviewSrc s' = None /\ progress s' = 50).
Proof.
  split; [| split; [| split; [| split]]].
  - destruct (pdf_failures_report_their_message (plainRuntime 10) sampleLoader
                passportPdf "data:application/pdf;base64" initialState eq_refl)
      as (Hatob & _).
    apply (Hatob "The string to be decoded is not correctly encoded."). reflexivity.
  - destruct (pdf_failures_report_their_message (plainRuntime 10) rejectingLoader
                passportPdf "data:application/pdf;base64,JVBERi0=" initialState eq_refl)
      as (_ & Hdoc & _).
    apply (Hdoc "JVBERi0=" "Invalid PDF structure."); reflexivity.
  - destruct (pdf_failures_report_their_message (plainRuntime 10) pagelessLoader
                passportPdf "data:application/pdf;base64,JVBERi0=" initialState eq_refl)
      as (_ & _ & Hpage & _).
    apply (Hpage "JVBERi0=" (mkPdfDocument (fun _ => Thrown "")) ""); reflexivity.
  - destruct (pdf_failures_report_their_message noContextRuntime sampleLoader
                passportPdf "data:application/pdf;base64,JVBERi0=" initialState eq_refl)
      as (_ & _ & _ & Hctx & _).
    apply (Hctx "JVBERi0="
             (mkPdfDocument (fun n => if n =? 1 then Normal samplePage
                                      else Thrown "Invalid page request."))
             samplePage); reflexivity.
  - destruct (pdf_failures_report_their_message (plainRuntime 10) brokenPageLoader
                passportPdf "data:application/pdf;base64,JVBERi0=" initialState eq_refl)
      as (_ & _ & _ & _ & Hrender).
    apply (Hrender "JVBERi0=" (mkPdfDocument (fun _ => Normal brokenPage)) brokenPage
             "Rendering cancelled."); reflexivity.
Defined.
